(** * entrypoint.py: the notebook job runner, embedded and verified

    The development follows [src/entrypoint.py] function by function.
    Python text ([str]) is a sequence of Unicode code points, so that the
    JSON escapes of [json.loads] / [json.dumps] (surrogate pairs included)
    can be written the way CPython's [json] module computes them.  The
    collaborators the script calls (HTTP client, kernel registry, subprocess,
    temporary-name generator) are fields of a [World] record; the file system
    and the two output streams are threaded through a state-and-exception
    monad.

    Two limits of the interpreter show in what [json.loads] raises and are
    parameters of the development ([Limits]): how deep arrays and objects
    may nest before the scanner raises [RecursionError], and how many digits
    an integer literal may have before [int] raises [ValueError].  Memory
    and disk are taken to be unbounded. *)

From Stdlib Require Import NArith ZArith Lia List String Ascii Bool.
From stdpp Require Import base option list strings gmap.

Local Open Scope N_scope.

(** ** Python text *)

(** A Python [str]: code points, each below [0x110000]. *)
Abbreviation str := (list N).

(** An ASCII literal as text. *)
Definition txt (s : string) : str :=
  List.map N_of_ascii (list_ascii_of_string s).

Definition is_digit (c : N) : bool := (48 <=? c) && (c <=? 57).
#[global] Arguments is_digit : simpl never.

Definition is_nil {A} (l : list A) : bool :=
  match l with [] => true | _ :: _ => false end.

(** Python truthiness of a text and of an optional text ([None] or [str]). *)
Definition truthy (s : str) : bool := negb (is_nil s).

Definition truthy_opt (o : option str) : bool :=
  match o with Some s => truthy s | None => false end.

(** [s.startswith(p)]. *)
Fixpoint startswith (s p : str) : bool :=
  match p, s with
  | [], _ => true
  | a :: p', b :: s' => (a =? b) && startswith s' p'
  | _ :: _, [] => false
  end.

(** [needle in hay]. *)
Fixpoint str_in (needle hay : str) : bool :=
  startswith hay needle ||
  match hay with
  | [] => false
  | _ :: hay' => str_in needle hay'
  end.

(** [s.lower()] on the ASCII letters.  Kernel identifiers are ASCII: the
    registry only lists names matching [[a-z0-9._-]+] (case ignored). *)
Definition lower_char (c : N) : N :=
  if (65 <=? c) && (c <=? 90) then c + 32 else c.

Definition lower (s : str) : str := List.map lower_char s.

(** A surrogate code point, and text made of Unicode scalar values only
    (what decoding well-formed UTF-8 yields). *)
Definition is_high_surrogate (c : N) : bool := (0xD800 <=? c) && (c <=? 0xDBFF).
Definition is_low_surrogate (c : N) : bool := (0xDC00 <=? c) && (c <=? 0xDFFF).
Definition is_surrogate (c : N) : bool := (0xD800 <=? c) && (c <=? 0xDFFF).

Definition is_scalar (c : N) : bool := (c <? 0x110000) && negb (is_surrogate c).
Definition scalar_text (t : str) : bool := forallb is_scalar t.

(** ** Decimal numerals: [int.__repr__] and [int(...)] *)

Fixpoint digits_of (fuel : nat) (n : N) (acc : str) : str :=
  match fuel with
  | O => acc
  | S fuel' =>
    let acc' := (48 + n mod 10) :: acc in
    if n <? 10 then acc' else digits_of fuel' (n / 10) acc'
  end.

Definition dec_N (n : N) : str := digits_of (S (N.to_nat (N.log2 n))) n [].

Definition dec_nat (n : nat) : str := dec_N (N.of_nat n).

Definition dec_Z (z : Z) : str :=
  match z with
  | Zneg p => 45 :: dec_N (Npos p)
  | _ => dec_N (Z.to_N z)
  end.

(** Value of a run of decimal digits, most significant first. *)
Definition digits_value (ds : str) : N :=
  fold_left (fun acc d => 10 * acc + (d - 48)) ds 0.

(** [int(lit)] for a literal [-?digits]. *)
Definition int_of_literal (lit : str) : Z :=
  match lit with
  | c :: ds => if c =? 45 then (- Z.of_N (digits_value ds))%Z
               else Z.of_N (digits_value lit)
  | [] => 0%Z
  end.

(** ** The JSON scanner of CPython ([Modules/_json.c], as [json.loads] uses it) *)

(** Outcome of a scanning step.  A failure records how many characters were
    still unread at the offending index, so the index is the length of the
    document minus that number. *)
Inductive container : Type := JArray | JObject.

(** What cuts a scan short without being a decoding error: the recursion
    limit reached on entering a container, or an integer literal of too
    many digits. *)
Inductive fault : Type :=
| TooDeep (entering : container)
| IntTooLong (digits : nat).

Inductive scan (A : Type) : Type :=
| Scanned (a : A) (rest : str)
| Stop (unread : nat)                  (* StopIteration(idx) *)
| Bad (msg : str) (unread : nat)       (* JSONDecodeError(msg, doc, idx) *)
| Fault (f : fault).                   (* RecursionError, ValueError *)
Arguments Scanned {A} a rest.
Arguments Stop {A} unread.
Arguments Bad {A} msg unread.
Arguments Fault {A} f.

Definition scan_map {A B} (f : A -> B) (r : scan A) : scan B :=
  match r with
  | Scanned a rest => Scanned (f a) rest
  | Stop k => Stop k
  | Bad m k => Bad m k
  | Fault x => Fault x
  end.

(** JSON whitespace: space, tab, line feed, carriage return. *)
Definition is_ws (c : N) : bool :=
  (c =? 32) || (c =? 9) || (c =? 10) || (c =? 13).

Fixpoint skip_ws (s : str) : str :=
  match s with
  | c :: r => if is_ws c then skip_ws r else s
  | [] => []
  end.

Definition hex_val (c : N) : option N :=
  if is_digit c then Some (c - 48)
  else if (97 <=? c) && (c <=? 102) then Some (c - 87)
  else if (65 <=? c) && (c <=? 70) then Some (c - 55)
  else None.

(** Four hex digits, folded as [c <<= 4; c |= digit]. *)
Definition hex4 (h1 h2 h3 h4 : N) : option N :=
  match hex_val h1, hex_val h2, hex_val h3, hex_val h4 with
  | Some a, Some b, Some c, Some d =>
      Some (N.lor (N.shiftl (N.lor (N.shiftl (N.lor (N.shiftl a 4) b) 4) c) 4) d)
  | _, _, _, _ => None
  end.

(** [Py_UNICODE_JOIN_SURROGATES]. *)
Definition join_surrogates (high low : N) : N :=
  N.lor (N.shiftl (N.land high 0x3FF) 10) (N.land low 0x3FF) + 0x10000.

(** The character a one-letter escape stands for. *)
Definition backslash (e : N) : option N :=
  if e =? 34 then Some 34            (* quote *)
  else if e =? 92 then Some 92       (* backslash *)
  else if e =? 47 then Some 47       (* slash *)
  else if e =? 98 then Some 8        (* b: backspace *)
  else if e =? 102 then Some 12      (* f: form feed *)
  else if e =? 110 then Some 10      (* n: line feed *)
  else if e =? 114 then Some 13      (* r: carriage return *)
  else if e =? 116 then Some 9       (* t: tab *)
  else None.

Definition msg_unterminated : str := txt "Unterminated string starting at".
Definition msg_invalid_u : str := txt "Invalid \uXXXX escape".
Definition msg_invalid_escape : str := txt "Invalid \escape".
Definition msg_control : str := txt "Invalid control character at".
Definition msg_expecting_value : str := txt "Expecting value".
Definition msg_property_name : str :=
  txt "Expecting property name enclosed in double quotes".
Definition msg_colon : str := txt "Expecting ':' delimiter".
Definition msg_comma : str := txt "Expecting ',' delimiter".
Definition msg_extra : str := txt "Extra data".
Definition msg_bom : str := txt "Unexpected UTF-8 BOM (decode using utf-8-sig)".

Definition scan_cons (c : N) (r : scan str) : scan str :=
  scan_map (cons c) r.

(** [scanstring_unicode] in strict mode; [s] starts just after the opening
    quote, which stood where [begin] characters were unread. *)
Fixpoint scanstring (begin : nat) (s : str) : scan str :=
  match s with
  | [] => Bad msg_unterminated begin
  | c :: r =>
    if c =? 34 then Scanned [] r
    else if c =? 92 then
      match r with
      | [] => Bad msg_unterminated begin
      | e :: r1 =>
        if e =? 117 then
          match r1 with
          | h1 :: h2 :: h3 :: h4 :: ((_ :: _) as r2) =>
            match hex4 h1 h2 h3 h4 with
            | None => Bad msg_invalid_u (List.length r)
            | Some u =>
              match r2 with
              | b :: u' :: g1 :: g2 :: g3 :: g4 :: ((_ :: _) as r3) =>
                if is_high_surrogate u && (b =? 92) && (u' =? 117) then
                  match hex4 g1 g2 g3 g4 with
                  | None => Bad msg_invalid_u (5 + List.length r3)
                  | Some u2 =>
                    if is_low_surrogate u2
                    then scan_cons (join_surrogates u u2) (scanstring begin r3)
                    else scan_cons u (scanstring begin r2)
                  end
                else scan_cons u (scanstring begin r2)
              | _ => scan_cons u (scanstring begin r2)
              end
            end
          | _ => Bad msg_invalid_u (List.length r)
          end
        else
          match backslash e with
          | Some ch => scan_cons ch (scanstring begin r1)
          | None => Bad msg_invalid_escape (List.length s)
          end
      end
    else if c <=? 31 then Bad msg_control (List.length s)
    else scan_cons c (scanstring begin r)
  end.

Fixpoint span_digits (s : str) : str * str :=
  match s with
  | c :: r =>
    if is_digit c then let '(ds, t) := span_digits r in (c :: ds, t)
    else ([], s)
  | [] => ([], [])
  end.

(** [_match_number_unicode]: an optional minus sign, then a zero or a run
    of digits that does not start with zero, then an optional fraction (a
    dot and at least one digit), then an optional exponent (e or E, an
    optional sign, at least one digit).  Each part is cut off the front of
    the text, together with what is left. *)
Definition take_sign (s : str) : str * str :=
  match s with
  | c :: r => if c =? 45 then ([45], r) else ([], s)
  | [] => ([], s)
  end.

Definition take_int (s : str) : option (str * str) :=
  match s with
  | [] => None
  | c :: r =>
    if c =? 48 then Some ([48], r)
    else if (49 <=? c) && (c <=? 57)
         then let '(ds, t) := span_digits r in Some (c :: ds, t)
         else None
  end.

Definition take_frac (s : str) : str * str :=
  match s with
  | dot :: d :: r =>
    if (dot =? 46) && is_digit d
    then let '(ds, t) := span_digits (d :: r) in (46 :: ds, t)
    else ([], s)
  | _ => ([], s)
  end.

Definition take_exp (s : str) : str * str :=
  match s with
  | e :: r =>
    if (e =? 101) || (e =? 69) then
      let '(sg, r') :=
        match r with
        | g :: t => if (g =? 45) || (g =? 43) then ([g], t) else ([], r)
        | [] => ([], r)
        end in
      let '(ds, t) := span_digits r' in
      if is_nil ds then ([], s) else (e :: sg ++ ds, t)
    else ([], s)
  | [] => ([], s)
  end.

(** The literal matched, whether it has a fraction or an exponent, and the
    unread rest. *)
Definition match_number (s : str) : option (str * bool * str) :=
  let '(sign, s1) := take_sign s in
  match take_int s1 with
  | None => None
  | Some (ip, s2) =>
    let '(frac, s3) := take_frac s2 in
    let '(exp, s4) := take_exp s3 in
    Some (sign ++ ip ++ frac ++ exp, negb (is_nil frac && is_nil exp), s4)
  end.

(** ** [json.dumps]: the escapes of [encode_basestring_ascii] *)

(** [Py_hexdigits[d]]. *)
Definition hex_digit (d : N) : N := if d <? 10 then 48 + d else 87 + d.

Definition u_escape (c : N) : str :=
  [92; 117;
   hex_digit (N.land (N.shiftr c 12) 0xF);
   hex_digit (N.land (N.shiftr c 8) 0xF);
   hex_digit (N.land (N.shiftr c 4) 0xF);
   hex_digit (N.land c 0xF)].

(** [Py_UNICODE_HIGH_SURROGATE] and [Py_UNICODE_LOW_SURROGATE]. *)
Definition high_surrogate (c : N) : N := 0xD800 - N.shiftr 0x10000 10 + N.shiftr c 10.
Definition low_surrogate (c : N) : N := 0xDC00 + N.land c 0x3FF.

Definition ascii_escape_unichar (c : N) : str :=
  if c =? 92 then [92; 92]
  else if c =? 34 then [92; 34]
  else if c =? 8 then [92; 98]
  else if c =? 12 then [92; 102]
  else if c =? 10 then [92; 110]
  else if c =? 13 then [92; 114]
  else if c =? 9 then [92; 116]
  else if 0x10000 <=? c
       then u_escape (high_surrogate c) ++ u_escape (low_surrogate c)
       else u_escape c.

(** [S_CHAR]: printable ASCII other than the quote and the backslash. *)
Definition S_CHAR (c : N) : bool :=
  (32 <=? c) && (c <=? 126) && negb (c =? 92) && negb (c =? 34).

Definition escape_char (c : N) : str :=
  if S_CHAR c then [c] else ascii_escape_unichar c.

Definition encode_basestring_ascii (s : str) : str :=
  34 :: flat_map escape_char s ++ [34].

(** ** Exceptions *)

Inductive exn : Type :=
| ValueError (msg : str)
| RuntimeError (msg : str)
| JSONDecodeError (msg : str) (doc : str) (pos : nat)
| HTTPError (msg : str)
| FileNotFoundError (path : str)
| LibraryError (cls msg : str)   (* any other [Exception] a collaborator raises *)
| SystemExit (code : Z).

(** [except Exception] catches everything but [SystemExit]. *)
Definition is_Exception (e : exn) : bool :=
  match e with SystemExit _ => false | _ => true end.

Definition is_JSONDecodeError (e : exn) : bool :=
  match e with JSONDecodeError _ _ _ => true | _ => false end.

(** [doc.count('\n', 0, pos) + 1]. *)
Definition lineno (doc : str) (pos : nat) : nat :=
  S (List.length (List.filter (N.eqb 10) (take pos doc))).

(** [pos - doc.rfind('\n', 0, pos)], the rfind being -1 without a newline. *)
Fixpoint since_newline (rev_prefix : str) : nat :=
  match rev_prefix with
  | c :: r => if c =? 10 then O else S (since_newline r)
  | [] => O
  end.

Definition colno (doc : str) (pos : nat) : nat :=
  S (since_newline (rev (take pos doc))).

(** [str(e)]. *)
Definition str_of_exn (e : exn) : str :=
  match e with
  | ValueError m | RuntimeError m | HTTPError m | LibraryError _ m => m
  | JSONDecodeError m doc pos =>
      m ++ txt ": line " ++ dec_nat (lineno doc pos) ++ txt " column " ++
      dec_nat (colno doc pos) ++ txt " (char " ++ dec_nat pos ++ txt ")"
  | FileNotFoundError p =>
      txt "[Errno 2] No such file or directory: '" ++ p ++ txt "'"
  | SystemExit c => dec_Z c
  end.

(** A computation returns or raises. *)
Inductive res (A : Type) : Type :=
| Ok (a : A)
| Raise (e : exn).
Arguments Ok {A} a.
Arguments Raise {A} e.

(** ** Files *)

Inductive node : Type :=
| File (content : str)
| Dir.

(** The file system: what lives at each path. *)
Abbreviation fsmap := (gmap (list N) node).

(** Python's finite floats are a parameter of the development:
    [finite_of_literal lit] is [float(lit)] for a number literal, [None]
    when it overflows, and [finite_repr] is [float.__repr__]. *)
Class FloatModel (F : Type) : Type := {
  finite_of_literal : str -> option F;
  finite_repr : F -> str
}.

(** A model good enough to run examples: a float is the literal that
    denotes it, and nothing overflows. *)
Definition literal_float : Type := str.

Definition literal_floats : FloatModel literal_float := {|
  finite_of_literal lit := Some lit;
  finite_repr x := x
|}.

(** The limits of the interpreter are parameters too.  [loads_depth] is how
    many arrays and objects may be open at once when [format_parameters]
    calls [json.loads]: the recursion limit less the frames in use there.
    [response_depth] is the same where [send_webhook] calls
    [response.json()].  [int_max_str_digits] is what
    [sys.get_int_max_str_digits] returns, 0 meaning no limit. *)
Class Limits : Type := {
  loads_depth : nat;
  response_depth : nat;
  int_max_str_digits : nat
}.

(** Limits of the order of CPython's defaults: a recursion limit of 1000
    less the frames in use, and 4300 digits. *)
Definition default_limits : Limits := {|
  loads_depth := 990;
  response_depth := 985;
  int_max_str_digits := 4300
|}.

Section Entrypoint.

Context `{FloatModel F} {limits : Limits}.

Inductive pyfloat : Type :=
| FNaN
| FInf
| FNegInf
| FFinite (x : F).

(** [float(lit)] for a literal matched by [match_number]. *)
Definition parse_float (lit : str) : pyfloat :=
  match finite_of_literal lit with
  | Some x => FFinite x
  | None => if startswith lit [45] then FNegInf else FInf
  end.

(** [floatstr] of [json.encoder] with [allow_nan]. *)
Definition floatstr (f : pyfloat) : str :=
  match f with
  | FNaN => txt "NaN"
  | FInf => txt "Infinity"
  | FNegInf => txt "-Infinity"
  | FFinite x => finite_repr x
  end.

(** ** JSON values as Python objects *)

(** A [dict] is kept as its items in insertion order, keys distinct. *)
#[local] Unset Elimination Schemes.
Inductive value : Type :=
| VNull
| VBool (b : bool)
| VInt (z : Z)
| VFloat (f : pyfloat)
| VStr (s : str)
| VList (items : list value)
| VDict (members : list (str * value)).
#[local] Set Elimination Schemes.

(** [d[k] = v]: a key already present keeps its place. *)
Fixpoint dict_set (d : list (str * value)) (k : str) (v : value)
  : list (str * value) :=
  match d with
  | [] => [(k, v)]
  | (k', v') :: d' =>
    if decide (k' = k) then (k', v) :: d' else (k', v') :: dict_set d' k v
  end.

Definition dict_of_pairs (pairs : list (str * value)) : list (str * value) :=
  fold_left (fun d kv => dict_set d kv.1 kv.2) pairs [].

(** [PyLong_FromString] refuses a literal of more digits than the limit,
    when there is a limit and the literal has more than 640 digits. *)
Definition int_digits (lit : str) : nat :=
  List.length (List.filter is_digit lit).

Definition int_too_long (lit : str) : bool :=
  ((640 <? int_digits lit) && (0 <? int_max_str_digits)
   && (int_max_str_digits <? int_digits lit))%nat.

(** [scan_once_unicode], [_parse_array_unicode] and [_parse_object_unicode].
    The recursion is on a fuel that [json_loads] sets from the length of the
    document; [None] is fuel exhaustion.  [depth] is how many more
    containers may be entered: [Py_EnterRecursiveCall] is called on every
    opening bracket and brace, before anything else is read. *)
Fixpoint scan_once (n : nat) (depth : nat) (s : str) : option (scan value) :=
  match n with
  | O => None
  | S n' =>
    match s with
    | [] => Some (Stop O)
    | c :: r =>
      if c =? 34 then Some (scan_map VStr (scanstring (List.length s) r))
      else if c =? 123 then
        match depth with
        | O => Some (Fault (TooDeep JObject))
        | S depth' =>
          match skip_ws r with
          | c1 :: r1 =>
            if c1 =? 125 then Some (Scanned (VDict []) r1)
            else scan_map (fun ps => VDict (dict_of_pairs ps)) <$>
                   object_members n' depth' (skip_ws r)
          | [] => scan_map (fun ps => VDict (dict_of_pairs ps)) <$>
                    object_members n' depth' []
          end
        end
      else if c =? 91 then
        match depth with
        | O => Some (Fault (TooDeep JArray))
        | S depth' =>
          match skip_ws r with
          | c1 :: r1 =>
            if c1 =? 93 then Some (Scanned (VList []) r1)
            else scan_map VList <$> array_items n' depth' (skip_ws r)
          | [] => scan_map VList <$> array_items n' depth' []
          end
        end
      else if startswith s (txt "null") then Some (Scanned VNull (drop 4 s))
      else if startswith s (txt "true") then Some (Scanned (VBool true) (drop 4 s))
      else if startswith s (txt "false") then Some (Scanned (VBool false) (drop 5 s))
      else if startswith s (txt "NaN") then Some (Scanned (VFloat FNaN) (drop 3 s))
      else if startswith s (txt "Infinity")
           then Some (Scanned (VFloat FInf) (drop 8 s))
      else if startswith s (txt "-Infinity")
           then Some (Scanned (VFloat FNegInf) (drop 9 s))
      else
        match match_number s with
        | Some (lit, is_float, rest) =>
          if is_float then Some (Scanned (VFloat (parse_float lit)) rest)
          else if int_too_long lit
               then Some (Fault (IntTooLong (int_digits lit)))
               else Some (Scanned (VInt (int_of_literal lit)) rest)
        | None => Some (Stop (List.length s))
        end
    end
  end
with array_items (n : nat) (depth : nat) (s : str)
  : option (scan (list value)) :=
  match n with
  | O => None
  | S n' =>
    match scan_once n' depth s with
    | None => None
    | Some (Stop k) => Some (Stop k)
    | Some (Bad m k) => Some (Bad m k)
    | Some (Fault f) => Some (Fault f)
    | Some (Scanned v r) =>
      match skip_ws r with
      | c :: r1 =>
        if c =? 93 then Some (Scanned [v] r1)
        else if c =? 44
             then scan_map (cons v) <$> array_items n' depth (skip_ws r1)
        else Some (Bad msg_comma (List.length (skip_ws r)))
      | [] => Some (Bad msg_comma O)
      end
    end
  end
with object_members (n : nat) (depth : nat) (s : str)
  : option (scan (list (str * value))) :=
  match n with
  | O => None
  | S n' =>
    match s with
    | [] => Some (Bad msg_property_name O)
    | q :: r =>
      if q =? 34 then
        match scanstring (List.length s) r with
        | Stop k => Some (Stop k)
        | Bad m k => Some (Bad m k)
        | Fault f => Some (Fault f)
        | Scanned key r1 =>
          match skip_ws r1 with
          | [] => Some (Bad msg_colon O)
          | c :: r2 =>
            if c =? 58 then
              match scan_once n' depth (skip_ws r2) with
              | None => None
              | Some (Stop k) => Some (Stop k)
              | Some (Bad m k) => Some (Bad m k)
              | Some (Fault f) => Some (Fault f)
              | Some (Scanned v r3) =>
                match skip_ws r3 with
                | c' :: r4 =>
                  if c' =? 125 then Some (Scanned [(key, v)] r4)
                  else if c' =? 44
                       then scan_map (cons (key, v)) <$>
                              object_members n' depth (skip_ws r4)
                       else Some (Bad msg_comma (List.length (skip_ws r3)))
                | [] => Some (Bad msg_comma O)
                end
              end
            else Some (Bad msg_colon (List.length (skip_ws r1)))
          end
        end
      else Some (Bad msg_property_name (List.length s))
    end
  end.

(** What the interpreter raises for a fault: [RecursionError] with the
    message of [Py_EnterRecursiveCall], or the [ValueError] of [int]. *)
Definition exn_of_fault (f : fault) : exn :=
  match f with
  | TooDeep entering =>
    LibraryError (txt "RecursionError")
      (txt "maximum recursion depth exceeded while decoding a JSON " ++
       match entering with
       | JArray => txt "array"
       | JObject => txt "object"
       end ++ txt " from a unicode string")
  | IntTooLong digits =>
    ValueError
      (txt "Exceeds the limit (" ++ dec_nat int_max_str_digits ++
       txt " digits) for integer string conversion: value has " ++
       dec_nat digits ++
       txt " digits; use sys.set_int_max_str_digits() to increase the limit")
  end.

(** [json.loads(t)] for a [str], where [depth] containers may nest. *)
Definition json_loads_at (depth : nat) (t : str) : res value :=
  if startswith t [0xFEFF] then Raise (JSONDecodeError msg_bom t O)
  else
    let s := skip_ws t in
    match scan_once (2 * List.length s + 1) depth s with
    | Some (Scanned v rest) =>
      let rest' := skip_ws rest in
      if is_nil rest' then Ok v
      else Raise (JSONDecodeError msg_extra t (List.length t - List.length rest'))
    | Some (Stop k) =>
      Raise (JSONDecodeError msg_expecting_value t (List.length t - k))
    | Some (Bad m k) => Raise (JSONDecodeError m t (List.length t - k))
    | Some (Fault f) => Raise (exn_of_fault f)
    | None => Raise (RuntimeError (txt "scanner out of fuel"))
    end.

(** [json.loads] as [format_parameters] calls it, and as [response.json()]
    does. *)
Definition json_loads (t : str) : res value := json_loads_at loads_depth t.

Definition response_loads (t : str) : res value :=
  json_loads_at response_depth t.

(** ** [json.dumps(v, indent=2)] *)

Definition newline_indent (level : nat) : str :=
  10 :: repeat 32 (2 * level)%nat.

(** [_iterencode] of [json.encoder], the chunks joined. *)
Fixpoint dumps_at (level : nat) (v : value) : str :=
  match v with
  | VNull => txt "null"
  | VBool true => txt "true"
  | VBool false => txt "false"
  | VInt z => dec_Z z
  | VFloat f => floatstr f
  | VStr s => encode_basestring_ascii s
  | VList [] => txt "[]"
  | VList (x :: xs) =>
    [91] ++ newline_indent (S level) ++ dumps_at (S level) x ++
    (fix rest (l : list value) : str :=
       match l with
       | [] => []
       | y :: l' =>
         [44] ++ newline_indent (S level) ++ dumps_at (S level) y ++ rest l'
       end) xs ++
    newline_indent level ++ [93]
  | VDict [] => txt "{}"
  | VDict ((k, x) :: ms) =>
    [123] ++ newline_indent (S level) ++
    encode_basestring_ascii k ++ txt ": " ++ dumps_at (S level) x ++
    (fix rest (l : list (str * value)) : str :=
       match l with
       | [] => []
       | (k', y) :: l' =>
         [44] ++ newline_indent (S level) ++
         encode_basestring_ascii k' ++ txt ": " ++ dumps_at (S level) y ++
         rest l'
       end) ms ++
    newline_indent level ++ [125]
  end.

Definition json_dumps (v : value) : str := dumps_at O v.

(** ** [format_parameters] *)

Definition format_parameters (parameters_str : str) : res str :=
  match json_loads parameters_str with
  | Ok data => Ok (json_dumps data)
  | Raise e =>
    if is_JSONDecodeError e
    then Raise (ValueError (txt "Invalid JSON parameters: " ++ str_of_exn e))
    else Raise e
  end.

(** ** The world the script runs in *)

Record response : Type := {
  status_code : Z;
  reason : str;
  url : str;
  content : str
}.

(** What [requests.get] / [requests.post] do: answer, or raise a
    [RequestException] of some class. *)
Inductive http_result : Type :=
| Responded (r : response)
| Failed (cls msg : str).

(** What the process writes and whom it calls, in order. *)
Inductive event : Type :=
| Stdout (line : str)
| StdoutRepr (prefix : str) (v : value)   (* print(prefix + repr(v)) *)
| Stderr (line : str)
| HttpGet (target : str)
| HttpPost (target : str) (json : value) (headers : list (str * str))
| ListKernels                              (* the registry is queried *)
| Subprocess (cmd : list str) (files : fsmap).

Record World : Type := {
  (** [os.environ] *)
  environ : gmap string str;
  requests_get : str -> http_result;
  requests_post : str -> value -> list (str * str) -> http_result;
  (** [KernelSpecManager().get_all_specs()]: the names in enumeration
      order, or the class and message of what it raises. *)
  get_all_specs : list str + str * str;
  (** [subprocess.run(cmd, capture_output=True, text=True)]: what the child
      does to the files, and its return code and stderr, or the class and
      message of what [run] raises (the program is not installed). *)
  subprocess_run : list str -> fsmap -> fsmap * (Z * str + str * str);
  (** The names [tempfile] picks for a directory and for a file. *)
  mkdtemp : fsmap -> str;
  mkstemp : fsmap -> str;
  (** [open(path, 'wb')]: the class and message of the [OSError] it raises
      (the directory is missing, the path is a directory, ...), or [None]
      when the file is opened. *)
  open_error : fsmap -> str -> option (str * str)
}.

Variable W : World.

Record state : Type := {
  fs : fsmap;
  log : list event
}.

(** ** State and exceptions *)

Definition M (A : Type) : Type := state -> state * res A.

#[global] Instance M_ret : MRet M := fun A a s => (s, Ok a).

#[global] Instance M_bind : MBind M := fun A B f m s =>
  match m s with
  | (s', Ok a) => f a s'
  | (s', Raise e) => (s', Raise e)
  end.

Definition raise {A} (e : exn) : M A := fun s => (s, Raise e).

Definition lift {A} (r : res A) : M A := fun s => (s, r).

(** [try: body / except <catches> as e: handler e]. *)
Definition try_except {A} (body : M A) (catches : exn -> bool)
    (handler : exn -> M A) : M A := fun s =>
  match body s with
  | (s', Raise e) => if catches e then handler e s' else (s', Raise e)
  | done => done
  end.

(** [try: body / finally: final]. *)
Definition try_finally {A} (body : M A) (final : M unit) : M A := fun s =>
  let '(s1, r) := body s in
  match final s1 with
  | (s2, Ok _) => (s2, r)
  | (s2, Raise e) => (s2, Raise e)
  end.

(** The state once [ev] has happened. *)
Definition record (ev : event) (s : state) : state :=
  {| fs := fs s; log := log s ++ [ev] |}.

Definition emit (ev : event) : M unit := fun s => (record ev s, Ok tt).

Definition print (line : str) : M unit := emit (Stdout line).
Definition print_err (line : str) : M unit := emit (Stderr line).

Definition sys_exit {A} (code : Z) : M A := raise (SystemExit code).

Definition get_fs : M fsmap := fun s => (s, Ok (fs s)).
Definition put_fs (files : fsmap) : M unit := fun s =>
  ({| fs := files; log := log s |}, Ok tt).

(** ** Files and temporary names *)

Definition path_join (dir name : str) : str := dir ++ [47] ++ name.

(** [p] is [dir] or lies below it. *)
Definition within (dir p : str) : bool :=
  bool_decide (p = dir) || startswith p (dir ++ [47]).

(** The write of [NamedTemporaryFile] alone: the name is one that
    [tempfile] has just created, and the text written is the ASCII output
    of [json.dumps].  What [open] does on a path of the caller's is
    [open_write] below. *)
Definition write_file (path content : str) : M unit :=
  files ← get_fs; put_fs (<[path := File content]> files).

Definition os_unlink (path : str) : M unit :=
  files ← get_fs;
  match files !! path with
  | Some (File _) => put_fs (delete path files)
  | Some Dir => raise (LibraryError (txt "IsADirectoryError") path)
  | None => raise (FileNotFoundError path)
  end.

(** [with open(path, 'wb') as f: f.write(content)]. *)
Definition open_write (path content : str) : M unit :=
  files ← get_fs;
  match open_error W files path with
  | Some (cls, msg) => raise (LibraryError cls msg)
  | None => put_fs (<[path := File content]> files)
  end.

(** [TemporaryDirectory.cleanup], that is [shutil.rmtree] with the handler
    of [tempfile]: the directory goes with all that is below it; a path
    that is gone is passed over ([FileNotFoundError] is ignored; nothing
    can be below it); a path that has become a file makes [os.scandir]
    raise [NotADirectoryError], and everything stays. *)
Definition rmtree (dir : str) : M unit :=
  files ← get_fs;
  match files !! dir with
  | Some (File _) =>
    raise (LibraryError (txt "NotADirectoryError")
             (txt "[Errno 20] Not a directory: '" ++ dir ++ txt "'"))
  | _ => put_fs (filter (fun kv => within dir kv.1 = false) files)
  end.

(** [with tempfile.TemporaryDirectory() as d: body d]. *)
Definition with_TemporaryDirectory {A} (body : str -> M A) : M A :=
  files ← get_fs;
  let temp_dir := mkdtemp W files in
  put_fs (<[temp_dir := Dir]> files);;
  try_finally (body temp_dir) (rmtree temp_dir).

(** [with tempfile.NamedTemporaryFile(mode='w', suffix='.json',
    delete=False) as f: f.write(text); name = f.name]. *)
Definition NamedTemporaryFile_write (text : str) : M str :=
  files ← get_fs;
  let name := mkstemp W files in
  write_file name text;;
  mret name.

(** ** HTTP *)

Definition http_outcome (r : http_result) : M response :=
  match r with
  | Responded resp => mret resp
  | Failed cls msg => raise (LibraryError cls msg)
  end.

Definition requests_get_call (target : str) : M response :=
  emit (HttpGet target);;
  http_outcome (requests_get W target).

Definition requests_post_call (target : str) (json : value)
    (headers : list (str * str)) : M response :=
  emit (HttpPost target json headers);;
  http_outcome (requests_post W target json headers).

(** [response.raise_for_status()]: the message is built first and the
    error raised when it is not empty. *)
Definition http_error_msg (r : response) : str :=
  let code := status_code r in
  if ((400 <=? code) && (code <? 500))%Z then
    dec_Z code ++ txt " Client Error: " ++ reason r ++ txt " for url: " ++ url r
  else if ((500 <=? code) && (code <? 600))%Z then
    dec_Z code ++ txt " Server Error: " ++ reason r ++ txt " for url: " ++ url r
  else [].

Definition raise_for_status (r : response) : M unit :=
  if truthy (http_error_msg r) then raise (HTTPError (http_error_msg r))
  else mret tt.

(** [response.json()]. *)
Definition response_json (r : response) : M value :=
  lift (response_loads (content r)).

(** ** The functions of [entrypoint.py] *)

Definition send_webhook (webhook_url : option str) (status message : str)
  : M unit :=
  if negb (truthy_opt webhook_url) then mret tt
  else
    try_except
      (let webhook_secret := environ W !! "WEBHOOK_SECRET"%string in
       let headers :=
         if truthy_opt webhook_secret
         then [(txt "Authorization", txt "Bearer " ++ default [] webhook_secret)]
         else [] in
       resp ← requests_post_call (default [] webhook_url)
                (VDict [(txt "status", VStr status);
                        (txt "message", VStr message)])
                headers;
       raise_for_status resp;;
       body ← response_json resp;
       emit (StdoutRepr (txt "Webhook sent successfully: ") body))
      is_Exception
      (fun e => print_err (txt "Warning: Failed to send webhook: " ++ str_of_exn e)).

Definition get_python_version : M str :=
  mret (default (txt "3.11") (environ W !! "PYTHON_VERSION"%string)).

Definition kernel_registry : M (list str) :=
  emit ListKernels;;
  match get_all_specs W with
  | inl names => mret names
  | inr (cls, msg) => raise (LibraryError cls msg)
  end.

Definition get_python_kernel : M str :=
  try_except
    (kernels ← kernel_registry;
     python_version ← get_python_version;
     let version_kernels :=
       List.filter (fun k => str_in (txt "python" ++ python_version) (lower k))
                   kernels in
     match version_kernels with
     | k :: _ => mret k
     | [] =>
       let python_kernels :=
         List.filter (fun k => str_in (txt "python") (lower k)) kernels in
       match python_kernels with
       | [] => raise (ValueError (txt "No Python kernel found for version " ++
                                  python_version))
       | k :: _ => mret k
       end
     end)
    is_Exception
    (fun e => raise (ValueError (txt "Error getting kernel: " ++ str_of_exn e))).

Definition download_notebook (target output_path : str) : M unit :=
  try_except
    (resp ← requests_get_call target;
     raise_for_status resp;;
     open_write output_path (content resp))
    is_Exception
    (fun e => raise (ValueError (txt "Failed to download notebook: " ++
                                 str_of_exn e))).

(** [subprocess.run(cmd, ...)], giving the return code and stderr. *)
Definition subprocess_run_call (cmd : list str) : M (Z * str) :=
  files ← get_fs;
  emit (Subprocess cmd files);;
  let '(files', outcome) := subprocess_run W cmd files in
  put_fs files';;
  match outcome with
  | inl result => mret result
  | inr (cls, msg) => raise (LibraryError cls msg)
  end.

Definition check_returncode (result : Z * str) : M unit :=
  if negb (result.1 =? 0)%Z
  then raise (RuntimeError (txt "Notebook execution failed: " ++ result.2))
  else mret tt.

Definition execute_notebook (notebook_path output_path : str)
    (parameters kernel_name : option str) : M unit :=
  let cmd := [txt "papermill"; notebook_path; output_path] in
  let cmd := if truthy_opt kernel_name
             then cmd ++ [txt "--kernel"; default [] kernel_name]
             else cmd in
  if truthy_opt parameters then
    param_file ← NamedTemporaryFile_write (default [] parameters);
    try_finally
      (result ← subprocess_run_call (cmd ++ [txt "-f"; param_file]);
       check_returncode result)
      (os_unlink param_file)
  else
    result ← subprocess_run_call cmd;
    check_returncode result.

Definition msg_notebook_unset : str :=
  txt "NOTEBOOK environment variable is not set".
Definition msg_completed : str :=
  txt "Notebook execution completed successfully".

(** Lines 123 to 143 of [main]: fetch, kernel resolution, optional
    formatting, execution. *)
Definition job_steps (notebook_url : str) (parameters_str : option str)
    (python_version temp_dir : str) : M unit :=
  let notebook_path := path_join temp_dir (txt "notebook.ipynb") in
  let output_path := path_join temp_dir (txt "output.ipynb") in
  print (txt "Downloading notebook from " ++ notebook_url);;
  download_notebook notebook_url notebook_path;;
  print (txt "Checking available kernels for Python " ++
         python_version ++ txt "...");;
  kernel_name ← get_python_kernel;
  print (txt "Using kernel: " ++ kernel_name);;
  formatted_params ←
    (if truthy_opt parameters_str then
       print (txt "Executing notebook with parameters");;
       formatted ← lift (format_parameters (default [] parameters_str));
       print (txt "Formatted parameters:");;
       print formatted;;
       mret (Some formatted)
     else
       print (txt "Executing notebook without parameters");;
       mret None);
  execute_notebook notebook_path output_path formatted_params
                   (Some kernel_name).

Definition main : M unit :=
  let notebook_url := environ W !! "NOTEBOOK"%string in
  let parameters_str := environ W !! "PARAMETERS"%string in
  let webhook_url := environ W !! "WEBHOOK"%string in
  python_version ← get_python_version;
  if negb (truthy_opt notebook_url) then
    print_err (txt "Error: " ++ msg_notebook_unset);;
    send_webhook webhook_url (txt "failed") msg_notebook_unset;;
    sys_exit 1
  else
    try_except
      (with_TemporaryDirectory (fun temp_dir =>
         job_steps (default [] notebook_url) parameters_str python_version
                   temp_dir;;
         print msg_completed;;
         send_webhook webhook_url (txt "success") msg_completed))
      is_Exception
      (fun e =>
         let error_msg := str_of_exn e in
         print_err (txt "Error: " ++ error_msg);;
         send_webhook webhook_url (txt "failed") error_msg;;
         sys_exit 1).

(** The process: [main()] from an empty log, and the exit status the
    interpreter reports (0 on return, the code of [sys.exit], 1 for any
    other exception that escapes). *)
Definition run (files : fsmap) : state * res unit :=
  main {| fs := files; log := [] |}.

Definition exit_status (r : res unit) : Z :=
  match r with
  | Ok _ => 0
  | Raise (SystemExit code) => code
  | Raise _ => 1
  end.

End Entrypoint.

(** ** The spec's kernel selection policy, in its own words *)

(** [k] contains [token], case-insensitively. *)
Definition contains_ci (token k : str) : bool :=
  str_in (lower token) (lower k).

(** Exact match on the family token followed by the version, else fallback
    on the family token alone; the first match in enumeration order wins. *)
Definition resolve_spec (kernels : list str) (version : str) : option str :=
  match List.find (contains_ci (txt "python" ++ version)) kernels with
  | Some k => Some k
  | None => List.find (contains_ci (txt "python")) kernels
  end.

(** ** Worlds to run examples in *)

Definition ok_response (target body : str) : response :=
  {| status_code := 200; reason := txt "OK"; url := target; content := body |}.

(** Every collaborator answers and succeeds. *)
Definition example_world (env : gmap string str) (names : list str)
  : World (F := literal_float) :=
  {| environ := env;
     requests_get := fun target => Responded (ok_response target (txt "{}"));
     requests_post := fun target _ _ => Responded (ok_response target (txt "{}"));
     get_all_specs := inl names;
     subprocess_run := fun _ files => (files, inl (0%Z, []));
     mkdtemp := fun _ => txt "/tmp/tmpjob";
     mkstemp := fun _ => txt "/tmp/tmpparams.json";
     open_error := fun _ _ => None |}.

Definition empty_state : state (F := literal_float) := {| fs := ∅; log := [] |}.

Definition uppercase_version_world : World (F := literal_float) :=
  example_world {[ "PYTHON_VERSION"%string := txt "3.11RC1" ]}
                [txt "python3.9"; txt "python3.11rc1"].

(** ** What [send_webhook] posts and what it then prints *)

Definition webhook_headers `{FloatModel F} (W : World (F := F))
  : list (str * str) :=
  let secret := environ W !! "WEBHOOK_SECRET"%string in
  if truthy_opt secret
  then [(txt "Authorization", txt "Bearer " ++ default [] secret)]
  else [].

Definition webhook_payload {F} (status message : str) : value (F := F) :=
  VDict [(txt "status", VStr status); (txt "message", VStr message)].

Definition webhook_warning (detail : str) : str :=
  txt "Warning: Failed to send webhook: " ++ detail.

(** The line that follows the post: the success line, or the warning that
    reports why the post counts as failed. *)
Definition webhook_report `{FloatModel F} `{Limits} (W : World (F := F))
    (target status message : str) : event (F := F) :=
  match requests_post W target (webhook_payload status message)
                      (webhook_headers W) with
  | Failed cls msg => Stderr (webhook_warning msg)
  | Responded r =>
    if truthy (http_error_msg r)
    then Stderr (webhook_warning (http_error_msg r))
    else
      match response_loads (content r) with
      | Ok body => StdoutRepr (txt "Webhook sent successfully: ") body
      | Raise e => Stderr (webhook_warning (str_of_exn e))
      end
  end.

(** A world that differs in how posts are answered, and one that differs in
    its environment. *)
Definition with_post `{FloatModel F} (W : World (F := F))
    (post : str -> value -> list (str * str) -> http_result) : World (F := F) :=
  {| environ := environ W;
     requests_get := requests_get W;
     requests_post := post;
     get_all_specs := get_all_specs W;
     subprocess_run := subprocess_run W;
     mkdtemp := mkdtemp W;
     mkstemp := mkstemp W;
     open_error := open_error W |}.

Definition with_environ `{FloatModel F} (W : World (F := F))
    (env : gmap string str) : World (F := F) :=
  {| environ := env;
     requests_get := requests_get W;
     requests_post := requests_post W;
     get_all_specs := get_all_specs W;
     subprocess_run := subprocess_run W;
     mkdtemp := mkdtemp W;
     mkstemp := mkstemp W;
     open_error := open_error W |}.

(** The state once everything at or below [dir] is removed. *)
Definition swept {F} (dir : str) (s : state (F := F)) : state (F := F) :=
  {| fs := filter (fun kv => within dir kv.1 = false) (fs s); log := log s |}.

(** ** A small program logic for the monad *)


(** The result is a return or an [Exception] ([SystemExit] is not). *)
Definition exception_only {A} (r : res A) : Prop :=
  match r with
  | Ok _ => True
  | Raise e => is_Exception e = true
  end.

(** [m] keeps every logged event within [P] and raises [Exception]s only. *)
Definition keeps {F A} (P : event (F := F) -> Prop) (m : M (F := F) A) : Prop :=
  forall s, Forall P (log s) ->
    Forall P (log (m s).1) /\ exception_only (m s).2.

(** Every event but a post. *)
Definition not_a_post {F} (ev : event (F := F)) : Prop :=
  match ev with
  | HttpPost _ _ _ => False
  | _ => True
  end.

(** ** The job as [main] runs it *)

(** The state in which [main] enters [job_steps]: the workspace exists,
    nothing is logged yet. *)
Definition job_start `{FloatModel F} (W : World (F := F)) (files : fsmap)
  : state (F := F) :=
  {| fs := <[mkdtemp W files := Dir]> files; log := [] |}.

Definition job_outcome `{FloatModel F} `{Limits} (W : World (F := F)) (files : fsmap)
  : state (F := F) * res unit :=
  job_steps W (default [] (environ W !! "NOTEBOOK"%string))
            (environ W !! "PARAMETERS"%string)
            (default (txt "3.11") (environ W !! "PYTHON_VERSION"%string))
            (mkdtemp W files) (job_start W files).

(** The state once the lines [lines] are printed, in order. *)
Definition printed {F} (lines : list str) (s : state (F := F)) : state (F := F) :=
  fold_left (fun s line => record (Stdout line) s) lines s.

(** ** The wire contract of the notification *)

(** A post goes to the configured endpoint, carries exactly a status,
    success or failed, and a message, and has the bearer header exactly when
    a secret is set and not empty. *)
Definition wire_ok `{FloatModel F} (W : World (F := F)) (ev : event (F := F))
  : Prop :=
  match ev with
  | HttpPost target json headers =>
    environ W !! "WEBHOOK"%string = Some target
    /\ (exists status message,
          json = VDict [(txt "status", VStr status);
                        (txt "message", VStr message)]
          /\ (status = txt "success" \/ status = txt "failed"))
    /\ match environ W !! "WEBHOOK_SECRET"%string with
       | Some secret =>
         if truthy secret
         then headers = [(txt "Authorization", txt "Bearer " ++ secret)]
         else headers = []
       | None => headers = []
       end
  | _ => True
  end.

(** Events of fetching, kernel resolution and execution. *)
Definition job_event {F} (ev : event (F := F)) : bool :=
  match ev with
  | HttpGet _ | ListKernels | Subprocess _ _ => true
  | _ => false
  end.

Definition no_notebook_world : World (F := literal_float) :=
  example_world {[ "WEBHOOK"%string := txt "https://hooks.example/job" ]}
                [txt "python3.11"].

Definition notebook_world : World (F := literal_float) :=
  example_world {[ "NOTEBOOK"%string := txt "https://nb.example/a.ipynb" ]}
                [txt "python3.11"].

Definition empty_parameters_world : World (F := literal_float) :=
  example_world
    (<[ "PARAMETERS"%string := [] ]>
       {[ "NOTEBOOK"%string := txt "https://nb.example/a.ipynb" ]})
    [txt "python3.11"].

(** ** Number literals *)

Definition all_digits (ds : str) : bool := forallb is_digit ds.

(** The text that follows does not continue a number literal. *)
Definition hard_delim (rest : str) : bool :=
  match rest with
  | [] => true
  | c :: _ => negb (is_digit c || (c =? 46) || (c =? 101) || (c =? 69))
  end.

(** The next character, if any, satisfies [P]. *)
Definition next_is (P : N -> bool) (t : str) : bool :=
  match t with
  | c :: _ => P c
  | [] => false
  end.

Definition is_e (c : N) : bool := (c =? 101) || (c =? 69).
#[global] Arguments is_e : simpl never.

Definition sign_shape (sign : str) : Prop := sign = [] \/ sign = [45].

Definition int_shape (ip : str) : Prop :=
  ip = [48] \/
  (exists d ds, ip = d :: ds /\ (49 <=? d) && (d <=? 57) = true
                /\ all_digits ds = true).

Definition frac_shape (frac : str) : Prop :=
  frac = [] \/
  (exists d ds, frac = 46 :: d :: ds /\ all_digits (d :: ds) = true).

Definition exp_shape (exp : str) : Prop :=
  exp = [] \/
  (exists e sg d ds, exp = e :: sg ++ d :: ds /\ is_e e = true
                     /\ (sg = [] \/ sg = [45] \/ sg = [43])
                     /\ all_digits (d :: ds) = true).

(** [lit] is a number literal, with a fraction or an exponent exactly when
    [is_float]. *)
Inductive number_shape : str -> bool -> Prop :=
| number_shape_parts (sign ip frac exp : str) :
    sign_shape sign -> int_shape ip -> frac_shape frac -> exp_shape exp ->
    number_shape (sign ++ ip ++ frac ++ exp) (negb (is_nil frac && is_nil exp)).

(** [lit] is, on its own, a number literal with a fraction or an exponent. *)
Definition is_float_literal (lit : str) : bool :=
  match match_number lit with
  | Some (_, true, []) => true
  | _ => false
  end.

(** What the development assumes of Python's floats: the [repr] of a finite
    float read from a literal is again such a literal, and reads back as the
    same float. *)
Definition float_laws `{FloatModel F} : Prop :=
  forall (lit : str) (x : F),
    is_float_literal lit = true ->
    finite_of_literal lit = Some x ->
    is_float_literal (finite_repr x) = true
    /\ finite_of_literal (finite_repr x) = Some x.

Fixpoint pow2 (k : nat) : N :=
  match k with
  | O => 1
  | S k' => 2 * pow2 k'
  end.

(** ** Strings that survive a round trip *)

(** Code points in range, and no high surrogate immediately followed by a
    low one (written out, such a pair reads back as one character). *)
Fixpoint good_str (s : str) : bool :=
  match s with
  | [] => true
  | c :: s' =>
    (c <? 0x110000)
    && negb (is_high_surrogate c && next_is is_low_surrogate s')
    && good_str s'
  end.

(** [P] holds of [fuel] consecutive numbers from [c] on. *)
Fixpoint all_from (fuel : nat) (c : N) (P : N -> bool) : bool :=
  match fuel with
  | O => true
  | S f => P c && all_from f (N.succ c) P
  end.

Definition opt_is (o : option N) (c : N) : bool :=
  match o with
  | Some x => x =? c
  | None => false
  end.

(** The escape of a character of the basic plane reads back as it. *)
Definition escape_ok (c : N) : bool :=
  if S_CHAR c then negb (c =? 34) && negb (c =? 92) && negb (c <=? 31)
  else
    match ascii_escape_unichar c with
    | [b; e] => (b =? 92) && negb (e =? 117) && opt_is (backslash e) c
    | [b; u; h1; h2; h3; h4] =>
      (b =? 92) && (u =? 117) && opt_is (hex4 h1 h2 h3 h4) c
    | _ => false
    end.

(** The four hex digits [u_escape] writes read back as the number. *)
Definition u_escape_ok (v : N) : bool :=
  match u_escape v with
  | [b; u; h1; h2; h3; h4] =>
    (b =? 92) && (u =? 117) && opt_is (hex4 h1 h2 h3 h4) v
  | _ => false
  end.

(** After a lone high surrogate, the text does not go on with the escape of
    a low surrogate. *)
Definition pair_safe (c : N) (tail : str) : Prop :=
  is_high_surrogate c = true ->
  forall g1 g2 g3 g4 r,
    tail = 92 :: 117 :: g1 :: g2 :: g3 :: g4 :: r ->
    exists u2, hex4 g1 g2 g3 g4 = Some u2 /\ is_low_surrogate u2 = false.

(** ** Values that survive a round trip *)

(** A finite float is stable: its [repr] is a float literal that reads back
    as the float. *)
Definition good_float `{FloatModel F} (f : pyfloat (F := F)) : Prop :=
  match f with
  | FFinite x =>
    is_float_literal (finite_repr x) = true
    /\ finite_of_literal (finite_repr x) = Some x
  | _ => True
  end.

(** Strings and keys are [good_str], floats are stable, the keys of every
    dict are distinct. *)
Fixpoint good `{FloatModel F} (v : value (F := F)) : Prop :=
  match v with
  | VStr s => good_str s = true
  | VFloat f => good_float f
  | VList l =>
    (fix all (l : list value) : Prop :=
       match l with
       | [] => True
       | x :: l' => good x /\ all l'
       end) l
  | VDict d =>
    NoDup (List.map fst d)
    /\ (fix all (d : list (str * value)) : Prop :=
          match d with
          | [] => True
          | (k, x) :: d' => good_str k = true /\ good x /\ all d'
          end) d
  | _ => True
  end.

(** The elements after the first, and the members after the first, as
    [dumps_at] writes them. *)
Definition dumps_items `{FloatModel F} (level : nat) (l : list (value (F := F)))
  : str :=
  flat_map (fun y => [44] ++ newline_indent (S level) ++ dumps_at (S level) y) l.

Definition dumps_member `{FloatModel F} (level : nat) (kv : str * value (F := F))
  : str :=
  encode_basestring_ascii kv.1 ++ txt ": " ++ dumps_at (S level) kv.2.

Definition dumps_members `{FloatModel F} (level : nat)
    (d : list (str * value (F := F))) : str :=
  flat_map (fun kv => [44] ++ newline_indent (S level) ++ dumps_member level kv) d.

(** A character a value can start with: it ends the whitespace, closes
    nothing and is no byte order mark. *)
Definition head_ok (c : N) : bool :=
  negb (is_ws c) && negb (c =? 93) && negb (c =? 125) && negb (c =? 0xFEFF).

(** [v] nests no deeper than [depth] containers, and none of its integers
    has more digits than [int] accepts. *)
Fixpoint fits `{FloatModel F} `{Limits} (depth : nat) (v : value (F := F))
  {struct v} : Prop :=
  match v with
  | VInt z => int_too_long (dec_Z z) = false
  | VList l =>
    match depth with
    | O => False
    | S depth' =>
      (fix all (l : list value) : Prop :=
         match l with
         | [] => True
         | x :: l' => fits depth' x /\ all l'
         end) l
    end
  | VDict d =>
    match depth with
    | O => False
    | S depth' =>
      (fix all (d : list (str * value)) : Prop :=
         match d with
         | [] => True
         | (_, x) :: d' => fits depth' x /\ all d'
         end) d
    end
  | _ => True
  end.

(** [v], written at any level and followed by text that cannot continue a
    number, is scanned back as [v], leaving that text, whenever it fits the
    depth that is left. *)
Definition reads_back `{FloatModel F} `{Limits} (v : value (F := F)) : Prop :=
  forall (level : nat) (rest : str) (n depth : nat),
    hard_delim rest = true ->
    fits depth v ->
    (2 * List.length (dumps_at level v ++ rest) + 1 <= n)%nat ->
    scan_once n depth (dumps_at level v ++ rest) = Some (Scanned v rest).

(** If the string [x] scanned from [s] begins with a low surrogate, then [s]
    begins with the escape that names it, followed by more text. *)
Definition low_escape_start (s x : str) : Prop :=
  next_is is_low_surrogate x = true ->
  exists g1 g2 g3 g4 c0 t u,
    s = 92 :: 117 :: g1 :: g2 :: g3 :: g4 :: c0 :: t
    /\ hex4 g1 g2 g3 g4 = Some u /\ is_low_surrogate u = true.

(** A key and its value both survive a round trip. *)
Definition good_member `{FloatModel F} (kv : str * value (F := F)) : Prop :=
  good_str kv.1 = true /\ good kv.2.

(** ** Sample parameter texts *)

Definition quoted (s : str) : str := 34 :: s ++ [34].

(** An object with a list, a float and an escaped newline, on one line. *)
Definition sample_parameters : str :=
  txt "{" ++ quoted (txt "b") ++ txt ": [1, 2.5, " ++ quoted (txt "x\n")
  ++ txt "], " ++ quoted (txt "a") ++ txt ": null}".

Definition sample_formatted : str :=
  txt "{" ++ [10] ++
  txt "  " ++ quoted (txt "b") ++ txt ": [" ++ [10] ++
  txt "    1," ++ [10] ++
  txt "    2.5," ++ [10] ++
  txt "    " ++ quoted (txt "x\n") ++ [10] ++
  txt "  ]," ++ [10] ++
  txt "  " ++ quoted (txt "a") ++ txt ": null" ++ [10] ++
  txt "}".

(** Two keys: an escaped high surrogate followed by the code point U+DC80
    itself (what [os.environ] makes of a stray byte 0x80), and the escaped
    surrogate pair of U+1F480. *)
Definition surrogate_keys : str :=
  txt "{" ++ quoted (txt "\ud83d" ++ [0xDC80]) ++ txt ": 1, "
  ++ quoted (txt "\ud83d\udc80") ++ txt ": 2}".

Definition surrogate_keys_once : str :=
  txt "{" ++ [10] ++
  txt "  " ++ quoted (txt "\ud83d\udc80") ++ txt ": 1," ++ [10] ++
  txt "  " ++ quoted (txt "\ud83d\udc80") ++ txt ": 2" ++ [10] ++
  txt "}".

Definition surrogate_keys_twice : str :=
  txt "{" ++ [10] ++
  txt "  " ++ quoted (txt "\ud83d\udc80") ++ txt ": 2" ++ [10] ++
  txt "}".

(** ** Status codes and more worlds *)

(** The status codes on which [raise_for_status] raises. *)
Definition is_error_status (code : Z) : bool :=
  ((400 <=? code) && (code <? 600))%Z.


Definition with_specs `{FloatModel F} (W : World (F := F))
    (specs : list str + str * str) : World (F := F) :=
  {| environ := environ W;
     requests_get := requests_get W;
     requests_post := requests_post W;
     get_all_specs := specs;
     subprocess_run := subprocess_run W;
     mkdtemp := mkdtemp W;
     mkstemp := mkstemp W;
     open_error := open_error W |}.

Definition with_subprocess `{FloatModel F} (W : World (F := F))
    (child : list str -> fsmap -> fsmap * (Z * str + str * str))
  : World (F := F) :=
  {| environ := environ W;
     requests_get := requests_get W;
     requests_post := requests_post W;
     get_all_specs := get_all_specs W;
     subprocess_run := child;
     mkdtemp := mkdtemp W;
     mkstemp := mkstemp W;
     open_error := open_error W |}.



(** Only an R kernel is installed. *)
Definition no_python_world : World (F := literal_float) :=
  with_specs (H := literal_floats) notebook_world (inl [txt "ir"]).

(** ** What [execute_notebook] runs and what it makes of the outcome *)

(** The command line before the parameters flag. *)
Definition papermill_cmd (notebook_path output_path : str)
    (kernel_name : option str) : list str :=
  [txt "papermill"; notebook_path; output_path] ++
  (if truthy_opt kernel_name then [txt "--kernel"; default [] kernel_name]
   else []).

(** The check of the return code: the outcome of [subprocess.run] is a
    return code with the captured stderr, or what [run] raised. *)
Definition papermill_result (outcome : Z * str + str * str) : res unit :=
  match outcome with
  | inl (code, err) =>
    if (code =? 0)%Z then Ok tt
    else Raise (RuntimeError (txt "Notebook execution failed: " ++ err))
  | inr (cls, msg) => Raise (LibraryError cls msg)
  end.

(** Papermill exits with status 1 and a line on stderr. *)
Definition failing_papermill_world : World (F := literal_float) :=
  with_subprocess (H := literal_floats) notebook_world
    (fun _ files => (files, inl (1%Z, txt "PapermillExecutionError"))).

(** The child removes the parameters file it was given, and exits with 0. *)
Definition tidy_child_world : World (F := literal_float) :=
  with_subprocess (H := literal_floats) notebook_world
    (fun _ files => (delete (txt "/tmp/tmpparams.json") files, inl (0%Z, []))).

(** The endpoint accepts the post and answers with a body that is no JSON. *)
Definition plain_answer_world : World (F := literal_float) :=
  with_post (H := literal_floats) no_notebook_world
    (fun target _ _ => Responded (ok_response target (txt "ok"))).

(** Every event but the run of the child process. *)
Definition not_a_subprocess {F} (ev : event (F := F)) : Prop :=
  match ev with
  | Subprocess _ _ => False
  | _ => True
  end.

(** PARAMETERS is set to text that is no JSON. *)
Definition malformed_parameters_world : World (F := literal_float) :=
  example_world
    (<[ "PARAMETERS"%string := txt "{alpha: 1}" ]>
       {[ "NOTEBOOK"%string := txt "https://nb.example/a.ipynb" ]})
    [txt "python3.11"].

(** ** What [format_parameters] writes *)

Definition is_ascii (c : N) : bool := c <? 128.
Definition ascii_text (t : str) : bool := forallb is_ascii t.

(** Written at any level, [v] is ASCII text and not empty. *)
Definition plain_out `{FloatModel F} (v : value (F := F)) : Prop :=
  forall level : nat,
    ascii_text (dumps_at level v) = true /\ truthy (dumps_at level v) = true.

(** A key with a Latin-1 letter, a value with a character beyond the basic
    plane and an escaped tab, and a float. *)
Definition accented_parameters : str :=
  txt "{" ++ quoted [0x6E; 0x61; 0xEF; 0x76; 0x65] ++ txt ": "
  ++ quoted [0x1F600; 92; 116] ++ txt ", " ++ quoted (txt "x") ++ txt ": 2.5}".

(** NOTEBOOK, PARAMETERS and WEBHOOK are set, everything succeeds. *)
Definition full_world : World (F := literal_float) :=
  example_world
    (<[ "WEBHOOK"%string := txt "https://hooks.example/job" ]>
       (<[ "PARAMETERS"%string := txt "{" ++ quoted (txt "alpha") ++ txt ":1}" ]>
          {[ "NOTEBOOK"%string := txt "https://nb.example/a.ipynb" ]}))
    [txt "python3.11"].

(** [f] and [g] hold the same at every path that is not [dir] or below. *)
Definition agree_outside (dir : str) (f g : fsmap) : Prop :=
  forall p, within dir p = false -> f !! p = g !! p.

(** [k] is the first of [names] that satisfies [f]. *)
Definition first_match (f : str -> bool) (names : list str) (k : str) : Prop :=
  exists before after,
    names = before ++ k :: after
    /\ f k = true
    /\ Forall (fun y => f y = false) before.

(** Jupyter lists an R kernel, a Python 3.9 kernel and one of PyPy; the
    version asked for is 3.12. *)
Definition other_version_world : World (F := literal_float) :=
  example_world {[ "PYTHON_VERSION"%string := txt "3.12" ]}
                [txt "ir"; txt "python3.9"; txt "pypy-python"].

Definition accented_formatted : str :=
  txt "{" ++ [10] ++
  txt "  " ++ quoted (txt "na\u00efve") ++ txt ": "
  ++ quoted (txt "\ud83d\ude00\t") ++ txt "," ++ [10] ++
  txt "  " ++ quoted (txt "x") ++ txt ": 2.5" ++ [10] ++
  txt "}".

Definition full_formatted : str :=
  txt "{" ++ [10] ++ txt "  " ++ quoted (txt "alpha") ++ txt ": 1" ++ [10] ++
  txt "}".

(** The files papermill finds in [full_world], started without files. *)
Definition full_at_call : fsmap :=
  <[txt "/tmp/tmpparams.json" := File full_formatted]>
    (<[txt "/tmp/tmpjob/notebook.ipynb" := File (txt "{}")]>
       (<[txt "/tmp/tmpjob" := Dir]> ∅)).

(** A file that is there before the run. *)
Definition kept_files : fsmap :=
  {[ txt "/data/keep.txt" := File (txt "x") ]}.

(** ** When a run succeeds *)





(** ** Leaving the workspace *)

Definition not_a_directory (dir : str) : exn :=
  LibraryError (txt "NotADirectoryError")
               (txt "[Errno 20] Not a directory: '" ++ dir ++ txt "'").

(** The path has become a file: the clean-up of the workspace will raise. *)
Definition stuck (dir : str) (files : fsmap) : bool :=
  match files !! dir with
  | Some (File _) => true
  | _ => false
  end.


(** The handler of [main]: the diagnostic, the failed notification, exit 1. *)
Definition fail_with `{FloatModel F} `{Limits} (W : World (F := F)) (e : exn)
    (s : state (F := F)) : state (F := F) * res unit :=
  ((send_webhook W (environ W !! "WEBHOOK"%string) (txt "failed")
      (str_of_exn e) (record (Stderr (txt "Error: " ++ str_of_exn e)) s)).1,
   Raise (SystemExit 1)).

(** What [send_webhook] logs: nothing without an endpoint, else the post
    and the line that reports on it. *)
Definition notification `{FloatModel F} `{Limits} (W : World (F := F))
    (status message : str) : list (event (F := F)) :=
  if truthy_opt (environ W !! "WEBHOOK"%string) then
    [HttpPost (default [] (environ W !! "WEBHOOK"%string))
              (webhook_payload status message) (webhook_headers W);
     webhook_report W (default [] (environ W !! "WEBHOOK"%string))
                    status message]
  else [].

(** What the handler of [main] logs for the exception [e]. *)
Definition failure_events `{FloatModel F} `{Limits} (W : World (F := F))
    (e : exn) : list (event (F := F)) :=
  Stderr (txt "Error: " ++ str_of_exn e) ::
  notification W (txt "failed") (str_of_exn e).

(** The exception that leaves the workspace block when the body raised [e]
    and left [files]: that of the clean-up when it fails, else [e]. *)
Definition leaving (temp_dir : str) (files : fsmap) (e : exn) : exn :=
  if stuck temp_dir files then not_a_directory temp_dir else e.

(** Opening brackets and braces of a text, inside strings or not. *)
Definition is_open (c : N) : bool := (c =? 91) || (c =? 123).

Definition opens (s : str) : nat := List.length (List.filter is_open s).

(** What it takes of a text for the scanner to stop on an interpreter limit
    with [depth] containers left to enter: more opening brackets than that,
    or more digits than [int] accepts. *)
Definition fault_cause `{Limits} (depth : nat) (s : str) (f : fault) : Prop :=
  match f with
  | TooDeep _ => (depth < opens s)%nat
  | IntTooLong digits =>
    (0 < int_max_str_digits)%nat /\ (int_max_str_digits < digits)%nat
    /\ (digits <= int_digits s)%nat
  end.

(** What [scanstring] may return on [s]: a string and a suffix of [s], or a
    parse error; never an interpreter limit. *)
Definition scanstring_outcome (s : str) (r : scan str) : Prop :=
  match r with
  | Scanned _ rest => rest `suffix_of` s
  | Fault _ => False
  | _ => True
  end.


(** ** Worlds in which a limit or a clean-up is reached *)

(** A world that differs in what [open] does. *)
Definition with_open_error `{FloatModel F} (W : World (F := F))
    (failure : fsmap -> str -> option (str * str)) : World (F := F) :=
  {| environ := environ W;
     requests_get := requests_get W;
     requests_post := requests_post W;
     get_all_specs := get_all_specs W;
     subprocess_run := subprocess_run W;
     mkdtemp := mkdtemp W;
     mkstemp := mkstemp W;
     open_error := failure |}.

(** The directory of the output file is missing when it is opened. *)
Definition unwritable_world : World (F := literal_float) :=
  with_open_error (H := literal_floats) notebook_world
    (fun _ path =>
       Some (txt "FileNotFoundError",
             txt "[Errno 2] No such file or directory: '" ++ path ++ txt "'")).

(** The child removes the workspace and leaves a file in its place. *)
Definition squatter (cmd : list str) (files : fsmap)
  : fsmap * (Z * str + str * str) :=
  (<[txt "/tmp/tmpjob" := File []]>
     (filter (fun kv => within (txt "/tmp/tmpjob") kv.1 = false) files),
   inl (0%Z, [])).

(** NOTEBOOK is set, and the child leaves a file at the workspace path. *)
Definition squatter_world : World (F := literal_float) :=
  with_subprocess (H := literal_floats) notebook_world squatter.



(** Eleven hundred opening brackets. *)
Definition deep_parameters : str := repeat 91 1100.

Section Properties.

Context `{FloatModel F} {limits : Limits}.
Variable W : World (F := F).

(** *** Kernel resolution *)

Lemma filter_head_find {A} (f : A -> bool) (l : list A) :
  match List.filter f l with x :: _ => Some x | [] => None end = List.find f l.
Proof.
  induction l as [|a l IH]; simpl; [reflexivity|].
  destruct (f a); [reflexivity | exact IH].
Qed.

Lemma lower_app (a b : str) : lower (a ++ b) = lower a ++ lower b.
Proof. unfold lower. apply List.map_app. Qed.

Lemma contains_ci_python_version (v k : str) :
  lower v = v ->
  contains_ci (txt "python" ++ v) k = str_in (txt "python" ++ v) (lower k).
Proof.
  intros Hv. unfold contains_ci. rewrite lower_app, Hv. reflexivity.
Qed.

Lemma find_ext {A} (f g : A -> bool) (l : list A) :
  (forall x, f x = g x) -> List.find f l = List.find g l.
Proof.
  intros E. induction l as [|a l IH]; simpl; [reflexivity|].
  rewrite E, IH. reflexivity.
Qed.

(** Where the code and the policy of the spec agree: for every list of
    installed kernel identifiers, in registry enumeration order, and every
    requested version that lower-casing leaves unchanged,
    [get_python_kernel] returns the first identifier containing python
    followed by the version (case-insensitively), else the first identifier
    containing python (case-insensitively), else it fails with a ValueError
    whose message names the requested version. *)
Lemma get_python_kernel_two_tier (names : list str) (v : str) (s : state) :
  get_all_specs W = inl names ->
  get_python_version W s = (s, Ok v) ->
  lower v = v ->
  get_python_kernel W s =
    (record ListKernels s,
     match resolve_spec names v with
     | Some k => Ok k
     | None =>
       Raise (ValueError
                (txt "Error getting kernel: No Python kernel found for version "
                 ++ v))
     end).
Proof.
  intros Hreg Hver Hlow.
  assert (Hv : default (txt "3.11") (environ W !! "PYTHON_VERSION"%string) = v)
    by (unfold get_python_version, mret, M_ret in Hver; congruence).
  unfold get_python_kernel, try_except, kernel_registry, get_python_version.
  rewrite Hreg, Hv. unfold mbind, M_bind, mret, M_ret, emit.
  unfold resolve_spec.
  rewrite (find_ext _ _ names (fun k => contains_ci_python_version v k Hlow)).
  rewrite <- !filter_head_find.
  destruct (List.filter (fun k => str_in (txt "python" ++ v) (lower k)) names)
    as [|k ?]; [|reflexivity].
  change (contains_ci (txt "python")) with (fun k => str_in (txt "python") (lower k)).
  destruct (List.filter (fun k => str_in (txt "python") (lower k)) names)
    as [|k ?]; reflexivity.
Qed.

(** *** The notifier *)

Lemma json_loads_at_exception (depth : nat) (t : str) (e : exn) :
  json_loads_at depth t = Raise e -> is_Exception e = true.
Proof.
  unfold json_loads_at.
  destruct (startswith t [65279]); [intros [= <-]; reflexivity|].
  destruct (scan_once _ _ _) as [[v rest|k|m k|[c|d]]|];
    try (intros [= <-]; reflexivity).
  destruct (is_nil (skip_ws rest)); [discriminate|intros [= <-]; reflexivity].
Qed.

Lemma json_loads_exception (t : str) (e : exn) :
  json_loads t = Raise e -> is_Exception e = true.
Proof. apply json_loads_at_exception. Qed.

(** What [send_webhook] does, in full. *)
Lemma send_webhook_spec (webhook_url : option str) (status message : str)
    (s : state) :
  send_webhook W webhook_url status message s =
    (if truthy_opt webhook_url
     then record (webhook_report W (default [] webhook_url) status message)
            (record (HttpPost (default [] webhook_url)
                              (webhook_payload status message)
                              (webhook_headers W)) s)
     else s,
     Ok tt).
Proof.
  unfold send_webhook.
  destruct (truthy_opt webhook_url); [|reflexivity]. simpl negb. cbv iota.
  unfold try_except, requests_post_call, webhook_report, response_json, lift,
    print_err, emit.
  fold (webhook_headers W). fold (webhook_payload (F := F) status message).
  unfold mbind, M_bind, http_outcome, raise_for_status.
  destruct (requests_post W _ _ _) as [r|cls msg]; simpl; [|reflexivity].
  destruct (truthy (http_error_msg r)); simpl; [reflexivity|].
  destruct (response_loads (content r)) as [body|e] eqn:J; simpl; [reflexivity|].
  rewrite (json_loads_at_exception _ _ _ J). reflexivity.
Qed.

(** *** The orchestrator, step by step *)

Lemma rmtree_spec (dir : str) (s : state (F := F)) :
  rmtree dir s =
    if stuck dir (fs s) then (s, Raise (not_a_directory dir))
    else (swept dir s, Ok tt).
Proof.
  unfold rmtree, stuck, get_fs, mbind, M_bind.
  destruct (fs s !! dir) as [[c|]|]; reflexivity.
Qed.

Lemma send_webhook_fs (webhook_url : option str) (status message : str)
    (s : state) :
  fs (send_webhook W webhook_url status message s).1 = fs s.
Proof.
  rewrite send_webhook_spec. destruct (truthy_opt webhook_url); reflexivity.
Qed.

(** [main], cut at the outcome of [job_steps]: the clean-up of the workspace
    runs on the way out of the [with] block, before the handler, and what it
    raises takes the place of what the job raised. *)
Lemma run_spec (files : fsmap) :
  run W files =
    if truthy_opt (environ W !! "NOTEBOOK"%string) then
      match job_steps W (default [] (environ W !! "NOTEBOOK"%string))
                      (environ W !! "PARAMETERS"%string)
                      (default (txt "3.11") (environ W !! "PYTHON_VERSION"%string))
                      (mkdtemp W files)
                      {| fs := <[mkdtemp W files := Dir]> files; log := [] |} with
      | (s1, Ok _) =>
        let s2 :=
          (send_webhook W (environ W !! "WEBHOOK"%string) (txt "success")
             msg_completed (record (Stdout msg_completed) s1)).1 in
        if stuck (mkdtemp W files) (fs s1)
        then fail_with W (not_a_directory (mkdtemp W files)) s2
        else (swept (mkdtemp W files) s2, Ok tt)
      | (s1, Raise e) =>
        if stuck (mkdtemp W files) (fs s1)
        then fail_with W (not_a_directory (mkdtemp W files)) s1
        else if is_Exception e then fail_with W e (swept (mkdtemp W files) s1)
        else (swept (mkdtemp W files) s1, Raise e)
      end
    else
      fail_with W (ValueError msg_notebook_unset) {| fs := files; log := [] |}.
Proof.
  unfold run, main, get_python_version, fail_with.
  unfold mbind at 1. unfold M_bind at 1. unfold mret at 1. unfold M_ret at 1.
  destruct (truthy_opt (environ W !! "NOTEBOOK"%string)).
  - change (negb true) with false. cbv iota.
    unfold try_except, with_TemporaryDirectory, try_finally, get_fs, put_fs.
    unfold mbind at 1 2. unfold M_bind at 1 2. simpl fs. simpl log.
    unfold mbind at 1. unfold M_bind at 1.
    destruct (job_steps W _ _ _ _ _) as [s1 [[]|e]].
    + unfold mbind, M_bind, print, emit. cbv zeta.
      rewrite !send_webhook_spec.
      destruct (truthy_opt (environ W !! "WEBHOOK"%string)) eqn:Ew;
        cbn [fst snd]; rewrite rmtree_spec; cbn [fs record];
        (destruct (stuck (mkdtemp W files) (fs s1)); [|reflexivity]);
        cbn [is_Exception not_a_directory];
        unfold print_err, emit, sys_exit, raise;
        rewrite !send_webhook_spec, ?Ew; reflexivity.
    + rewrite rmtree_spec.
      destruct (stuck (mkdtemp W files) (fs s1)).
      * cbn [is_Exception not_a_directory].
        unfold mbind, M_bind, print_err, emit, sys_exit, raise.
        rewrite !send_webhook_spec. reflexivity.
      * destruct (is_Exception e); [|reflexivity].
        unfold mbind, M_bind, print_err, emit, sys_exit, raise.
        rewrite !send_webhook_spec. reflexivity.
  - change (negb false) with true. cbv iota.
    unfold mbind, M_bind, print_err, emit, sys_exit, raise.
    rewrite !send_webhook_spec. reflexivity.
Qed.

(** *** Rules of the program logic *)

Section Keeps.

Variable P : event (F := F) -> Prop.

Lemma keeps_ret {A} (a : A) : keeps P (mret a).
Proof. intros s Hs. split; [exact Hs | exact I]. Qed.

Lemma keeps_raise {A} (e : exn) : is_Exception e = true -> keeps P (raise (A := A) e).
Proof. intros He s Hs. split; [exact Hs | exact He]. Qed.

Lemma keeps_lift {A} (r : res A) : exception_only r -> keeps P (lift r).
Proof. intros Hr s Hs. split; [exact Hs | exact Hr]. Qed.

Lemma keeps_emit (ev : event) : P ev -> keeps P (emit ev).
Proof.
  intros Hev s Hs. split; [|exact I].
  simpl. apply Forall_app. split; [exact Hs|]. constructor; [exact Hev|constructor].
Qed.

Lemma keeps_get_fs : keeps P get_fs.
Proof. intros s Hs. split; [exact Hs | exact I]. Qed.

Lemma keeps_put_fs (files : fsmap) : keeps P (put_fs files).
Proof. intros s Hs. split; [exact Hs | exact I]. Qed.

Lemma keeps_bind {A B} (m : M A) (f : A -> M B) :
  keeps P m -> (forall a, keeps P (f a)) -> keeps P (m ≫= f).
Proof.
  intros Hm Hf s Hs. unfold mbind, M_bind.
  destruct (Hm s Hs) as [H1 H2].
  destruct (m s) as [s' [a|e]]; simpl in *.
  - exact (Hf a s' H1).
  - split; assumption.
Qed.

Lemma keeps_try_except {A} (body : M A) (catches : exn -> bool)
    (handler : exn -> M A) :
  keeps P body -> (forall e, keeps P (handler e)) ->
  keeps P (try_except body catches handler).
Proof.
  intros Hb Hh s Hs. unfold try_except.
  destruct (Hb s Hs) as [H1 H2].
  destruct (body s) as [s' [a|e]]; simpl in *.
  - split; [exact H1 | exact I].
  - destruct (catches e).
    + exact (Hh e s' H1).
    + split; assumption.
Qed.

Lemma keeps_try_finally {A} (body : M A) (final : M unit) :
  keeps P body -> keeps P final -> keeps P (try_finally body final).
Proof.
  intros Hb Hf s Hs. unfold try_finally.
  destruct (Hb s Hs) as [H1 H2].
  destruct (body s) as [s1 r]; simpl in *.
  destruct (Hf s1 H1) as [H3 H4].
  destruct (final s1) as [s2 [[]|e]]; simpl in *; split; assumption.
Qed.

End Keeps.

(** *** The steps of the job post nothing and raise [Exception]s only *)

Section JobKeeps.

Variable P : event (F := F) -> Prop.
Hypothesis P_all_but_posts : forall ev, not_a_post ev -> P ev.

Ltac keeps_with known :=
  repeat first
    [ known
    | apply keeps_ret
    | apply keeps_get_fs
    | apply keeps_put_fs
    | apply keeps_emit; apply P_all_but_posts; exact I
    | apply keeps_raise; reflexivity
    | apply keeps_bind; [|intros ?]
    | apply keeps_try_except; [|intros ?]
    | apply keeps_try_finally ].

Ltac keeps_auto := keeps_with fail.

Lemma keeps_http_outcome (r : http_result) : keeps P (http_outcome r).
Proof. destruct r; keeps_auto. Qed.

Lemma keeps_raise_for_status (r : response) : keeps P (raise_for_status r).
Proof. unfold raise_for_status. destruct (truthy _); keeps_auto. Qed.

Lemma keeps_open_write (path content : str) : keeps P (open_write W path content).
Proof.
  unfold open_write. keeps_auto.
  destruct (open_error W _ path) as [[cls msg]|]; keeps_auto.
Qed.

Lemma keeps_download_notebook (target output_path : str) :
  keeps P (download_notebook W target output_path).
Proof.
  unfold download_notebook, requests_get_call.
  keeps_with ltac:(first [ apply keeps_http_outcome
                         | apply keeps_raise_for_status
                         | apply keeps_open_write ]).
Qed.

Lemma keeps_get_python_kernel : keeps P (get_python_kernel W).
Proof.
  unfold get_python_kernel, kernel_registry, get_python_version.
  keeps_auto.
  - destruct (get_all_specs W) as [names|[cls msg]]; keeps_auto.
  - destruct (List.filter _ _); keeps_auto.
    destruct (List.filter _ _); keeps_auto.
Qed.

Lemma format_parameters_exception (t : str) :
  exception_only (format_parameters t).
Proof.
  unfold format_parameters.
  destruct (json_loads t) as [v|e] eqn:J; [exact I|].
  destruct (is_JSONDecodeError e); [reflexivity|].
  exact (json_loads_exception _ _ J).
Qed.

Lemma keeps_subprocess_run_call (cmd : list str) :
  keeps P (subprocess_run_call W cmd).
Proof.
  unfold subprocess_run_call. keeps_auto.
  destruct (subprocess_run W cmd _) as [files' [result|[cls msg]]]; keeps_auto.
Qed.

Lemma keeps_check_returncode (result : Z * str) : keeps P (check_returncode result).
Proof. unfold check_returncode. destruct (negb _); keeps_auto. Qed.

Lemma keeps_os_unlink (path : str) : keeps P (os_unlink path).
Proof.
  unfold os_unlink. keeps_auto.
  destruct (_ !! path) as [[c|]|]; keeps_auto.
Qed.

Lemma keeps_execute_notebook (notebook_path output_path : str)
    (parameters kernel_name : option str) :
  keeps P (execute_notebook W notebook_path output_path parameters kernel_name).
Proof.
  unfold execute_notebook, NamedTemporaryFile_write, write_file.
  destruct (truthy_opt parameters);
    keeps_with ltac:(first [ apply keeps_subprocess_run_call
                           | apply keeps_check_returncode
                           | apply keeps_os_unlink ]).
Qed.

Lemma keeps_job_steps (notebook_url : str) (parameters_str : option str)
    (python_version temp_dir : str) :
  keeps P (job_steps W notebook_url parameters_str python_version temp_dir).
Proof.
  unfold job_steps, print.
  keeps_with ltac:(first [ apply keeps_download_notebook
                         | apply keeps_get_python_kernel
                         | apply keeps_execute_notebook ]).
  destruct (truthy_opt parameters_str);
    keeps_with ltac:(apply keeps_lift, format_parameters_exception).
Qed.

End JobKeeps.

(** *** Inverting a bind *)

Lemma bind_ok {A B} (m : M (F := F) A) (f : A -> M B) (s s' : state) (b : B) :
  (m ≫= f) s = (s', Ok b) <->
  exists a s1, m s = (s1, Ok a) /\ f a s1 = (s', Ok b).
Proof.
  unfold mbind, M_bind. split.
  - destruct (m s) as [s1 [a|e]]; [|discriminate].
    intros E. exists a, s1. split; [reflexivity | exact E].
  - intros (a & s1 & -> & E). exact E.
Qed.

Lemma emit_eq (ev : event) (s : state (F := F)) : emit ev s = (record ev s, Ok tt).
Proof. reflexivity. Qed.

Lemma job_steps_ok (notebook_url : str) (parameters_str : option str)
    (python_version temp_dir : str) (s s' : state) :
  job_steps W notebook_url parameters_str python_version temp_dir s = (s', Ok tt)
  <->
  exists (s1 s2 : state) (kernel_name : str) (formatted_params : option str),
    download_notebook W notebook_url (path_join temp_dir (txt "notebook.ipynb"))
      (printed [txt "Downloading notebook from " ++ notebook_url] s) = (s1, Ok tt)
    /\ get_python_kernel W
         (printed [txt "Checking available kernels for Python " ++
                   python_version ++ txt "..."] s1) = (s2, Ok kernel_name)
    /\ (if truthy_opt parameters_str
        then exists formatted,
             format_parameters (default [] parameters_str) = Ok formatted
             /\ formatted_params = Some formatted
        else formatted_params = None)
    /\ execute_notebook W (path_join temp_dir (txt "notebook.ipynb"))
         (path_join temp_dir (txt "output.ipynb")) formatted_params
         (Some kernel_name)
         (printed ((txt "Using kernel: " ++ kernel_name) ::
                   match formatted_params with
                   | Some formatted =>
                     [txt "Executing notebook with parameters";
                      txt "Formatted parameters:"; formatted]
                   | None => [txt "Executing notebook without parameters"]
                   end) s2) = (s', Ok tt).
Proof.
  unfold job_steps, print. split.
  - intros E.
    apply bind_ok in E as ([] & t1 & [= <-] & E).
    apply bind_ok in E as ([] & s1 & E1 & E).
    apply bind_ok in E as ([] & t2 & [= <-] & E).
    apply bind_ok in E as (k & s2 & E2 & E).
    apply bind_ok in E as ([] & t3 & [= <-] & E).
    apply bind_ok in E as (fp & t4 & E3 & E).
    exists s1, s2, k, fp. split; [exact E1|]. split; [exact E2|].
    destruct (truthy_opt parameters_str).
    + apply bind_ok in E3 as ([] & t5 & [= <-] & E3).
      apply bind_ok in E3 as (formatted & t6 & E3a & E3).
      unfold lift in E3a.
      destruct (format_parameters _) as [fm|] eqn:Ef; [|discriminate].
      injection E3a as ? ?; subst.
      apply bind_ok in E3 as ([] & t7 & [= <-] & E3).
      apply bind_ok in E3 as ([] & t8 & [= <-] & E3).
      injection E3 as <- <-.
      split; [eexists; split; reflexivity|]. exact E.
    + apply bind_ok in E3 as ([] & t5 & [= <-] & E3).
      injection E3 as <- <-.
      split; [reflexivity|]. exact E.
  - intros (s1 & s2 & k & fp & E1 & E2 & E3 & E4).
    unfold mbind, M_bind. rewrite emit_eq.
    change (record (Stdout ?l) s) with (printed [l] s). rewrite E1.
    rewrite emit_eq.
    change (record (Stdout ?l) s1) with (printed [l] s1). rewrite E2.
    rewrite emit_eq.
    destruct (truthy_opt parameters_str).
    + destruct E3 as (fm & Ef & ->). rewrite emit_eq. unfold lift. rewrite Ef.
      rewrite !emit_eq. exact E4.
    + subst fp. rewrite emit_eq. exact E4.
Qed.

(** *** Exit status *)

Lemma exit_status_run (files : fsmap) :
  exit_status (run W files).2 =
    if truthy_opt (environ W !! "NOTEBOOK"%string)
    then match (job_outcome W files).2 with
         | Ok _ =>
           if stuck (mkdtemp W files) (fs (job_outcome W files).1)
           then 1%Z else 0%Z
         | Raise _ => 1%Z
         end
    else 1%Z.
Proof.
  rewrite run_spec. unfold job_outcome, job_start.
  destruct (truthy_opt (environ W !! "NOTEBOOK"%string)); [|reflexivity].
  pose proof (keeps_job_steps (fun _ => True) (fun _ _ => I)
                (default [] (environ W !! "NOTEBOOK"%string))
                (environ W !! "PARAMETERS"%string)
                (default (txt "3.11") (environ W !! "PYTHON_VERSION"%string))
                (mkdtemp W files)
                {| fs := <[mkdtemp W files := Dir]> files; log := [] |}
                (List.Forall_nil _)) as [_ Hexc].
  destruct (job_steps W _ _ _ _ _) as [s1 [[]|e]]; cbn [fst snd] in *.
  - cbv zeta. destruct (stuck (mkdtemp W files) (fs s1)); reflexivity.
  - destruct (stuck (mkdtemp W files) (fs s1)); [reflexivity|].
    cbn [exception_only] in Hexc. rewrite Hexc. reflexivity.
Qed.

Lemma swept_lookup (dir p : str) (s : state (F := F)) :
  within dir p = true -> fs (swept dir s) !! p = None.
Proof.
  intros Hp. unfold swept. simpl.
  apply map_lookup_filter_None. right. intros x _. simpl. rewrite Hp. discriminate.
Qed.

(** *** Missing document source *)

(** C2 (amended): when the document source is missing at process start
    (NOTEBOOK unset or empty), the job goes straight to failure with the
    fixed diagnostic [NOTEBOOK environment variable is not set]: nothing is
    fetched, no kernel is resolved, nothing is executed and no file is
    touched; the diagnostic is printed, a failure notification carrying that
    exact message is attempted (posted when an endpoint is configured), and
    the process exits with code 1. *)
Theorem missing_notebook_fails_fast (files : fsmap) :
  truthy_opt (environ W !! "NOTEBOOK"%string) = false ->
  run W files =
    ((send_webhook W (environ W !! "WEBHOOK"%string) (txt "failed")
        msg_notebook_unset
        (record (Stderr (txt "Error: " ++ msg_notebook_unset))
                {| fs := files; log := [] |})).1,
     Raise (SystemExit 1))
  /\ exit_status (run W files).2 = 1%Z
  /\ fs (run W files).1 = files
  /\ Forall (fun ev => job_event ev = false) (log (run W files).1)
  /\ (truthy_opt (environ W !! "WEBHOOK"%string) = true ->
      exists report,
        log (run W files).1 =
          [Stderr (txt "Error: " ++ msg_notebook_unset);
           HttpPost (default [] (environ W !! "WEBHOOK"%string))
                    (webhook_payload (txt "failed") msg_notebook_unset)
                    (webhook_headers W);
           report]).
Proof.
  intros Hmissing. rewrite run_spec, Hmissing.
  split; [reflexivity|]. split; [reflexivity|].
  unfold fail_with. cbn [str_of_exn].
  rewrite send_webhook_spec. cbn [fst snd].
  destruct (truthy_opt (environ W !! "WEBHOOK"%string)).
  - split; [reflexivity|]. split.
    + cbn. repeat constructor.
      unfold webhook_report.
      destruct (requests_post W _ _ _) as [r|cls msg]; [|reflexivity].
      destruct (truthy (http_error_msg r)); [reflexivity|].
      destruct (response_loads (content r)); reflexivity.
    + intros _. eexists. reflexivity.
  - split; [reflexivity|]. split; [|discriminate].
    cbn. repeat constructor.
Qed.

(** *** The parameters file *)

(** C8: whenever parameters are supplied to [execute_notebook] (present
    and not empty, as formatted parameters are), they are written to the
    temporary file [tempfile] names, the executor is invoked once with that
    path after the flag -f while the file holds the parameters, and no file
    is left at that path when [execute_notebook] ends, whether it returns
    or raises. *)
Theorem parameters_file_scoped (notebook_path output_path parameters : str)
    (kernel_name : option str) (s : state) :
  truthy parameters = true ->
  log (execute_notebook W notebook_path output_path (Some parameters)
                        kernel_name s).1 =
    log s ++
    [Subprocess
       (([txt "papermill"; notebook_path; output_path] ++
         (if truthy_opt kernel_name
          then [txt "--kernel"; default [] kernel_name] else [])) ++
        [txt "-f"; mkstemp W (fs s)])
       (<[mkstemp W (fs s) := File parameters]> (fs s))]
  /\ forall content,
       fs (execute_notebook W notebook_path output_path (Some parameters)
                            kernel_name s).1 !! mkstemp W (fs s)
       <> Some (File content).
Proof.
  intros Hp. unfold execute_notebook.
  change (truthy_opt (Some parameters)) with (truthy parameters). rewrite Hp.
  unfold NamedTemporaryFile_write, write_file, try_finally, subprocess_run_call,
    check_returncode, os_unlink, get_fs, put_fs, emit, raise.
  unfold mbind, M_bind, mret, M_ret. cbn [fs log record default].
  set (name := mkstemp W (fs s)).
  assert (Hcmd :
    (if truthy_opt kernel_name
     then [txt "papermill"; notebook_path; output_path] ++
          [txt "--kernel"; default [] kernel_name]
     else [txt "papermill"; notebook_path; output_path]) =
    [txt "papermill"; notebook_path; output_path] ++
    (if truthy_opt kernel_name
     then [txt "--kernel"; default [] kernel_name] else []))
    by (destruct (truthy_opt kernel_name); reflexivity).
  rewrite Hcmd.
  destruct (subprocess_run W _ _) as [files' [[code err]|[cls msg]]];
    cbn [fst snd];
    [destruct (negb (code =? 0)%Z)|];
    cbv beta iota; cbn [fs log fst snd record id];
    destruct (files' !! name) as [[c|]|] eqn:El; cbn [fs log fst snd];
    (split; [reflexivity|]); intros content;
    rewrite ?lookup_delete_eq, ?El; discriminate.
Qed.

(** *** The notification on the wire *)

Lemma webhook_headers_spec :
  match environ W !! "WEBHOOK_SECRET"%string with
  | Some secret =>
    if truthy secret
    then webhook_headers W = [(txt "Authorization", txt "Bearer " ++ secret)]
    else webhook_headers W = []
  | None => webhook_headers W = []
  end.
Proof.
  unfold webhook_headers.
  destruct (environ W !! "WEBHOOK_SECRET"%string) as [secret|]; simpl;
    [destruct (truthy secret)|]; reflexivity.
Qed.

Lemma webhook_report_not_a_post (target status message : str) :
  not_a_post (webhook_report W target status message).
Proof.
  unfold webhook_report.
  destruct (requests_post W _ _ _) as [r|cls msg]; [|exact I].
  destruct (truthy (http_error_msg r)); [exact I|].
  destruct (response_loads (content r)); exact I.
Qed.

Lemma wire_ok_not_a_post (ev : event) : not_a_post ev -> wire_ok W ev.
Proof. destruct ev; simpl; intros Hev; try exact I. destruct Hev. Qed.

Lemma wire_ok_send_webhook (status message : str) (s : state) :
  status = txt "success" \/ status = txt "failed" ->
  Forall (wire_ok W) (log s) ->
  Forall (wire_ok W)
    (log (send_webhook W (environ W !! "WEBHOOK"%string) status message s).1).
Proof.
  intros Hst Hs. rewrite send_webhook_spec.
  destruct (environ W !! "WEBHOOK"%string) as [u|] eqn:Eu; simpl truthy_opt;
    [|exact Hs].
  destruct (truthy u); [|exact Hs].
  cbn [fst log record default]. rewrite <- app_assoc.
  apply Forall_app. split; [exact Hs|].
  constructor.
  - simpl. split; [exact Eu|].
    split; [exists status, message; split; [reflexivity | exact Hst]|].
    exact webhook_headers_spec.
  - constructor; [|constructor].
    apply wire_ok_not_a_post, webhook_report_not_a_post.
Qed.

(** C9: every post the process makes goes to the configured endpoint with
    a JSON body that is exactly a status, success or failed, and a message,
    and with the header Authorization: Bearer secret exactly when a secret
    is configured (set and not empty), without headers otherwise; and for
    every status and message [send_webhook] posts exactly that body once
    when an endpoint is configured. *)
Theorem notification_wire_contract (files : fsmap) (webhook_url : option str)
    (status message : str) (s : state) :
  Forall (wire_ok W) (log (run W files).1)
  /\ (truthy_opt webhook_url = true ->
      exists report,
        not_a_post report
        /\ log (send_webhook W webhook_url status message s).1 =
             log s ++
             [HttpPost (default [] webhook_url)
                       (VDict [(txt "status", VStr status);
                               (txt "message", VStr message)])
                       (webhook_headers W);
              report])
  /\ match environ W !! "WEBHOOK_SECRET"%string with
     | Some secret =>
       if truthy secret
       then webhook_headers W = [(txt "Authorization", txt "Bearer " ++ secret)]
       else webhook_headers W = []
     | None => webhook_headers W = []
     end.
Proof.
  split; [|split; [|exact webhook_headers_spec]].
  - rewrite run_spec.
    pose proof (keeps_job_steps (wire_ok W) wire_ok_not_a_post
                  (default [] (environ W !! "NOTEBOOK"%string))
                  (environ W !! "PARAMETERS"%string)
                  (default (txt "3.11") (environ W !! "PYTHON_VERSION"%string))
                  (mkdtemp W files)
                  {| fs := <[mkdtemp W files := Dir]> files; log := [] |}
                  (List.Forall_nil _)) as [Hlog _].
    assert (Hfail : forall e s0, Forall (wire_ok W) (log s0) ->
                                 Forall (wire_ok W) (log (fail_with W e s0).1)).
    { intros e s0 Hs0. unfold fail_with. cbn [fst].
      apply wire_ok_send_webhook; [right; reflexivity|].
      cbn [log record]. apply Forall_app. split; [exact Hs0|].
      constructor; [exact I|constructor]. }
    assert (Hdone : forall s0, Forall (wire_ok W) (log s0) ->
                Forall (wire_ok W)
                  (log (send_webhook W (environ W !! "WEBHOOK"%string)
                          (txt "success") msg_completed
                          (record (Stdout msg_completed) s0)).1)).
    { intros s0 Hs0. apply wire_ok_send_webhook; [left; reflexivity|].
      cbn [log record]. apply Forall_app. split; [exact Hs0|].
      constructor; [exact I|constructor]. }
    destruct (truthy_opt (environ W !! "NOTEBOOK"%string)).
    + destruct (job_steps W _ _ _ _ _) as [s1 [[]|e]]; cbn [fst] in *.
      * cbv zeta. destruct (stuck (mkdtemp W files) (fs s1)).
        -- apply Hfail, Hdone, Hlog.
        -- change (log (swept ?d ?x, ?r).1) with (log x). apply Hdone, Hlog.
      * destruct (stuck (mkdtemp W files) (fs s1)); [apply Hfail, Hlog|].
        destruct (is_Exception e); [apply Hfail|]; exact Hlog.
    + apply Hfail. constructor.
  - intros Hurl. rewrite send_webhook_spec, Hurl. cbn [fst log record].
    exists (webhook_report W (default [] webhook_url) status message).
    split; [apply webhook_report_not_a_post|].
    rewrite <- app_assoc. reflexivity.
Qed.

(** *** The scanner consumes input and never runs out of fuel *)

Lemma skip_ws_length (s : str) : (List.length (skip_ws s) <= List.length s)%nat.
Proof.
  induction s as [|c s IH]; simpl; [lia|].
  destruct (is_ws c); simpl; lia.
Qed.

Lemma scan_map_scanned {A B} (f : A -> B) (r : scan A) (y : B) (rest : str) :
  scan_map f r = Scanned y rest -> exists x, r = Scanned x rest /\ y = f x.
Proof.
  destruct r as [x rest'|k|m k|flt]; simpl; [|discriminate..].
  intros [= <- <-]. exists x. split; reflexivity.
Qed.

Lemma scanstring_rest (begin : nat) (s : str) (x rest : str) :
  scanstring begin s = Scanned x rest ->
  (List.length rest < List.length s)%nat.
Proof.
  assert (Hlen : forall n s x rest,
             List.length s = n -> scanstring begin s = Scanned x rest ->
             (List.length rest < n)%nat);
    [|intros E; exact (Hlen _ s x rest eq_refl E)].
  clear s x rest.
  induction n as [n IH] using lt_wf_ind. intros s x rest Hn.
  assert (Hrec : forall c s' x' rest',
             scan_cons c (scanstring begin s') = Scanned x' rest' ->
             (List.length s' < n)%nat ->
             (List.length rest' < n)%nat).
  { intros c s' x' rest' E Hlt.
    apply scan_map_scanned in E as (y & E & _).
    pose proof (IH _ Hlt s' y rest' eq_refl E). lia. }
  destruct s as [|c r]; simpl; [discriminate|]. simpl in Hn.
  destruct (c =? 34); [intros [= _ <-]; lia|].
  destruct (c =? 92).
  - destruct r as [|e r1]; [discriminate|].
    destruct (e =? 117).
    + destruct r1 as [|h1 [|h2 [|h3 [|h4 [|c5 r2]]]]]; try discriminate.
      destruct (hex4 h1 h2 h3 h4) as [u|]; [|discriminate].
      destruct r2 as [|u' [|g1 [|g2 [|g3 [|g4 [|c6 r3]]]]]];
        try (intros E; apply Hrec in E; simpl in *; lia).
      destruct (is_high_surrogate u && (c5 =? 92) && (u' =? 117)).
      * destruct (hex4 g1 g2 g3 g4) as [u2|]; [|discriminate].
        destruct (is_low_surrogate u2);
          intros E; apply Hrec in E; simpl in *; lia.
      * intros E; apply Hrec in E; simpl in *; lia.
    + destruct (backslash e) as [ch|]; [|discriminate].
      intros E; apply Hrec in E; simpl in *; lia.
  - destruct (c <=? 31); [discriminate|].
    intros E; apply Hrec in E; simpl in *; lia.
Qed.

Lemma span_digits_app (s ds t : str) : span_digits s = (ds, t) -> s = ds ++ t.
Proof.
  revert ds t. induction s as [|c s IH]; simpl; intros ds t.
  - intros [= <- <-]. reflexivity.
  - destruct (is_digit c).
    + destruct (span_digits s) as [ds' t'].
      intros [= <- <-]. simpl. f_equal. apply IH. reflexivity.
    + intros [= <- <-]. reflexivity.
Qed.

Lemma take_sign_app (s p t : str) : take_sign s = (p, t) -> s = p ++ t.
Proof.
  unfold take_sign. destruct s as [|c r]; [intros [= <- <-]; reflexivity|].
  destruct (c =? 45) eqn:E; intros [= <- <-]; [|reflexivity].
  apply N.eqb_eq in E. subst c. reflexivity.
Qed.

Lemma take_int_app (s p t : str) :
  take_int s = Some (p, t) -> s = p ++ t /\ p <> [].
Proof.
  unfold take_int. destruct s as [|c r]; [discriminate|].
  destruct (c =? 48) eqn:E.
  - apply N.eqb_eq in E. subst c. intros [= <- <-].
    split; [reflexivity|discriminate].
  - destruct ((49 <=? c) && (c <=? 57)); [|discriminate].
    destruct (span_digits r) as [ds t'] eqn:Es.
    apply span_digits_app in Es. intros [= <- <-]. subst r.
    split; [reflexivity|discriminate].
Qed.

Lemma take_frac_app (s p t : str) : take_frac s = (p, t) -> s = p ++ t.
Proof.
  unfold take_frac. destruct s as [|dot [|d r]]; try (intros [= <- <-]; reflexivity).
  destruct ((dot =? 46) && is_digit d) eqn:E; [|intros [= <- <-]; reflexivity].
  apply andb_true_iff in E as [E _]. apply N.eqb_eq in E. subst dot.
  destruct (span_digits (d :: r)) as [ds t'] eqn:Es.
  apply span_digits_app in Es. intros [= <- <-]. simpl. rewrite Es. reflexivity.
Qed.

Lemma take_exp_app (s p t : str) : take_exp s = (p, t) -> s = p ++ t.
Proof.
  unfold take_exp. destruct s as [|e r]; [intros [= <- <-]; reflexivity|].
  destruct ((e =? 101) || (e =? 69)); [|intros [= <- <-]; reflexivity].
  set (sg := match r with
             | g :: t => if (g =? 45) || (g =? 43) then ([g], t) else ([], r)
             | [] => ([], r)
             end).
  assert (Hsg : r = sg.1 ++ sg.2).
  { subst sg. destruct r as [|g t']; [reflexivity|].
    destruct ((g =? 45) || (g =? 43)); reflexivity. }
  destruct sg as [sg r']. simpl in Hsg.
  destruct (span_digits r') as [ds t'] eqn:Es.
  apply span_digits_app in Es.
  destruct (is_nil ds); intros [= <- <-]; [reflexivity|].
  simpl. rewrite Hsg, Es, <- app_assoc. reflexivity.
Qed.

Lemma match_number_app (s lit rest : str) (is_float : bool) :
  match_number s = Some (lit, is_float, rest) -> s = lit ++ rest /\ lit <> [].
Proof.
  unfold match_number.
  destruct (take_sign s) as [sign s1] eqn:E1. apply take_sign_app in E1.
  destruct (take_int s1) as [[ip s2]|] eqn:E2; [|discriminate].
  apply take_int_app in E2 as [E2 Hne].
  destruct (take_frac s2) as [frac s3] eqn:E3. apply take_frac_app in E3.
  destruct (take_exp s3) as [exp s4] eqn:E4. apply take_exp_app in E4.
  intros [= <- <- <-]. split.
  - rewrite E1, E2, E3, E4. rewrite <- !app_assoc. reflexivity.
  - destruct sign; [|discriminate]. destruct ip; [congruence|discriminate].
Qed.

Lemma fmap_scanned {A B} (f : A -> B) (o : option (scan A)) (y : B) (rest : str) :
  scan_map f <$> o = Some (Scanned y rest) ->
  exists x, o = Some (Scanned x rest) /\ y = f x.
Proof.
  destruct o as [r|]; simpl; [|discriminate].
  intros [= E]. apply scan_map_scanned in E as (x & -> & ->).
  exists x. split; reflexivity.
Qed.

Lemma drop_cons_length {A} (k : nat) (c : A) (r : list A) :
  (List.length (drop k r) < List.length (c :: r))%nat.
Proof. simpl. rewrite length_drop. lia. Qed.

Lemma scan_shrinks (n : nat) :
  forall (depth : nat) (s : str),
    (forall v rest, scan_once n depth s = Some (Scanned v rest) ->
                    (List.length rest < List.length s)%nat)
    /\ (forall l rest, array_items n depth s = Some (Scanned l rest) ->
                       (List.length rest < List.length s)%nat)
    /\ (forall l rest, object_members n depth s = Some (Scanned l rest) ->
                       (List.length rest < List.length s)%nat).
Proof.
  induction n as [|n IH]; intros depth s; [repeat split; discriminate|].
  split; [|split].
  - intros v rest. simpl.
    destruct s as [|c r]; [discriminate|].
    pose proof (skip_ws_length r) as Hws.
    destruct (c =? 34).
    { intros [= E]. apply scan_map_scanned in E as (x & E & _).
      apply scanstring_rest in E. simpl. lia. }
    destruct (c =? 123).
    { destruct depth as [|depth']; [discriminate|].
      destruct (skip_ws r) as [|c1 r1] eqn:Er.
      - intros E. apply fmap_scanned in E as (x & E & _).
        apply (IH depth' []) in E. simpl in E. lia.
      - destruct (c1 =? 125); [intros [= _ <-]; simpl in *; lia|].
        intros E. apply fmap_scanned in E as (x & E & _).
        apply (IH depth' (c1 :: r1)) in E. simpl in *. lia. }
    destruct (c =? 91).
    { destruct depth as [|depth']; [discriminate|].
      destruct (skip_ws r) as [|c1 r1] eqn:Er.
      - intros E. apply fmap_scanned in E as (x & E & _).
        apply (IH depth' []) in E. simpl in E. lia.
      - destruct (c1 =? 93); [intros [= _ <-]; simpl in *; lia|].
        intros E. apply fmap_scanned in E as (x & E & _).
        apply (IH depth' (c1 :: r1)) in E. simpl in *. lia. }
    repeat (match goal with
            | |- context [if startswith ?a ?b then _ else _] =>
              destruct (startswith a b);
                [intros [= _ <-]; apply drop_cons_length|]
            end).
    destruct (match_number (c :: r)) as [[[lit is_float] rest']|] eqn:Em;
      [|discriminate].
    apply match_number_app in Em as [Em Hne].
    assert (Hlen : (List.length rest' < List.length (c :: r))%nat).
    { rewrite Em, length_app. destruct lit; [congruence|simpl; lia]. }
    destruct is_float; [|destruct (int_too_long lit); [discriminate|]];
      intros [= _ <-]; exact Hlen.
  - intros l rest. simpl.
    destruct (scan_once n depth s) as [[v r|k|m k|flt]|] eqn:E1;
      try discriminate.
    apply (IH depth s) in E1.
    pose proof (skip_ws_length r) as Hws.
    destruct (skip_ws r) as [|c r1] eqn:Er; [discriminate|].
    destruct (c =? 93); [intros [= _ <-]; simpl in *; lia|].
    destruct (c =? 44); [|discriminate].
    intros E. apply fmap_scanned in E as (x & E & _).
    apply (IH depth (skip_ws r1)) in E.
    pose proof (skip_ws_length r1). simpl in *. lia.
  - intros l rest. simpl.
    destruct s as [|q r]; [discriminate|].
    destruct (q =? 34); [|discriminate].
    destruct (scanstring _ r) as [key r1|k|m k|flt] eqn:Es; try discriminate.
    apply scanstring_rest in Es.
    pose proof (skip_ws_length r1) as Hws1.
    destruct (skip_ws r1) as [|c r2] eqn:Er1; [discriminate|].
    destruct (c =? 58); [|discriminate].
    pose proof (skip_ws_length r2) as Hws2.
    destruct (scan_once n depth (skip_ws r2)) as [[v r3|k|m k|flt]|] eqn:E1;
      try discriminate.
    apply (IH depth (skip_ws r2)) in E1.
    pose proof (skip_ws_length r3) as Hws3.
    destruct (skip_ws r3) as [|c' r4] eqn:Er3; [discriminate|].
    destruct (c' =? 125); [intros [= _ <-]; simpl in *; lia|].
    destruct (c' =? 44); [|discriminate].
    intros E. apply fmap_scanned in E as (x & E & _).
    apply (IH depth (skip_ws r4)) in E.
    pose proof (skip_ws_length r4). simpl in *. lia.
Qed.

Lemma scan_fuel (n : nat) :
  forall (depth : nat) (s : str),
    ((2 * List.length s + 1 <= n)%nat -> is_Some (scan_once n depth s))
    /\ ((2 * List.length s + 2 <= n)%nat -> is_Some (array_items n depth s))
    /\ ((2 * List.length s + 2 <= n)%nat -> is_Some (object_members n depth s)).
Proof.
  induction n as [|n IH]; intros depth s; [repeat split; lia|].
  split; [|split]; intros Hn; simpl.
  - destruct s as [|c r]; [eexists; reflexivity|].
    pose proof (skip_ws_length r) as Hws. simpl in Hn.
    destruct (c =? 34); [eexists; reflexivity|].
    destruct (c =? 123).
    { destruct depth as [|depth']; [eexists; reflexivity|].
      destruct (skip_ws r) as [|c1 r1] eqn:Er.
      - apply fmap_is_Some, IH. simpl. lia.
      - destruct (c1 =? 125); [eexists; reflexivity|].
        apply fmap_is_Some, IH. lia. }
    destruct (c =? 91).
    { destruct depth as [|depth']; [eexists; reflexivity|].
      destruct (skip_ws r) as [|c1 r1] eqn:Er.
      - apply fmap_is_Some, IH. simpl. lia.
      - destruct (c1 =? 93); [eexists; reflexivity|].
        apply fmap_is_Some, IH. lia. }
    repeat (match goal with
            | |- context [if startswith ?a ?b then _ else _] =>
              destruct (startswith a b); [eexists; reflexivity|]
            end).
    destruct (match_number (c :: r)) as [[[lit is_float] rest']|];
      [destruct is_float; [|destruct (int_too_long lit)]|];
      eexists; reflexivity.
  - destruct (proj1 (IH depth s)) as [[v r|k|m k|flt] E1]; [lia|rewrite E1..];
      try (eexists; reflexivity).
    apply (scan_shrinks n depth s) in E1.
    pose proof (skip_ws_length r) as Hws.
    destruct (skip_ws r) as [|c r1] eqn:Er; [eexists; reflexivity|].
    destruct (c =? 93); [eexists; reflexivity|].
    destruct (c =? 44); [|eexists; reflexivity].
    apply fmap_is_Some, IH.
    pose proof (skip_ws_length r1). simpl in *. lia.
  - destruct s as [|q r]; [eexists; reflexivity|].
    destruct (q =? 34); [|eexists; reflexivity].
    destruct (scanstring _ r) as [key r1|k|m k|flt] eqn:Es;
      try (eexists; reflexivity).
    apply scanstring_rest in Es.
    pose proof (skip_ws_length r1) as Hws1.
    destruct (skip_ws r1) as [|c r2] eqn:Er1; [eexists; reflexivity|].
    destruct (c =? 58); [|eexists; reflexivity].
    pose proof (skip_ws_length r2) as Hws2. simpl in Hn, Hws1.
    destruct (proj1 (IH depth (skip_ws r2))) as [[v r3|k|m k|flt] E1];
      [lia|rewrite E1..]; try (eexists; reflexivity).
    apply (scan_shrinks n depth (skip_ws r2)) in E1.
    pose proof (skip_ws_length r3) as Hws3.
    destruct (skip_ws r3) as [|c' r4] eqn:Er3; [eexists; reflexivity|].
    destruct (c' =? 125); [eexists; reflexivity|].
    destruct (c' =? 44); [|eexists; reflexivity].
    apply fmap_is_Some, IH.
    pose proof (skip_ws_length r4). simpl in *. lia.
Qed.

(** *** What is left unread is a suffix, and how the limits are reached *)

Lemma scan_cons_outcome (c : N) (r : scan str) (s' s : str) :
  s' `suffix_of` s -> scanstring_outcome s' r ->
  scanstring_outcome s (scan_cons c r).
Proof.
  intros Hs. destruct r as [x rest|k|m k|flt]; cbn; try exact (fun H => H).
  intros Hrest. etrans; [exact Hrest | exact Hs].
Qed.

Ltac suffix_cons :=
  repeat first [reflexivity | apply suffix_cons_r].

Lemma scanstring_suffix (begin : nat) (s : str) :
  scanstring_outcome s (scanstring begin s).
Proof.
  assert (Hlen : forall n s, (List.length s < n)%nat ->
                             scanstring_outcome s (scanstring begin s));
    [|exact (Hlen _ s (Nat.lt_succ_diag_r _))].
  clear s. induction n as [|n IH]; intros s Hn; [lia|].
  assert (Hrec : forall c s',
             (List.length s' < n)%nat -> s' `suffix_of` s ->
             scanstring_outcome s (scan_cons c (scanstring begin s'))).
  { intros c s' Hlt Hs'. apply (scan_cons_outcome _ _ s' s Hs'), IH, Hlt. }
  destruct s as [|c r]; simpl; [exact I|]. simpl in Hn.
  destruct (c =? 34); [cbn; suffix_cons|].
  destruct (c =? 92).
  - destruct r as [|e r1]; [exact I|].
    destruct (e =? 117).
    + destruct r1 as [|h1 [|h2 [|h3 [|h4 [|c5 r2]]]]]; try exact I.
      destruct (hex4 h1 h2 h3 h4) as [u|]; [|exact I].
      destruct r2 as [|u' [|g1 [|g2 [|g3 [|g4 [|c6 r3]]]]]];
        try (apply Hrec; [simpl in *; lia | suffix_cons]).
      destruct (is_high_surrogate u && (c5 =? 92) && (u' =? 117)).
      * destruct (hex4 g1 g2 g3 g4) as [u2|]; [|exact I].
        destruct (is_low_surrogate u2);
          (apply Hrec; [simpl in *; lia | suffix_cons]).
      * apply Hrec; [simpl in *; lia | suffix_cons].
    + destruct (backslash e) as [ch|]; [|exact I].
      apply Hrec; [simpl in *; lia | suffix_cons].
  - destruct (c <=? 31); [exact I|].
    apply Hrec; [simpl in *; lia | suffix_cons].
Qed.

Lemma skip_ws_suffix (s : str) : skip_ws s `suffix_of` s.
Proof.
  induction s as [|c s IH]; simpl; [reflexivity|].
  destruct (is_ws c); [apply suffix_cons_r, IH | reflexivity].
Qed.

Lemma suffix_skip_ws (a b : str) : a `suffix_of` b -> skip_ws a `suffix_of` b.
Proof. intros Hab. etrans; [apply skip_ws_suffix | exact Hab]. Qed.

Lemma suffix_tail {A} (c : A) (a b : list A) :
  (c :: a) `suffix_of` b -> a `suffix_of` b.
Proof. intros Hab. etrans; [apply suffix_cons_r; reflexivity | exact Hab]. Qed.

(** What the scanner leaves unread is a suffix of what it was given. *)
Lemma scan_suffix (n : nat) :
  forall (depth : nat) (s : str),
    (forall v rest, scan_once n depth s = Some (Scanned v rest) ->
                    rest `suffix_of` s)
    /\ (forall l rest, array_items n depth s = Some (Scanned l rest) ->
                       rest `suffix_of` s)
    /\ (forall l rest, object_members n depth s = Some (Scanned l rest) ->
                       rest `suffix_of` s).
Proof.
  induction n as [|n IH]; intros depth s; [repeat split; discriminate|].
  split; [|split].
  - intros v rest. simpl.
    destruct s as [|c r]; [discriminate|].
    pose proof (skip_ws_suffix r) as Hws.
    destruct (c =? 34).
    { intros [= E]. apply scan_map_scanned in E as (x & E & _).
      pose proof (scanstring_suffix (S (List.length r)) r) as Hs.
      rewrite E in Hs. apply suffix_cons_r, Hs. }
    destruct (c =? 123).
    { destruct depth as [|depth']; [discriminate|].
      destruct (skip_ws r) as [|c1 r1] eqn:Er.
      - intros E. apply fmap_scanned in E as (x & E & _).
        apply (IH _ []) in E. apply suffix_cons_r. etrans; eassumption.
      - destruct (c1 =? 125);
          [intros [= _ <-]; apply suffix_cons_r, (suffix_tail c1), Hws|].
        intros E. apply fmap_scanned in E as (x & E & _).
        apply (IH _ (c1 :: r1)) in E. apply suffix_cons_r. etrans; eassumption. }
    destruct (c =? 91).
    { destruct depth as [|depth']; [discriminate|].
      destruct (skip_ws r) as [|c1 r1] eqn:Er.
      - intros E. apply fmap_scanned in E as (x & E & _).
        apply (IH _ []) in E. apply suffix_cons_r. etrans; eassumption.
      - destruct (c1 =? 93);
          [intros [= _ <-]; apply suffix_cons_r, (suffix_tail c1), Hws|].
        intros E. apply fmap_scanned in E as (x & E & _).
        apply (IH _ (c1 :: r1)) in E. apply suffix_cons_r. etrans; eassumption. }
    repeat (match goal with
            | |- context [if startswith ?a ?b then _ else _] =>
              destruct (startswith a b);
                [intros [= _ <-];
                 first [apply suffix_drop | apply suffix_cons_r, suffix_drop]|]
            end).
    destruct (match_number (c :: r)) as [[[lit is_float] rest']|] eqn:Em;
      [|discriminate].
    apply match_number_app in Em as [Em _].
    destruct is_float; [|destruct (int_too_long lit); [discriminate|]];
      intros [= _ <-]; rewrite Em; apply suffix_app_r; reflexivity.
  - intros l rest. simpl.
    destruct (scan_once n depth s) as [[v r|k|m k|flt]|] eqn:E1;
      try discriminate.
    apply (IH depth s) in E1.
    pose proof (suffix_skip_ws _ _ E1) as Hws.
    destruct (skip_ws r) as [|c r1] eqn:Er; [discriminate|].
    apply suffix_tail in Hws.
    destruct (c =? 93); [intros [= _ <-]; exact Hws|].
    destruct (c =? 44); [|discriminate].
    intros E. apply fmap_scanned in E as (x & E & _).
    apply (IH _ (skip_ws r1)) in E.
    etrans; [exact E | apply suffix_skip_ws, Hws].
  - intros l rest. simpl.
    destruct s as [|q r]; [discriminate|].
    destruct (q =? 34); [|discriminate].
    pose proof (scanstring_suffix (S (List.length r)) r) as Hs.
    destruct (scanstring _ r) as [key r1|k|m k|flt] eqn:Es; try discriminate.
    cbn in Hs. apply (suffix_cons_r _ _ q) in Hs.
    pose proof (suffix_skip_ws _ _ Hs) as Hws1.
    destruct (skip_ws r1) as [|c r2] eqn:Er1; [discriminate|].
    apply suffix_tail in Hws1.
    destruct (c =? 58); [|discriminate].
    destruct (scan_once n depth (skip_ws r2)) as [[v r3|k|m k|flt]|] eqn:E1;
      try discriminate.
    apply (IH _ (skip_ws r2)) in E1.
    assert (Hr3 : r3 `suffix_of` q :: r)
      by (etrans; [exact E1 | apply suffix_skip_ws, Hws1]).
    pose proof (suffix_skip_ws _ _ Hr3) as Hws3.
    destruct (skip_ws r3) as [|c' r4] eqn:Er3; [discriminate|].
    apply suffix_tail in Hws3.
    destruct (c' =? 125); [intros [= _ <-]; exact Hws3|].
    destruct (c' =? 44); [|discriminate].
    intros E. apply fmap_scanned in E as (x & E & _).
    apply (IH _ (skip_ws r4)) in E.
    etrans; [exact E | apply suffix_skip_ws, Hws3].
Qed.

Lemma opens_app (a b : str) : opens (a ++ b) = (opens a + opens b)%nat.
Proof. unfold opens. rewrite List.filter_app, length_app. reflexivity. Qed.

Lemma int_digits_app (a b : str) :
  int_digits (a ++ b) = (int_digits a + int_digits b)%nat.
Proof. unfold int_digits. rewrite List.filter_app, length_app. reflexivity. Qed.

Lemma fault_cause_suffix (depth : nat) (a b : str) (f : fault) :
  a `suffix_of` b -> fault_cause depth a f -> fault_cause depth b f.
Proof.
  intros [k ->]. destruct f as [c|d]; cbn [fault_cause].
  - rewrite opens_app. lia.
  - rewrite int_digits_app. lia.
Qed.

Lemma opens_cons_open (c : N) (r : str) :
  is_open c = true -> opens (c :: r) = S (opens r).
Proof. intros Hc. unfold opens. cbn [List.filter]. rewrite Hc. reflexivity. Qed.

Lemma int_digits_cons (c : N) (r : str) :
  (int_digits r <= int_digits (c :: r))%nat.
Proof.
  unfold int_digits. cbn [List.filter]. destruct (is_digit c); cbn; lia.
Qed.

Lemma fault_cause_enter (depth : nat) (c : N) (a r : str) (f : fault) :
  is_open c = true -> a `suffix_of` r ->
  fault_cause depth a f -> fault_cause (S depth) (c :: r) f.
Proof.
  intros Hc [k ->]. destruct f as [e|d]; cbn [fault_cause]; intros Hf.
  - rewrite (opens_cons_open c _ Hc), opens_app. lia.
  - pose proof (int_digits_cons c (k ++ a)) as Hle.
    rewrite int_digits_app in Hle. lia.
Qed.

Lemma fmap_fault {A B} (g : A -> B) (o : option (scan A)) (f : fault) :
  scan_map g <$> o = Some (Fault f) -> o = Some (Fault f).
Proof.
  destruct o as [[x rest|k|m k|flt]|]; simpl; try discriminate.
  intros [= <-]. reflexivity.
Qed.

(** The scanner stops on an interpreter limit only when the text reaches
    it. *)
Lemma scan_faults (n : nat) :
  forall (depth : nat) (s : str) (f : fault),
    (scan_once n depth s = Some (Fault f) -> fault_cause depth s f)
    /\ (array_items n depth s = Some (Fault f) -> fault_cause depth s f)
    /\ (object_members n depth s = Some (Fault f) -> fault_cause depth s f).
Proof.
  induction n as [|n IH]; intros depth s f; [repeat split; discriminate|].
  split; [|split].
  - simpl.
    destruct s as [|c r]; [discriminate|].
    pose proof (skip_ws_suffix r) as Hws.
    destruct (c =? 34).
    { intros [= E].
      pose proof (scanstring_suffix (S (List.length r)) r) as Hs.
      destruct (scanstring _ r); cbn in E; try discriminate.
      destruct Hs. }
    destruct (c =? 123) eqn:E123.
    { assert (Hc : is_open c = true)
        by (unfold is_open; rewrite E123; apply orb_true_r).
      destruct depth as [|depth'].
      { intros [= <-]. cbn [fault_cause].
        rewrite (opens_cons_open c r Hc). lia. }
      destruct (skip_ws r) as [|c1 r1] eqn:Er.
      - intros E. apply fmap_fault in E. apply (IH _ []) in E.
        exact (fault_cause_enter _ c _ r f Hc Hws E).
      - destruct (c1 =? 125); [discriminate|].
        intros E. apply fmap_fault in E. apply (IH _ (c1 :: r1)) in E.
        exact (fault_cause_enter _ c _ r f Hc Hws E). }
    destruct (c =? 91) eqn:E91.
    { assert (Hc : is_open c = true) by (unfold is_open; rewrite E91; reflexivity).
      destruct depth as [|depth'].
      { intros [= <-]. cbn [fault_cause].
        rewrite (opens_cons_open c r Hc). lia. }
      destruct (skip_ws r) as [|c1 r1] eqn:Er.
      - intros E. apply fmap_fault in E. apply (IH _ []) in E.
        exact (fault_cause_enter _ c _ r f Hc Hws E).
      - destruct (c1 =? 93); [discriminate|].
        intros E. apply fmap_fault in E. apply (IH _ (c1 :: r1)) in E.
        exact (fault_cause_enter _ c _ r f Hc Hws E). }
    repeat (match goal with
            | |- context [if startswith ?a ?b then _ else _] =>
              destruct (startswith a b); [discriminate|]
            end).
    destruct (match_number (c :: r)) as [[[lit is_float] rest']|] eqn:Em;
      [|discriminate].
    apply match_number_app in Em as [Em _].
    destruct is_float; [discriminate|].
    destruct (int_too_long lit) eqn:Elong; [|discriminate].
    intros [= <-]. cbn [fault_cause]. rewrite Em, int_digits_app.
    unfold int_too_long in Elong.
    apply andb_true_iff in Elong as [Elong E3].
    apply andb_true_iff in Elong as [_ E2].
    apply Nat.ltb_lt in E2, E3. lia.
  - simpl.
    destruct (scan_once n depth s) as [[v r|k|m k|flt]|] eqn:E1;
      try discriminate.
    + apply (scan_suffix n depth s) in E1.
      pose proof (suffix_skip_ws _ _ E1) as Hws.
      destruct (skip_ws r) as [|c r1] eqn:Er; [discriminate|].
      apply suffix_tail in Hws.
      destruct (c =? 93); [discriminate|].
      destruct (c =? 44); [|discriminate].
      intros E. apply fmap_fault in E. apply (IH _ (skip_ws r1)) in E.
      exact (fault_cause_suffix _ _ _ _ (suffix_skip_ws _ _ Hws) E).
    + intros [= <-]. exact (proj1 (IH depth s _) E1).
  - simpl.
    destruct s as [|q r]; [discriminate|].
    destruct (q =? 34); [|discriminate].
    pose proof (scanstring_suffix (S (List.length r)) r) as Hs.
    destruct (scanstring _ r) as [key r1|k|m k|flt] eqn:Es; try discriminate;
      [|destruct Hs].
    cbn in Hs. apply (suffix_cons_r _ _ q) in Hs.
    pose proof (suffix_skip_ws _ _ Hs) as Hws1.
    destruct (skip_ws r1) as [|c r2] eqn:Er1; [discriminate|].
    apply suffix_tail in Hws1.
    destruct (c =? 58); [|discriminate].
    destruct (scan_once n depth (skip_ws r2)) as [[v r3|k|m k|flt]|] eqn:E1;
      try discriminate.
    + apply (scan_suffix n _ (skip_ws r2)) in E1.
      assert (Hr3 : r3 `suffix_of` q :: r)
        by (etrans; [exact E1 | apply suffix_skip_ws, Hws1]).
      pose proof (suffix_skip_ws _ _ Hr3) as Hws3.
      destruct (skip_ws r3) as [|c' r4] eqn:Er3; [discriminate|].
      apply suffix_tail in Hws3.
      destruct (c' =? 125); [discriminate|].
      destruct (c' =? 44); [|discriminate].
      intros E. apply fmap_fault in E. apply (IH _ (skip_ws r4)) in E.
      exact (fault_cause_suffix _ _ _ _ (suffix_skip_ws _ _ Hws3) E).
    + intros [= <-]. apply (IH _ (skip_ws r2)) in E1.
      exact (fault_cause_suffix _ _ _ _ (suffix_skip_ws _ _ Hws1) E1).
Qed.

(** [json.loads] returns a value, or raises [JSONDecodeError] about the
    document at an index within it, or stops on an interpreter limit that
    the document reaches. *)
Lemma json_loads_at_total (depth : nat) (t : str) :
  (exists v, json_loads_at depth t = Ok v)
  \/ (exists msg pos, json_loads_at depth t = Raise (JSONDecodeError msg t pos)
                      /\ (pos <= List.length t)%nat)
  \/ (exists f, json_loads_at depth t = Raise (exn_of_fault f)
                /\ fault_cause depth t f).
Proof.
  unfold json_loads_at.
  destruct (startswith t [65279]);
    [right; left; eexists _, _; split; [reflexivity|lia]|].
  cbv zeta.
  destruct (proj1 (scan_fuel (2 * List.length (skip_ws t) + 1) depth
                     (skip_ws t)))
    as [[v rest|k|m k|flt] E]; [lia|rewrite E..].
  - destruct (is_nil (skip_ws rest)); [left; eexists; reflexivity|].
    right; left. eexists _, _. split; [reflexivity|lia].
  - right; left. eexists _, _. split; [reflexivity|lia].
  - right; left. eexists _, _. split; [reflexivity|lia].
  - right; right. exists flt. split; [reflexivity|].
    apply (scan_faults _ depth (skip_ws t) flt) in E.
    exact (fault_cause_suffix _ _ _ _ (skip_ws_suffix t) E).
Qed.

Lemma json_loads_total (t : str) :
  (exists v, json_loads t = Ok v)
  \/ (exists msg pos, json_loads t = Raise (JSONDecodeError msg t pos)
                      /\ (pos <= List.length t)%nat)
  \/ (exists f, json_loads t = Raise (exn_of_fault f)
                /\ fault_cause loads_depth t f).
Proof. apply json_loads_at_total. Qed.

(** *** Decimal numerals read back *)

Lemma digits_value_snoc (ds : str) (d : N) :
  digits_value (ds ++ [d]) = 10 * digits_value ds + (d - 48).
Proof. unfold digits_value. rewrite fold_left_app. reflexivity. Qed.

Lemma all_digits_app (a b : str) :
  all_digits (a ++ b) = all_digits a && all_digits b.
Proof. apply forallb_app. Qed.

Lemma all_digits_one (d : N) : d < 10 -> all_digits [48 + d] = true.
Proof.
  intros Hd. unfold all_digits, is_digit. cbn [forallb].
  rewrite andb_true_r. apply andb_true_iff. split; apply N.leb_le; lia.
Qed.

Lemma digits_of_S (fuel : nat) (n : N) (acc : str) :
  digits_of (S fuel) n acc =
    if n <? 10 then (48 + n mod 10) :: acc
    else digits_of fuel (n / 10) ((48 + n mod 10) :: acc).
Proof. reflexivity. Qed.

Lemma digits_of_spec (fuel : nat) :
  forall n acc, n < pow2 (S fuel) ->
  exists ds,
    digits_of (S fuel) n acc = ds ++ acc
    /\ all_digits ds = true
    /\ digits_value ds = n
    /\ (n = 0 -> ds = [48])
    /\ (n <> 0 -> exists d ds', ds = d :: ds' /\ (49 <=? d) && (d <=? 57) = true).
Proof.
  induction fuel as [|f IH]; intros n acc Hn; rewrite digits_of_S.
  - simpl in Hn. assert (Hlt : (n <? 10) = true) by (apply N.ltb_lt; lia).
    rewrite Hlt. exists [48 + n mod 10]. rewrite N.mod_small by lia.
    split; [reflexivity|]. split.
    { apply all_digits_one. lia. }
    split; [unfold digits_value; simpl; lia|].
    split; [intros ->; reflexivity|].
    intros Hnz. eexists _, _. split; [reflexivity|].
    apply andb_true_iff. split; apply N.leb_le; lia.
  - destruct (n <? 10) eqn:Hlt.
    + apply N.ltb_lt in Hlt. exists [48 + n mod 10]. rewrite N.mod_small by lia.
      split; [reflexivity|]. split.
      { apply all_digits_one. lia. }
      split; [unfold digits_value; simpl; lia|].
      split; [intros ->; reflexivity|].
      intros Hnz. eexists _, _. split; [reflexivity|].
      apply andb_true_iff. split; apply N.leb_le; lia.
    + apply N.ltb_ge in Hlt.
      assert (Hdiv : n / 10 < pow2 (S f)).
      { assert (Hp : pow2 (S (S f)) = 2 * pow2 (S f)) by reflexivity.
        rewrite Hp in Hn. apply N.Div0.div_lt_upper_bound. lia. }
      destruct (IH (n / 10) ((48 + n mod 10) :: acc) Hdiv)
        as (ds & Hds & Hdig & Hval & _ & Hhead).
      exists (ds ++ [48 + n mod 10]).
      pose proof (N.mod_upper_bound n 10 ltac:(lia)) as Hmod.
      split; [rewrite Hds, <- app_assoc; reflexivity|]. split.
      { rewrite all_digits_app, Hdig. apply all_digits_one. lia. }
      split.
      { rewrite digits_value_snoc, Hval.
        pose proof (N.div_mod n 10 ltac:(lia)) as Hdm.
        set (q := n / 10) in *. set (m := n mod 10) in *. clearbody q m. lia. }
      split; [intros ->; simpl in Hlt; lia|].
      intros _.
      assert (Hq : n / 10 <> 0).
      { intros Hz. pose proof (N.div_mod n 10 ltac:(lia)) as Hdm.
        rewrite Hz in Hdm. set (m := n mod 10) in *. clearbody m. lia. }
      destruct (Hhead Hq) as (d & ds' & -> & Hd).
      exists d, (ds' ++ [48 + n mod 10]). split; [reflexivity | exact Hd].
Qed.

Lemma pow2_spec (k : nat) : pow2 k = 2 ^ N.of_nat k.
Proof.
  induction k as [|k IH]; [reflexivity|].
  change (pow2 (S k)) with (2 * pow2 k).
  rewrite IH, Nat2N.inj_succ, N.pow_succ_r'. reflexivity.
Qed.

Lemma dec_N_spec (n : N) :
  all_digits (dec_N n) = true
  /\ digits_value (dec_N n) = n
  /\ (n = 0 -> dec_N n = [48])
  /\ (n <> 0 -> exists d ds', dec_N n = d :: ds' /\ (49 <=? d) && (d <=? 57) = true).
Proof.
  unfold dec_N.
  assert (Hn : n < pow2 (S (N.to_nat (N.log2 n)))).
  { rewrite pow2_spec, Nat2N.inj_succ, N2Nat.id.
    destruct (N.eq_dec n 0) as [->|Hnz]; [reflexivity|].
    apply N.log2_spec. lia. }
  destruct (digits_of_spec _ n [] Hn) as (ds & Hds & H1 & H2 & H3 & H4).
  rewrite app_nil_r in Hds. rewrite Hds. auto.
Qed.

(** *** Number literals: what the scanner matches, and that it matches it again *)

Lemma span_digits_all (s ds t : str) :
  span_digits s = (ds, t) -> all_digits ds = true /\ next_is is_digit t = false.
Proof.
  revert ds t. induction s as [|c s IH]; simpl; intros ds t.
  - intros [= <- <-]. split; reflexivity.
  - destruct (is_digit c) eqn:Ec.
    + destruct (span_digits s) as [ds' t'].
      intros [= <- <-]. destruct (IH ds' t' eq_refl) as [H1 H2].
      split; [|exact H2].
      unfold all_digits in *. cbn [forallb]. rewrite Ec. exact H1.
    + intros [= <- <-]. split; [reflexivity | exact Ec].
Qed.

Lemma span_digits_stop (ds t : str) :
  all_digits ds = true -> next_is is_digit t = false ->
  span_digits (ds ++ t) = (ds, t).
Proof.
  intros Hds Ht. induction ds as [|d ds IH]; simpl.
  - destruct t as [|c t]; [reflexivity|]. simpl in *. rewrite Ht. reflexivity.
  - simpl in Hds. apply andb_true_iff in Hds as [Hd Hds].
    rewrite Hd, (IH Hds). reflexivity.
Qed.

Lemma take_sign_shape (s p t : str) : take_sign s = (p, t) -> sign_shape p.
Proof.
  unfold take_sign. destruct s as [|c r]; [intros [= <- <-]; left; reflexivity|].
  destruct (c =? 45); intros [= <- <-]; [right|left]; reflexivity.
Qed.

Lemma take_int_shape (s p t : str) : take_int s = Some (p, t) -> int_shape p.
Proof.
  unfold take_int. destruct s as [|c r]; [discriminate|].
  destruct (c =? 48); [intros [= <- <-]; left; reflexivity|].
  destruct ((49 <=? c) && (c <=? 57)) eqn:Ec; [|discriminate].
  destruct (span_digits r) as [ds t'] eqn:Es.
  apply span_digits_all in Es as [Hds _]. intros [= <- <-].
  right. exists c, ds. auto.
Qed.

Lemma take_frac_shape (s p t : str) : take_frac s = (p, t) -> frac_shape p.
Proof.
  unfold take_frac.
  destruct s as [|dot [|d r]]; try (intros [= <- <-]; left; reflexivity).
  destruct ((dot =? 46) && is_digit d) eqn:E; [|intros [= <- <-]; left; reflexivity].
  apply andb_true_iff in E as [_ Ed].
  destruct (span_digits (d :: r)) as [ds t'] eqn:Es.
  pose proof Es as Es'. apply span_digits_all in Es as [Hds _].
  simpl in Es'. rewrite Ed in Es'. destruct (span_digits r) as [ds0 t0].
  injection Es' as <- <-. intros [= <- <-]. right. exists d, ds0. auto.
Qed.

Lemma take_exp_shape (s p t : str) : take_exp s = (p, t) -> exp_shape p.
Proof.
  unfold take_exp. destruct s as [|e r]; [intros [= <- <-]; left; reflexivity|].
  destruct (is_e e) eqn:Ee; unfold is_e in Ee; rewrite Ee;
    [|intros [= <- <-]; left; reflexivity].
  set (sg := match r with
             | g :: t => if (g =? 45) || (g =? 43) then ([g], t) else ([], r)
             | [] => ([], r)
             end).
  assert (Hsg : sg.1 = [] \/ sg.1 = [45] \/ sg.1 = [43]).
  { subst sg. destruct r as [|g t']; [left; reflexivity|].
    destruct (g =? 45) eqn:E1; [apply N.eqb_eq in E1; subst; right; left; reflexivity|].
    destruct (g =? 43) eqn:E2; [apply N.eqb_eq in E2; subst; right; right; reflexivity|].
    left. reflexivity. }
  destruct sg as [sg r']. simpl in Hsg.
  destruct (span_digits r') as [ds t'] eqn:Es.
  apply span_digits_all in Es as [Hds _].
  destruct ds as [|d ds]; intros [= <- <-]; [left; reflexivity|].
  right. exists e, sg, d, ds. auto.
Qed.

Lemma match_number_shape (s lit rest : str) (is_float : bool) :
  match_number s = Some (lit, is_float, rest) -> number_shape lit is_float.
Proof.
  unfold match_number.
  destruct (take_sign s) as [sign s1] eqn:E1. apply take_sign_shape in E1.
  destruct (take_int s1) as [[ip s2]|] eqn:E2; [|discriminate].
  apply take_int_shape in E2.
  destruct (take_frac s2) as [frac s3] eqn:E3. apply take_frac_shape in E3.
  destruct (take_exp s3) as [exp s4] eqn:E4. apply take_exp_shape in E4.
  intros [= <- <- <-]. constructor; assumption.
Qed.

Lemma take_sign_of (sign t : str) :
  sign_shape sign -> (sign = [] -> next_is (N.eqb 45) t = false) ->
  take_sign (sign ++ t) = (sign, t).
Proof.
  intros [->| ->] Ht; [|reflexivity].
  specialize (Ht eq_refl). destruct t as [|c t]; [reflexivity|].
  cbn [next_is] in Ht. cbn [app]. unfold take_sign.
  rewrite N.eqb_sym, Ht. reflexivity.
Qed.

Lemma take_int_of (ip t : str) :
  int_shape ip -> next_is is_digit t = false ->
  take_int (ip ++ t) = Some (ip, t).
Proof.
  intros [->|(d & ds & -> & Hd & Hds)] Ht; [reflexivity|].
  simpl. rewrite Hd.
  destruct (d =? 48) eqn:E.
  { apply N.eqb_eq in E. subst d. discriminate. }
  rewrite (span_digits_stop ds t Hds Ht). reflexivity.
Qed.

Lemma take_frac_of (frac t : str) :
  frac_shape frac -> (frac = [] -> next_is (N.eqb 46) t = false) ->
  next_is is_digit t = false ->
  take_frac (frac ++ t) = (frac, t).
Proof.
  intros [->|(d & ds & -> & Hds)] Hdot Ht.
  - specialize (Hdot eq_refl). cbn [app]. unfold take_frac.
    destruct t as [|c [|c' t]]; try reflexivity.
    cbn [next_is] in Hdot. rewrite N.eqb_sym, Hdot. reflexivity.
  - pose proof Hds as Hds'. simpl in Hds'. apply andb_true_iff in Hds' as [Hd _].
    change ((46 :: d :: ds) ++ t) with (46 :: d :: (ds ++ t)).
    unfold take_frac. rewrite Hd. simpl andb. cbv iota.
    change (d :: ds ++ t) with ((d :: ds) ++ t).
    rewrite (span_digits_stop (d :: ds) t Hds Ht). reflexivity.
Qed.

Lemma take_exp_of (exp t : str) :
  exp_shape exp -> (exp = [] -> next_is is_e t = false) ->
  next_is is_digit t = false ->
  take_exp (exp ++ t) = (exp, t).
Proof.
  intros [->|(e & sg & d & ds & -> & He & Hsg & Hds)] Hnext Ht.
  - specialize (Hnext eq_refl). cbn [app].
    destruct t as [|c t]; [reflexivity|].
    cbn [next_is] in Hnext. unfold take_exp. unfold is_e in Hnext.
    rewrite Hnext. reflexivity.
  - change ((e :: sg ++ d :: ds) ++ t) with (e :: ((sg ++ d :: ds) ++ t)).
    unfold take_exp. unfold is_e in He. rewrite He.
    rewrite <- app_assoc.
    assert (Hd : is_digit d = true)
      by (simpl in Hds; apply andb_true_iff in Hds as [Hd _]; exact Hd).
    assert (Hsign :
      match sg ++ (d :: ds) ++ t with
      | g :: t0 =>
        if (g =? 45) || (g =? 43) then ([g], t0) else ([], sg ++ (d :: ds) ++ t)
      | [] => ([], sg ++ (d :: ds) ++ t)
      end = (sg, (d :: ds) ++ t)).
    { destruct Hsg as [->|[->| ->]]; try reflexivity.
      simpl. unfold is_digit in Hd.
      destruct (d =? 45) eqn:E1; [apply N.eqb_eq in E1; subst d; discriminate|].
      destruct (d =? 43) eqn:E2; [apply N.eqb_eq in E2; subst d; discriminate|].
      reflexivity. }
    rewrite Hsign.
    rewrite (span_digits_stop (d :: ds) t Hds Ht). reflexivity.
Qed.

Lemma hard_delim_next (rest : str) :
  hard_delim rest = true ->
  next_is is_digit rest = false /\ next_is (N.eqb 46) rest = false
  /\ next_is is_e rest = false.
Proof.
  destruct rest as [|c rest]; [intros _; repeat split; reflexivity|].
  cbn [hard_delim next_is]. unfold is_e. rewrite (N.eqb_sym 46 c).
  destruct (is_digit c), (c =? 46), (c =? 101), (c =? 69);
    simpl; intros; try discriminate; repeat split; reflexivity.
Qed.

Lemma match_number_of_shape (lit rest : str) (is_float : bool) :
  number_shape lit is_float -> hard_delim rest = true ->
  match_number (lit ++ rest) = Some (lit, is_float, rest).
Proof.
  intros Hshape Hrest. destruct Hshape as [sign ip frac exp Hs Hi Hf He].
  apply hard_delim_next in Hrest as (Hr1 & Hr2 & Hr3).
  assert (Hexp1 : next_is is_digit (exp ++ rest) = false).
  { destruct He as [->|(e & sg & d & ds & -> & He & _)]; [exact Hr1|].
    cbn [app next_is]. unfold is_e in He. unfold is_digit.
    destruct (e =? 101) eqn:E1; [apply N.eqb_eq in E1; subst e; reflexivity|].
    destruct (e =? 69) eqn:E2; [apply N.eqb_eq in E2; subst e; reflexivity|].
    discriminate. }
  assert (Hexp2 : next_is (N.eqb 46) (exp ++ rest) = false).
  { destruct He as [->|(e & sg & d & ds & -> & He & _)]; [exact Hr2|].
    cbn [app next_is]. unfold is_e in He.
    destruct (e =? 101) eqn:E1; [apply N.eqb_eq in E1; subst e; reflexivity|].
    destruct (e =? 69) eqn:E2; [apply N.eqb_eq in E2; subst e; reflexivity|].
    discriminate. }
  assert (Hfrac : next_is is_digit (frac ++ exp ++ rest) = false).
  { destruct Hf as [->|(d & ds & -> & _)]; [exact Hexp1|reflexivity]. }
  assert (Hint : next_is (N.eqb 45) (ip ++ frac ++ exp ++ rest) = false).
  { destruct Hi as [->|(d & ds & -> & Hd & _)]; [reflexivity|].
    cbn [app next_is]. destruct (45 =? d) eqn:E; [|reflexivity].
    apply N.eqb_eq in E. subst d. discriminate. }
  unfold match_number. rewrite <- !app_assoc.
  rewrite (take_sign_of sign _ Hs (fun _ => Hint)).
  rewrite (take_int_of ip _ Hi Hfrac).
  rewrite (take_frac_of frac _ Hf (fun _ => Hexp2) Hexp1).
  rewrite (take_exp_of exp _ He (fun _ => Hr3) Hr1).
  reflexivity.
Qed.

(** A float literal is matched again when text that cannot continue it
    follows. *)
Lemma is_float_literal_shape (lit : str) :
  is_float_literal lit = true -> number_shape lit true.
Proof.
  unfold is_float_literal.
  destruct (match_number lit) as [[[l b] r]|] eqn:E; [|discriminate].
  destruct b; [|discriminate]. destruct r; [|discriminate]. intros _.
  pose proof (match_number_app _ _ _ _ E) as [Hl _].
  rewrite app_nil_r in Hl. subst l.
  exact (match_number_shape _ _ _ _ E).
Qed.

Lemma matched_is_float_literal (s lit rest : str) :
  match_number s = Some (lit, true, rest) -> is_float_literal lit = true.
Proof.
  intros E. apply match_number_shape in E.
  unfold is_float_literal.
  pose proof (match_number_of_shape lit [] true E eq_refl) as E'.
  rewrite app_nil_r in E'. rewrite E'. reflexivity.
Qed.

(** *** Escapes read back *)

Lemma all_from_spec (P : N -> bool) (fuel : nat) :
  forall c, all_from fuel c P = true ->
  forall x, c <= x -> x < c + N.of_nat fuel -> P x = true.
Proof.
  induction fuel as [|f IH]; intros c Hall x Hlo Hhi; [lia|].
  simpl in Hall. apply andb_true_iff in Hall as [Hc Hall].
  destruct (N.eq_dec x c) as [->|Hne]; [exact Hc|].
  apply (IH (N.succ c) Hall); lia.
Qed.

Lemma escape_ok_bmp (c : N) : c < 0x10000 -> escape_ok c = true.
Proof.
  intros Hc.
  assert (Hall : all_from (N.to_nat 0x10000) 0 escape_ok = true)
    by (vm_compute; reflexivity).
  apply (all_from_spec _ _ _ Hall); [lia|].
  rewrite N2Nat.id. lia.
Qed.

Lemma lor_shiftl_low (a b : N) (k : N) :
  N.lor (N.shiftl a k) (b mod 2 ^ k) = a * 2 ^ k + b mod 2 ^ k.
Proof.
  rewrite N.shiftl_mul_pow2.
  rewrite <- N.lxor_lor, <- N.add_nocarry_lxor; try reflexivity.
  all: apply N.bits_inj; intros i; rewrite N.land_spec, N.bits_0;
    destruct (N.lt_ge_cases i k) as [Hlt|Hge];
    [rewrite N.mul_pow2_bits_low by exact Hlt; reflexivity
    |rewrite N.mod_pow2_bits_high by exact Hge; apply andb_false_r].
Qed.

Lemma join_surrogates_arith (high low : N) :
  join_surrogates high low = (high mod 1024) * 1024 + low mod 1024 + 0x10000.
Proof.
  unfold join_surrogates.
  change 1023 with (N.ones 10). rewrite !N.land_ones.
  rewrite lor_shiftl_low. reflexivity.
Qed.

Lemma join_surrogates_range (high low : N) :
  0x10000 <= join_surrogates high low < 0x110000.
Proof.
  rewrite join_surrogates_arith.
  pose proof (N.mod_upper_bound high 1024 ltac:(lia)).
  pose proof (N.mod_upper_bound low 1024 ltac:(lia)).
  set (a := high mod 1024) in *. set (b := low mod 1024) in *.
  clearbody a b. lia.
Qed.

Lemma surrogates_of_supplementary (c : N) :
  0x10000 <= c -> c < 0x110000 ->
  is_high_surrogate (high_surrogate c) = true
  /\ is_low_surrogate (low_surrogate c) = true
  /\ join_surrogates (high_surrogate c) (low_surrogate c) = c.
Proof.
  intros Hlo Hhi.
  assert (Hh : high_surrogate c = 0xD7C0 + c / 1024).
  { unfold high_surrogate. rewrite !N.shiftr_div_pow2. reflexivity. }
  assert (Hl : low_surrogate c = 0xDC00 + c mod 1024).
  { unfold low_surrogate. change 1023 with (N.ones 10).
    rewrite N.land_ones. reflexivity. }
  pose proof (N.div_mod c 1024 ltac:(lia)) as Hdm.
  pose proof (N.mod_upper_bound c 1024 ltac:(lia)) as Hm.
  assert (Hq : 64 <= c / 1024 < 1088).
  { split.
    - apply N.div_le_lower_bound; lia.
    - apply N.Div0.div_lt_upper_bound; lia. }
  set (q := c / 1024) in *. set (m := c mod 1024) in *.
  assert (Hhm : high_surrogate c mod 1024 = q - 64).
  { rewrite Hh. symmetry. apply (N.mod_unique _ _ 54); lia. }
  assert (Hlm : low_surrogate c mod 1024 = m).
  { rewrite Hl. symmetry. apply (N.mod_unique _ _ 55); lia. }
  split; [|split].
  - rewrite Hh. unfold is_high_surrogate.
    apply andb_true_iff. split; apply N.leb_le; lia.
  - rewrite Hl. unfold is_low_surrogate.
    apply andb_true_iff. split; apply N.leb_le; lia.
  - rewrite join_surrogates_arith, Hhm, Hlm. clearbody q m. lia.
Qed.

Lemma opt_is_true (o : option N) (c : N) : opt_is o c = true -> o = Some c.
Proof.
  destruct o as [x|]; simpl; [|discriminate].
  intros E. apply N.eqb_eq in E. subst x. reflexivity.
Qed.

Lemma u_escape_hex (v : N) :
  v < 0x10000 ->
  exists h1 h2 h3 h4,
    u_escape v = [92; 117; h1; h2; h3; h4] /\ hex4 h1 h2 h3 h4 = Some v.
Proof.
  intros Hv.
  assert (Hall : all_from (N.to_nat 0x10000) 0 u_escape_ok = true)
    by (vm_compute; reflexivity).
  assert (Hok : u_escape_ok v = true).
  { apply (all_from_spec _ _ _ Hall); [lia|]. rewrite N2Nat.id. lia. }
  unfold u_escape_ok in Hok. unfold u_escape in *.
  apply andb_true_iff in Hok as [_ Hok]. apply opt_is_true in Hok.
  eexists _, _, _, _. split; [reflexivity | exact Hok].
Qed.

(** The four ways a character is written. *)
Lemma escape_char_shape (c : N) :
  c < 0x110000 ->
  (escape_char c = [c] /\ (c =? 34) = false /\ (c =? 92) = false
   /\ (c <=? 31) = false)
  \/ (exists e, escape_char c = [92; e] /\ (e =? 117) = false
                /\ backslash e = Some c)
  \/ (exists h1 h2 h3 h4,
        escape_char c = [92; 117; h1; h2; h3; h4]
        /\ hex4 h1 h2 h3 h4 = Some c)
  \/ (exists h1 h2 h3 h4 g1 g2 g3 g4 hi lo,
        escape_char c = [92; 117; h1; h2; h3; h4; 92; 117; g1; g2; g3; g4]
        /\ hex4 h1 h2 h3 h4 = Some hi /\ hex4 g1 g2 g3 g4 = Some lo
        /\ is_high_surrogate hi = true /\ is_low_surrogate lo = true
        /\ join_surrogates hi lo = c).
Proof.
  intros Hc. destruct (N.lt_ge_cases c 0x10000) as [Hbmp|Hsup].
  - pose proof (escape_ok_bmp c Hbmp) as Hok.
    unfold escape_ok in Hok. unfold escape_char.
    destruct (S_CHAR c).
    + left. apply andb_true_iff in Hok as [Hok H3].
      apply andb_true_iff in Hok as [H1 H2].
      apply negb_true_iff in H1, H2, H3. auto.
    + right.
      destruct (ascii_escape_unichar c) as [|b [|e [|h1 [|h2 [|h3 [|h4 [|x l]]]]]]];
        try discriminate.
      * left. apply andb_true_iff in Hok as [Hok H3].
        apply andb_true_iff in Hok as [H1 H2].
        apply N.eqb_eq in H1. subst b. apply negb_true_iff in H2.
        apply opt_is_true in H3. exists e. auto.
      * right. left. apply andb_true_iff in Hok as [Hok H3].
        apply andb_true_iff in Hok as [H1 H2].
        apply N.eqb_eq in H1, H2. subst b e.
        apply opt_is_true in H3. exists h1, h2, h3, h4. auto.
  - right. right. right.
    destruct (surrogates_of_supplementary c Hsup Hc) as (Hh & Hl & Hj).
    assert (Hhb : high_surrogate c < 0x10000).
    { unfold is_high_surrogate in Hh. apply andb_true_iff in Hh as [_ Hh].
      apply N.leb_le in Hh. lia. }
    assert (Hlb : low_surrogate c < 0x10000).
    { unfold is_low_surrogate in Hl. apply andb_true_iff in Hl as [_ Hl].
      apply N.leb_le in Hl. lia. }
    destruct (u_escape_hex _ Hhb) as (h1 & h2 & h3 & h4 & Eh & Hh4).
    destruct (u_escape_hex _ Hlb) as (g1 & g2 & g3 & g4 & El & Hl4).
    exists h1, h2, h3, h4, g1, g2, g3, g4, (high_surrogate c), (low_surrogate c).
    split; [|auto 10].
    unfold escape_char, S_CHAR, ascii_escape_unichar.
    replace (c <=? 126) with false by (symmetry; apply N.leb_gt; lia).
    rewrite andb_false_r. cbn [andb].
    replace (c =? 92) with false by (symmetry; apply N.eqb_neq; lia).
    replace (c =? 34) with false by (symmetry; apply N.eqb_neq; lia).
    replace (c =? 8) with false by (symmetry; apply N.eqb_neq; lia).
    replace (c =? 12) with false by (symmetry; apply N.eqb_neq; lia).
    replace (c =? 10) with false by (symmetry; apply N.eqb_neq; lia).
    replace (c =? 13) with false by (symmetry; apply N.eqb_neq; lia).
    replace (c =? 9) with false by (symmetry; apply N.eqb_neq; lia).
    replace (65536 <=? c) with true by (symmetry; apply N.leb_le; lia).
    rewrite Eh, El. reflexivity.
Qed.

Lemma high_not_low (c : N) :
  is_high_surrogate c = true -> is_low_surrogate c = false.
Proof.
  unfold is_high_surrogate, is_low_surrogate. intros Hh.
  apply andb_true_iff in Hh as [_ Hh]. apply N.leb_le in Hh.
  apply andb_false_iff. left. apply N.leb_gt. lia.
Qed.

Lemma scanstring_escape (begin : nat) (c : N) (tail : str) :
  c < 0x110000 -> tail <> [] -> pair_safe c tail ->
  scanstring begin (escape_char c ++ tail) = scan_cons c (scanstring begin tail).
Proof.
  intros Hc Htail Hsafe.
  destruct tail as [|t0 tail']; [congruence|]. clear Htail.
  destruct (escape_char_shape c Hc)
    as [(E & H1 & H2 & H3)
       |[(e & E & He & Hb)
        |[(h1 & h2 & h3 & h4 & E & Hh)
         |(h1 & h2 & h3 & h4 & g1 & g2 & g3 & g4 & hi & lo & E & Hh & Hl
           & Hhi & Hlo & Hj)]]]; rewrite E.
  - cbn [app scanstring]. rewrite H1, H2, H3. reflexivity.
  - cbn [app scanstring].
    change (92 =? 34) with false. change (92 =? 92) with true. cbv iota.
    rewrite He, Hb. reflexivity.
  - cbn [app scanstring].
    change (92 =? 34) with false. change (92 =? 92) with true.
    change (117 =? 117) with true. cbv iota. rewrite Hh.
    destruct tail' as [|u' [|g1 [|g2 [|g3 [|g4 [|t6 r3]]]]]]; try reflexivity.
    destruct (is_high_surrogate c && (t0 =? 92) && (u' =? 117)) eqn:Ec;
      [|reflexivity].
    apply andb_true_iff in Ec as [Ec Eu]. apply andb_true_iff in Ec as [Ech Eb].
    apply N.eqb_eq in Eb, Eu. subst t0 u'.
    destruct (Hsafe Ech g1 g2 g3 g4 (t6 :: r3) eq_refl) as (u2 & Hg & Hu2).
    rewrite Hg, Hu2. reflexivity.
  - cbn [app scanstring].
    change (92 =? 34) with false. change (92 =? 92) with true.
    change (117 =? 117) with true. cbv iota. rewrite Hh, Hhi.
    cbn [andb]. rewrite Hl, Hlo, Hj. reflexivity.
Qed.

Lemma good_str_cons (c : N) (s : str) :
  good_str (c :: s) = true ->
  c < 0x110000
  /\ (is_high_surrogate c = true -> next_is is_low_surrogate s = false)
  /\ good_str s = true.
Proof.
  cbn [good_str]. intros Hg.
  apply andb_true_iff in Hg as [Hg H3]. apply andb_true_iff in Hg as [H1 H2].
  apply N.ltb_lt in H1. apply negb_true_iff in H2.
  split; [exact H1|]. split; [|exact H3].
  intros Hh. rewrite Hh in H2. exact H2.
Qed.

Lemma pair_safe_encoded (c : N) (s rest : str) :
  (is_high_surrogate c = true -> next_is is_low_surrogate s = false) ->
  good_str s = true ->
  pair_safe c (flat_map escape_char s ++ 34 :: rest).
Proof.
  intros Hnext Hgood Hhigh g1 g2 g3 g4 r Etail.
  specialize (Hnext Hhigh).
  destruct s as [|c2 s']; [discriminate|].
  apply good_str_cons in Hgood as (Hc2 & _ & _).
  cbn [next_is] in Hnext. cbn [flat_map] in Etail.
  rewrite <- app_assoc in Etail.
  destruct (escape_char_shape c2 Hc2)
    as [(E & H1 & H2 & H3)
       |[(e & E & He & Hb)
        |[(h1 & h2 & h3 & h4 & E & Hh)
         |(h1 & h2 & h3 & h4 & k1 & k2 & k3 & k4 & hi & lo & E & Hh & Hl
           & Hhi & Hlo & Hj)]]]; rewrite E in Etail; cbn [app] in Etail.
  - injection Etail as -> _. discriminate.
  - injection Etail as -> _. discriminate.
  - injection Etail as <- <- <- <- _. exists c2. split; [exact Hh | exact Hnext].
  - injection Etail as <- <- <- <- _. exists hi.
    split; [exact Hh | exact (high_not_low _ Hhi)].
Qed.

(** A string written by [encode_basestring_ascii] reads back. *)
Lemma scanstring_encoded (begin : nat) (s rest : str) :
  good_str s = true ->
  scanstring begin (flat_map escape_char s ++ 34 :: rest) = Scanned s rest.
Proof.
  induction s as [|c s IH]; intros Hgood; [reflexivity|].
  apply good_str_cons in Hgood as (Hc & Hnext & Hgood).
  cbn [flat_map]. rewrite <- app_assoc.
  rewrite scanstring_escape;
    [rewrite (IH Hgood); reflexivity | exact Hc | | ].
  - destruct (flat_map escape_char s); discriminate.
  - apply pair_safe_encoded; assumption.
Qed.

(** *** Values *)

(** Induction on values, through the lists they contain. *)
Lemma value_ind' (P : value (F := F) -> Prop) :
  P VNull ->
  (forall b, P (VBool b)) ->
  (forall z, P (VInt z)) ->
  (forall f, P (VFloat f)) ->
  (forall s, P (VStr s)) ->
  (forall l, Forall P l -> P (VList l)) ->
  (forall d, Forall (fun kv => P kv.2) d -> P (VDict d)) ->
  forall v, P v.
Proof.
  intros HNull HBool HInt HFloat HStr HList HDict.
  fix IH 1. intros [ | b | z | f | s | l | d ].
  - exact HNull.
  - apply HBool.
  - apply HInt.
  - apply HFloat.
  - apply HStr.
  - apply HList. induction l as [|x l IHl]; constructor; [apply IH | exact IHl].
  - apply HDict. induction d as [|[k x] d IHd]; constructor; [apply IH | exact IHd].
Qed.

Lemma good_list (l : list value) : good (VList l) <-> Forall good l.
Proof.
  induction l as [|x l IH].
  - split; intros _; [constructor | exact I].
  - split.
    + intros [Hx Hl]. constructor; [exact Hx | apply IH, Hl].
    + intros Hf. inversion Hf; subst. split; [assumption | apply IH; assumption].
Qed.

Lemma good_dict (d : list (str * value)) :
  good (VDict d) <->
  NoDup (List.map fst d)
  /\ Forall (fun kv => good_str kv.1 = true /\ good kv.2) d.
Proof.
  cbn [good].
  assert (Hall :
    (fix all (d0 : list (str * value)) : Prop :=
       match d0 with
       | [] => True
       | (k, x) :: d' => good_str k = true /\ good x /\ all d'
       end) d
    <-> Forall (fun kv => good_str kv.1 = true /\ good kv.2) d).
  { induction d as [|[k x] d IH].
    - split; intros _; [constructor | exact I].
    - split.
      + intros (Hk & Hx & Hd). constructor; [split; assumption | apply IH, Hd].
      + intros Hf. inversion Hf as [|? ? [Hk Hx] Hd]; subst.
        split; [exact Hk|]. split; [exact Hx | apply IH, Hd]. }
  rewrite Hall. reflexivity.
Qed.

Lemma dumps_at_list (level : nat) (x : value) (xs : list value) :
  dumps_at level (VList (x :: xs)) =
    [91] ++ newline_indent (S level) ++ dumps_at (S level) x ++
    dumps_items level xs ++ newline_indent level ++ [93].
Proof.
  cbn [dumps_at]. do 3 f_equal. f_equal.
  induction xs as [|y xs IH]; [reflexivity|].
  cbn [dumps_items flat_map]. rewrite <- !app_assoc. do 3 f_equal. exact IH.
Qed.

Lemma dumps_at_dict (level : nat) (kv : str * value) (ms : list (str * value)) :
  dumps_at level (VDict (kv :: ms)) =
    [123] ++ newline_indent (S level) ++ dumps_member level kv ++
    dumps_members level ms ++ newline_indent level ++ [125].
Proof.
  destruct kv as [k x]. cbn [dumps_at]. unfold dumps_member. cbn [fst snd].
  rewrite <- !app_assoc. do 5 f_equal. f_equal.
  induction ms as [|[k' y] ms IH]; [reflexivity|].
  cbn [dumps_members flat_map]. unfold dumps_member. cbn [fst snd].
  rewrite <- !app_assoc. do 5 f_equal. exact IH.
Qed.

(** *** Scanning what [dumps_at] wrote *)

Lemma digit_range (c : N) : is_digit c = true <-> 48 <= c <= 57.
Proof.
  unfold is_digit. rewrite andb_true_iff, !N.leb_le. reflexivity.
Qed.

Lemma skip_ws_stop (c : N) (s : str) :
  is_ws c = false -> skip_ws (c :: s) = c :: s.
Proof. intros Hc. cbn [skip_ws]. rewrite Hc. reflexivity. Qed.

Lemma skip_ws_indent (level : nat) (s : str) :
  skip_ws (newline_indent level ++ s) = skip_ws s.
Proof.
  unfold newline_indent. cbn [app skip_ws].
  change (is_ws 10) with true. cbv iota.
  induction (2 * level)%nat as [|k IH]; [reflexivity|].
  cbn [repeat app skip_ws]. change (is_ws 32) with true. cbv iota. exact IH.
Qed.

Lemma head_ok_ws (c : N) : head_ok c = true -> is_ws c = false.
Proof.
  unfold head_ok. intros Hc.
  repeat (apply andb_true_iff in Hc as [Hc _]). apply negb_true_iff, Hc.
Qed.

Lemma head_ok_tests (c : N) :
  head_ok c = true ->
  (c =? 93) = false /\ (c =? 125) = false /\ (c =? 0xFEFF) = false.
Proof.
  unfold head_ok. intros Hc.
  apply andb_true_iff in Hc as [Hc H4]. apply andb_true_iff in Hc as [Hc H3].
  apply andb_true_iff in Hc as [_ H2].
  apply negb_true_iff in H2, H3, H4. auto.
Qed.

Lemma head_ok_digit (c : N) : is_digit c = true -> head_ok c = true.
Proof.
  intros Hc. apply digit_range in Hc. unfold head_ok, is_ws.
  repeat match goal with
         | |- context [?a =? ?b] =>
           destruct (N.eqb_spec a b); [lia|]
         end.
  reflexivity.
Qed.

Lemma number_shape_head (lit : str) (is_float : bool) :
  number_shape lit is_float ->
  exists c r, lit = c :: r
    /\ ((c = 45 /\ next_is is_digit r = true) \/ is_digit c = true).
Proof.
  intros [sign ip frac exp Hs Hi Hf He].
  assert (Hip : exists d ds, ip = d :: ds /\ is_digit d = true).
  { destruct Hi as [->|(d & ds & -> & Hd & _)].
    - exists 48, []. split; reflexivity.
    - exists d, ds. split; [reflexivity|].
      apply digit_range. apply andb_true_iff in Hd as [H1 H2].
      apply N.leb_le in H1, H2. lia. }
  destruct Hip as (d & ds & -> & Hd).
  destruct Hs as [->| ->]; cbn [app].
  - eexists _, _. split; [reflexivity|]. right. exact Hd.
  - eexists _, _. split; [reflexivity|]. left. split; [reflexivity | exact Hd].
Qed.

Lemma startswith_head (c p0 : N) (r p : str) :
  (p0 =? c) = false -> startswith (c :: r) (p0 :: p) = false.
Proof. intros E. cbn [startswith]. rewrite E. reflexivity. Qed.

(** On text that starts like a number, [scan_once] is [match_number]. *)
Lemma scan_once_number_start (n depth : nat) (c : N) (r : str) :
  (c = 45 /\ next_is is_digit r = true) \/ is_digit c = true ->
  scan_once (S n) depth (c :: r) =
    match match_number (c :: r) with
    | Some (lit, is_float, rest) =>
      if is_float then Some (Scanned (VFloat (parse_float lit)) rest)
      else if int_too_long lit
           then Some (Fault (IntTooLong (int_digits lit)))
           else Some (Scanned (VInt (int_of_literal lit)) rest)
    | None => Some (Stop (List.length (c :: r)))
    end.
Proof.
  intros Hstart.
  assert (Hc : (c =? 34) = false /\ (c =? 123) = false /\ (c =? 91) = false
               /\ (110 =? c) = false /\ (116 =? c) = false
               /\ (102 =? c) = false /\ (78 =? c) = false
               /\ (73 =? c) = false).
  { destruct Hstart as [[-> _]|Hd]; [repeat split; reflexivity|].
    apply digit_range in Hd.
    repeat split; apply N.eqb_neq; lia. }
  destruct Hc as (H1 & H2 & H3 & H4 & H5 & H6 & H7 & H8).
  assert (Hminus : startswith (c :: r) (txt "-Infinity") = false).
  { destruct Hstart as [[-> Hr]|Hd].
    - destruct r as [|d r']; [reflexivity|].
      cbn [next_is] in Hr. apply digit_range in Hr.
      change (txt "-Infinity") with (45 :: 73 :: txt "nfinity").
      cbn [startswith]. change (45 =? 45) with true.
      replace (73 =? d) with false by (symmetry; apply N.eqb_neq; lia).
      reflexivity.
    - apply digit_range in Hd.
      change (txt "-Infinity") with (45 :: txt "Infinity").
      apply startswith_head. apply N.eqb_neq. lia. }
  cbn [scan_once]. rewrite H1, H2, H3.
  change (txt "null") with (110 :: txt "ull").
  change (txt "true") with (116 :: txt "rue").
  change (txt "false") with (102 :: txt "alse").
  change (txt "NaN") with (78 :: txt "aN").
  change (txt "Infinity") with (73 :: txt "nfinity").
  rewrite (startswith_head c 110 r (txt "ull") H4).
  rewrite (startswith_head c 116 r (txt "rue") H5).
  rewrite (startswith_head c 102 r (txt "alse") H6).
  rewrite (startswith_head c 78 r (txt "aN") H7).
  rewrite (startswith_head c 73 r (txt "nfinity") H8).
  rewrite Hminus. reflexivity.
Qed.

Lemma scan_once_number (n depth : nat) (lit rest : str) (is_float : bool) :
  number_shape lit is_float -> hard_delim rest = true ->
  (is_float = false -> int_too_long lit = false) ->
  scan_once (S n) depth (lit ++ rest) =
    Some (Scanned (if is_float then VFloat (parse_float lit)
                   else VInt (int_of_literal lit)) rest).
Proof.
  intros Hshape Hrest Hint.
  pose proof (match_number_of_shape lit rest is_float Hshape Hrest) as Em.
  destruct (number_shape_head lit is_float Hshape) as (c & r & -> & Hstart).
  cbn [app] in *.
  rewrite scan_once_number_start.
  - rewrite Em. destruct is_float; [reflexivity|].
    rewrite (Hint eq_refl). reflexivity.
  - destruct Hstart as [[-> Hr]|Hd]; [left|right; exact Hd].
    split; [reflexivity|]. destruct r; [discriminate | exact Hr].
Qed.

Lemma dec_N_int_shape (n : N) : int_shape (dec_N n).
Proof.
  destruct (dec_N_spec n) as (Hd & _ & H0 & Hnz).
  destruct (N.eq_dec n 0) as [E|E].
  - left. exact (H0 E).
  - right. destruct (Hnz E) as (d & ds & Eq & Hrange). exists d, ds.
    split; [exact Eq|]. split; [exact Hrange|].
    rewrite Eq in Hd. unfold all_digits in *. cbn [forallb] in Hd.
    apply andb_true_iff in Hd as [_ Hd]. exact Hd.
Qed.

Lemma dec_Z_shape (z : Z) : number_shape (dec_Z z) false.
Proof.
  destruct z as [|p|p]; cbn [dec_Z].
  - replace (dec_N (Z.to_N 0)) with ([] ++ dec_N (Z.to_N 0) ++ [] ++ [])
      by (cbn [app]; apply app_nil_r).
    apply (number_shape_parts [] _ [] []);
      [left; reflexivity | apply dec_N_int_shape | left; reflexivity
      | left; reflexivity].
  - replace (dec_N (Z.to_N (Z.pos p)))
      with ([] ++ dec_N (Z.to_N (Z.pos p)) ++ [] ++ [])
      by (cbn [app]; apply app_nil_r).
    apply (number_shape_parts [] _ [] []);
      [left; reflexivity | apply dec_N_int_shape | left; reflexivity
      | left; reflexivity].
  - replace (45 :: dec_N (N.pos p)) with ([45] ++ dec_N (N.pos p) ++ [] ++ [])
      by (cbn [app]; f_equal; apply app_nil_r).
    apply (number_shape_parts [45] _ [] []);
      [right; reflexivity | apply dec_N_int_shape | left; reflexivity
      | left; reflexivity].
Qed.

Lemma int_of_literal_dec_N (n : N) : int_of_literal (dec_N n) = Z.of_N n.
Proof.
  destruct (dec_N_spec n) as (_ & Hval & _ & _).
  destruct (dec_N_int_shape n) as [E|(d & ds & E & Hd & _)].
  - rewrite E in *. unfold int_of_literal. change (48 =? 45) with false.
    cbv iota. rewrite Hval. reflexivity.
  - unfold int_of_literal. rewrite E in *.
    replace (d =? 45) with false.
    + rewrite Hval. reflexivity.
    + symmetry. apply N.eqb_neq. apply andb_true_iff in Hd as [H1 _].
      apply N.leb_le in H1. lia.
Qed.

Lemma int_of_literal_dec_Z (z : Z) : int_of_literal (dec_Z z) = z.
Proof.
  destruct z as [|p|p]; cbn [dec_Z].
  - rewrite int_of_literal_dec_N. reflexivity.
  - rewrite int_of_literal_dec_N. reflexivity.
  - unfold int_of_literal. change (45 =? 45) with true. cbv iota.
    destruct (dec_N_spec (N.pos p)) as (_ & -> & _). reflexivity.
Qed.

(** *** Digit counts: an integer prints no longer than it was written *)

Lemma digits_value_lt (ds : str) :
  all_digits ds = true -> digits_value ds < 10 ^ N.of_nat (List.length ds).
Proof.
  induction ds as [|x ds IH] using rev_ind; intros Hd.
  - reflexivity.
  - rewrite all_digits_app in Hd. apply andb_true_iff in Hd as [Hds Hx].
    unfold all_digits in Hx. cbn [forallb] in Hx. rewrite andb_true_r in Hx.
    apply digit_range in Hx. specialize (IH Hds).
    rewrite digits_value_snoc, length_app. cbn [List.length].
    rewrite Nat2N.inj_add, N.pow_add_r. change (10 ^ N.of_nat 1) with 10.
    lia.
Qed.

Lemma digits_value_ge (d : N) (ds : str) :
  49 <= d -> 10 ^ N.of_nat (List.length ds) <= digits_value (d :: ds).
Proof.
  intros Hd. induction ds as [|x ds IH] using rev_ind.
  - unfold digits_value. cbn. lia.
  - change (d :: ds ++ [x]) with ((d :: ds) ++ [x]).
    rewrite digits_value_snoc, length_app. cbn [List.length].
    rewrite Nat2N.inj_add, N.pow_add_r. change (10 ^ N.of_nat 1) with 10.
    lia.
Qed.

Lemma dec_N_length (ds : str) :
  ds <> [] -> all_digits ds = true ->
  (List.length (dec_N (digits_value ds)) <= List.length ds)%nat.
Proof.
  intros Hne Hd.
  destruct (dec_N_spec (digits_value ds)) as (_ & Hval & Hz & Hnz).
  destruct (N.eq_dec (digits_value ds) 0) as [E|E].
  - rewrite (Hz E). destruct ds; [congruence | cbn; lia].
  - destruct (Hnz E) as (d & ds' & Eq & Hrange).
    rewrite Eq in *. apply andb_true_iff in Hrange as [Hlo _].
    apply N.leb_le in Hlo.
    pose proof (digits_value_ge d ds' Hlo) as Hge.
    pose proof (digits_value_lt ds Hd) as Hlt.
    rewrite Hval in Hge.
    assert (Hpow : 10 ^ N.of_nat (List.length ds')
                   < 10 ^ N.of_nat (List.length ds)) by lia.
    apply N.pow_lt_mono_r_iff in Hpow; [|lia].
    cbn [List.length]. lia.
Qed.

Lemma int_digits_all (ds : str) :
  all_digits ds = true -> int_digits ds = List.length ds.
Proof.
  unfold int_digits, all_digits. intros Hd. f_equal.
  induction ds as [|c ds IH]; [reflexivity|].
  cbn [forallb List.filter] in *. apply andb_true_iff in Hd as [-> Hd].
  f_equal. apply IH, Hd.
Qed.

Lemma int_shape_digits (ip : str) :
  int_shape ip -> ip <> [] /\ all_digits ip = true.
Proof.
  intros [->|(d & ds & -> & Hd & Hds)]; [split; [discriminate|reflexivity]|].
  split; [discriminate|]. unfold all_digits in *. cbn [forallb].
  rewrite Hds, andb_true_r. apply andb_true_iff in Hd as [H1 H2].
  apply N.leb_le in H1. apply digit_range. apply N.leb_le in H2. lia.
Qed.

Lemma int_digits_dec_Z (z : Z) :
  int_digits (dec_Z z) = List.length (dec_N (Z.to_N (Z.abs z))).
Proof.
  destruct z as [|p|p]; cbn [dec_Z Z.abs].
  - apply int_digits_all. apply (dec_N_spec 0).
  - apply int_digits_all. apply (dec_N_spec (Z.to_N (Z.pos p))).
  - change (int_digits (45 :: dec_N (N.pos p)))
      with (int_digits (dec_N (N.pos p))).
    apply int_digits_all. apply (dec_N_spec (N.pos p)).
Qed.

(** The integer read from a literal prints with no more digits than the
    literal had. *)
Lemma int_digits_of_literal (lit : str) :
  number_shape lit false ->
  (int_digits (dec_Z (int_of_literal lit)) <= int_digits lit)%nat.
Proof.
  intros Hs. remember false as b eqn:Eb.
  destruct Hs as [sign ip frac exp Hsg Hip Hf He].
  destruct frac; [|discriminate]. destruct exp; [|discriminate].
  rewrite !app_nil_r.
  destruct (int_shape_digits ip Hip) as [Hne Hd].
  rewrite int_digits_dec_Z.
  destruct Hsg as [->| ->]; cbn [app].
  - rewrite (int_digits_all ip Hd).
    assert (E : int_of_literal ip = Z.of_N (digits_value ip)).
    { unfold int_of_literal. destruct ip as [|c r]; [congruence|].
      replace (c =? 45) with false; [reflexivity|].
      symmetry. apply N.eqb_neq. intros ->.
      unfold all_digits in Hd. cbn [forallb] in Hd. discriminate Hd. }
    rewrite E, Z.abs_eq, N2Z.id by lia. apply dec_N_length; assumption.
  - change (int_digits (45 :: ip)) with (int_digits ip).
    rewrite (int_digits_all ip Hd).
    unfold int_of_literal. change (45 =? 45) with true. cbv iota.
    rewrite Z.abs_opp, Z.abs_eq, N2Z.id by lia. apply dec_N_length; assumption.
Qed.

Lemma int_too_long_mono (a b : str) :
  (int_digits a <= int_digits b)%nat ->
  int_too_long b = false -> int_too_long a = false.
Proof.
  unfold int_too_long. intros Hle Hb.
  destruct (640 <? int_digits a)%nat eqn:E1; [|reflexivity].
  destruct (0 <? int_max_str_digits)%nat eqn:E2; [|reflexivity].
  destruct (int_max_str_digits <? int_digits a)%nat eqn:E3; [|reflexivity].
  apply Nat.ltb_lt in E1, E3.
  replace (640 <? int_digits b)%nat with true in Hb
    by (symmetry; apply Nat.ltb_lt; lia).
  replace (int_max_str_digits <? int_digits b)%nat with true in Hb
    by (symmetry; apply Nat.ltb_lt; lia).
  discriminate Hb.
Qed.

Lemma int_of_literal_fits (lit : str) :
  number_shape lit false -> int_too_long lit = false ->
  int_too_long (dec_Z (int_of_literal lit)) = false.
Proof.
  intros Hs. apply int_too_long_mono, int_digits_of_literal, Hs.
Qed.

Lemma dict_set_fresh (d : list (str * value)) (k : str) (v : value (F := F)) :
  k ∉ List.map fst d -> dict_set d k v = d ++ [(k, v)].
Proof.
  induction d as [|[k' v'] d IH]; intros Hk; [reflexivity|].
  cbn [dict_set]. destruct (decide (k' = k)) as [->|Hne].
  - exfalso. apply Hk. cbn. left.
  - cbn [app]. f_equal. apply IH. intros Hin. apply Hk. cbn. right. exact Hin.
Qed.

Lemma dict_of_pairs_nodup (d : list (str * value (F := F))) :
  NoDup (List.map fst d) -> dict_of_pairs d = d.
Proof.
  unfold dict_of_pairs.
  assert (Hgen : forall acc,
             NoDup (List.map fst (acc ++ d)) ->
             fold_left (fun d0 kv => dict_set d0 kv.1 kv.2) d acc = acc ++ d).
  { induction d as [|[k v] d IH]; intros acc Hnd; cbn [fold_left].
    - rewrite app_nil_r. reflexivity.
    - cbn [fst snd]. rewrite dict_set_fresh.
      + rewrite IH; rewrite <- app_assoc; [reflexivity | exact Hnd].
      + rewrite List.map_app in Hnd. apply NoDup_app in Hnd as (_ & Hdisj & _).
        intros Hin. apply (Hdisj k Hin). cbn. left. }
  intros Hnd. exact (Hgen [] Hnd).
Qed.

Lemma dumps_head (v : value) (level : nat) :
  good v ->
  exists c r, dumps_at level v = c :: r /\ head_ok c = true.
Proof.
  destruct v as [ | [|] | z | [ | | |x] | s | [|y l] | [|[k y] d] ];
    intros Hgood; try (eexists _, _; split; reflexivity).
  - destruct (number_shape_head _ _ (dec_Z_shape z)) as (c & r & E & Hc).
    exists c, r. split; [exact E|].
    destruct Hc as [[-> _]|Hd]; [reflexivity | apply head_ok_digit, Hd].
  - destruct Hgood as [Hlit _].
    destruct (number_shape_head _ _ (is_float_literal_shape _ Hlit))
      as (c & r & E & Hc).
    exists c, r. split; [exact E|].
    destruct Hc as [[-> _]|Hd]; [reflexivity | apply head_ok_digit, Hd].
Qed.

Lemma scan_once_string (n depth : nat) (r : str) :
  scan_once (S n) depth (34 :: r) =
    Some (scan_map VStr (scanstring (S (List.length r)) r)).
Proof. reflexivity. Qed.

Lemma scan_once_array (n depth : nat) (r : str) :
  scan_once (S n) (S depth) (91 :: r) =
    match skip_ws r with
    | c1 :: r1 =>
      if c1 =? 93 then Some (Scanned (VList []) r1)
      else scan_map VList <$> array_items n depth (skip_ws r)
    | [] => scan_map VList <$> array_items n depth []
    end.
Proof. reflexivity. Qed.

Lemma scan_once_object (n depth : nat) (r : str) :
  scan_once (S n) (S depth) (123 :: r) =
    match skip_ws r with
    | c1 :: r1 =>
      if c1 =? 125 then Some (Scanned (VDict []) r1)
      else scan_map (fun ps => VDict (dict_of_pairs ps)) <$>
             object_members n depth (skip_ws r)
    | [] => scan_map (fun ps => VDict (dict_of_pairs ps)) <$>
              object_members n depth []
    end.
Proof. reflexivity. Qed.

Lemma array_items_S (n depth : nat) (s : str) :
  array_items (S n) depth s =
    match scan_once n depth s with
    | None => None
    | Some (Stop k) => Some (Stop k)
    | Some (Bad m k) => Some (Bad m k)
    | Some (Fault f) => Some (Fault f)
    | Some (Scanned v r) =>
      match skip_ws r with
      | c :: r1 =>
        if c =? 93 then Some (Scanned [v] r1)
        else if c =? 44
             then scan_map (cons v) <$> array_items n depth (skip_ws r1)
        else Some (Bad msg_comma (List.length (skip_ws r)))
      | [] => Some (Bad msg_comma O)
      end
    end.
Proof. reflexivity. Qed.

Lemma object_members_quote (n depth : nat) (r : str) :
  object_members (S n) depth (34 :: r) =
    match scanstring (S (List.length r)) r with
    | Stop k => Some (Stop k)
    | Bad m k => Some (Bad m k)
    | Fault f => Some (Fault f)
    | Scanned key r1 =>
      match skip_ws r1 with
      | [] => Some (Bad msg_colon O)
      | c :: r2 =>
        if c =? 58 then
          match scan_once n depth (skip_ws r2) with
          | None => None
          | Some (Stop k) => Some (Stop k)
          | Some (Bad m k) => Some (Bad m k)
          | Some (Fault f) => Some (Fault f)
          | Some (Scanned v r3) =>
            match skip_ws r3 with
            | c' :: r4 =>
              if c' =? 125 then Some (Scanned [(key, v)] r4)
              else if c' =? 44
                   then scan_map (cons (key, v)) <$>
                          object_members n depth (skip_ws r4)
                   else Some (Bad msg_comma (List.length (skip_ws r3)))
            | [] => Some (Bad msg_comma O)
            end
          end
        else Some (Bad msg_colon (List.length (skip_ws r1)))
      end
    end.
Proof. reflexivity. Qed.

Lemma skip_ws_dumps (v : value) (level : nat) (t : str) :
  good v -> skip_ws (dumps_at level v ++ t) = dumps_at level v ++ t.
Proof.
  intros Hgood. destruct (dumps_head v level Hgood) as (c & r & -> & Hc).
  cbn [app]. apply skip_ws_stop, head_ok_ws, Hc.
Qed.

Ltac lengths :=
  repeat (progress (rewrite ?length_app in *; cbn [List.length] in * ));
  lia.

(** The elements of a list, from the first on, up to the closing bracket. *)
Lemma array_items_dumps (level depth : nat) (rest : str)
    (xs : list value) :
  Forall reads_back xs -> Forall good xs -> Forall (fits depth) xs ->
  forall (x : value) (n : nat),
    reads_back x -> good x -> fits depth x ->
    (2 * List.length (dumps_at (S level) x ++ dumps_items level xs ++
                      newline_indent level ++ 93%N :: rest) + 2 <= n)%nat ->
    array_items n depth (dumps_at (S level) x ++ dumps_items level xs ++
                         newline_indent level ++ 93 :: rest)
    = Some (Scanned (x :: xs) rest).
Proof.
  induction xs as [|y ys IH]; intros Hback Hgood Hfits x n Hx Hgx Hfx Hn.
  - destruct n as [|m]; [lia|]. rewrite array_items_S.
    cbn [dumps_items flat_map app] in *.
    rewrite (Hx (S level) (newline_indent level ++ 93 :: rest) m depth
               eq_refl Hfx) by lia.
    rewrite skip_ws_indent. cbn [skip_ws]. change (is_ws 93) with false.
    cbv iota. change (93 =? 93) with true. reflexivity.
  - destruct n as [|m]; [lia|]. rewrite array_items_S.
    inversion Hback as [|? ? Hy Hys]; subst.
    inversion Hgood as [|? ? Hgy Hgys]; subst.
    inversion Hfits as [|? ? Hfy Hfys]; subst.
    cbn [dumps_items flat_map] in *. fold (dumps_items level ys) in *.
    rewrite <- !app_assoc in *. cbn [app] in *.
    rewrite (Hx (S level) _ m depth); [|reflexivity|exact Hfx|lia].
    cbn [skip_ws]. change (is_ws 44) with false. cbv iota.
    change (44 =? 93) with false. change (44 =? 44) with true. cbv iota.
    rewrite skip_ws_indent, (skip_ws_dumps y (S level) _ Hgy).
    rewrite (IH Hys Hgys Hfys y m Hy Hgy Hfy); [reflexivity|].
    lengths.
Qed.

(** The members of a dict, from the first on, up to the closing brace. *)
Lemma object_members_dumps (level depth : nat) (rest : str)
    (ms : list (str * value)) :
  Forall (fun kv => reads_back kv.2) ms ->
  Forall (fun kv => good_str kv.1 = true /\ good kv.2) ms ->
  Forall (fun kv => fits depth kv.2) ms ->
  forall (kv : str * value) (n : nat),
    reads_back kv.2 -> good_str kv.1 = true -> good kv.2 ->
    fits depth kv.2 ->
    (2 * List.length (dumps_member level kv ++ dumps_members level ms ++
                      newline_indent level ++ 125%N :: rest) + 2 <= n)%nat ->
    object_members n depth (dumps_member level kv ++ dumps_members level ms ++
                            newline_indent level ++ 125 :: rest)
    = Some (Scanned (kv :: ms) rest).
Proof.
  induction ms as [|kv' ms IH];
    intros Hback Hgood Hfits [k x] n Hx Hk Hgx Hfx Hn;
    cbn [fst snd] in *.
  - destruct n as [|m]; [lia|].
    unfold dumps_member, encode_basestring_ascii in *. cbn [fst snd] in *.
    cbn [dumps_members flat_map] in *.
    change (txt ": ") with [58; 32] in *.
    rewrite <- !app_assoc in *. cbn [app] in *. rewrite <- !app_assoc in *.
    cbn [app] in *.
    rewrite object_members_quote, scanstring_encoded by exact Hk.
    cbn [skip_ws]. change (is_ws 58) with false. cbv iota.
    change (58 =? 58) with true. cbv iota.
    cbn [skip_ws]. change (is_ws 32) with true. cbv iota.
    rewrite (skip_ws_dumps x (S level) _ Hgx).
    rewrite (Hx (S level) _ m depth); [|reflexivity|exact Hfx|lengths].
    rewrite skip_ws_indent. cbn [skip_ws]. change (is_ws 125) with false.
    cbv iota. change (125 =? 125) with true. reflexivity.
  - destruct n as [|m]; [lia|].
    inversion Hback as [|? ? Hy Hys]; subst.
    inversion Hgood as [|? ? [Hk' Hgy] Hgys]; subst.
    inversion Hfits as [|? ? Hfy Hfys]; subst.
    destruct kv' as [k' y]. cbn [fst snd] in *.
    cbn [dumps_members flat_map] in *. fold (dumps_members level ms) in *.
    assert (IH' := IH Hys Hgys Hfys (k', y) m Hy Hk' Hgy Hfy). clear IH.
    unfold dumps_member, encode_basestring_ascii in *. cbn [fst snd] in *.
    change (txt ": ") with [58; 32] in *.
    rewrite <- !app_assoc in *. cbn [app] in *. rewrite <- !app_assoc in *.
    cbn [app] in *.
    rewrite object_members_quote, scanstring_encoded by exact Hk.
    cbn [skip_ws]. change (is_ws 58) with false. cbv iota.
    change (58 =? 58) with true. cbv iota.
    cbn [skip_ws]. change (is_ws 32) with true. cbv iota.
    rewrite (skip_ws_dumps x (S level) _ Hgx).
    rewrite (Hx (S level) _ m depth); [|reflexivity|exact Hfx|lengths].
    cbn [skip_ws]. change (is_ws 44) with false. cbv iota.
    change (44 =? 125) with false. change (44 =? 44) with true. cbv iota.
    rewrite skip_ws_indent. cbn [skip_ws]. change (is_ws 34) with false.
    cbv iota.
    rewrite IH'; [reflexivity|]. lengths.
Qed.

Lemma skip_ws_member (level : nat) (kv : str * value) (t : str) :
  skip_ws (dumps_member level kv ++ t) = dumps_member level kv ++ t.
Proof. reflexivity. Qed.

Lemma fits_list (depth : nat) (l : list value) :
  fits (S depth) (VList l) <-> Forall (fits depth) l.
Proof.
  cbn [fits]. induction l as [|x l IH].
  - split; [constructor | exact (fun _ => I)].
  - split.
    + intros [Hx Hl]. constructor; [exact Hx | apply IH, Hl].
    + intros Hall. inversion Hall; subst. split; [|apply IH]; assumption.
Qed.

Lemma fits_dict (depth : nat) (d : list (str * value)) :
  fits (S depth) (VDict d) <-> Forall (fun kv => fits depth kv.2) d.
Proof.
  cbn [fits]. induction d as [|[k x] d IH].
  - split; [constructor | exact (fun _ => I)].
  - split.
    + intros [Hx Hd]. constructor; [exact Hx | apply IH, Hd].
    + intros Hall. inversion Hall; subst. split; [|apply IH]; assumption.
Qed.

(** Every good value reads back, within a budget that it fits. *)
Lemma scan_once_dumps (v : value) : good v -> reads_back v.
Proof.
  induction v as [ | b | z | f | s | l IHl | d IHd ] using value_ind';
    intros Hgood level rest n depth Hrest Hfit Hn;
    (destruct n as [|m]; [lia|]).
  - destruct rest; reflexivity.
  - destruct b, rest; reflexivity.
  - cbn [dumps_at].
    rewrite (scan_once_number m depth (dec_Z z) rest false (dec_Z_shape z)
               Hrest (fun _ => Hfit)).
    rewrite int_of_literal_dec_Z. reflexivity.
  - destruct f as [ | | |x]; try (destruct rest; reflexivity).
    destruct Hgood as [Hlit Hfin]. cbn [dumps_at floatstr].
    rewrite (scan_once_number m depth (finite_repr x) rest true
               (is_float_literal_shape _ Hlit) Hrest)
      by (intros Hf; discriminate Hf).
    unfold parse_float. rewrite Hfin. reflexivity.
  - cbn [dumps_at good] in *. unfold encode_basestring_ascii.
    cbn [app]. rewrite <- app_assoc. cbn [app].
    rewrite scan_once_string, scanstring_encoded by exact Hgood.
    reflexivity.
  - destruct depth as [|depth]; [destruct Hfit|].
    destruct l as [|x xs]; [reflexivity|].
    apply good_list in Hgood. apply fits_list in Hfit.
    inversion Hgood as [|? ? Hgx Hgxs]; subst.
    inversion Hfit as [|? ? Hfx Hfxs]; subst.
    inversion IHl as [|? ? Hx Hxs]; subst.
    assert (Hback : Forall reads_back xs).
    { clear -Hxs Hgxs. induction Hxs; inversion Hgxs; subst; constructor; auto. }
    rewrite dumps_at_list in *.
    rewrite <- !app_assoc in *. cbn [app] in *.
    rewrite scan_once_array, skip_ws_indent.
    rewrite (skip_ws_dumps x (S level) _ Hgx).
    destruct (dumps_head x (S level) Hgx) as (c & r & Ec & Hc).
    pose proof (head_ok_tests c Hc) as (Hc93 & _).
    rewrite Ec at 1. cbn [app]. rewrite Hc93.
    rewrite (array_items_dumps level depth rest xs Hback Hgxs Hfxs x m
               (Hx Hgx) Hgx Hfx);
      [reflexivity|].
    lengths.
  - destruct depth as [|depth]; [destruct Hfit|].
    destruct d as [|[k x] ms]; [reflexivity|].
    apply good_dict in Hgood as [Hnd Hgood]. apply fits_dict in Hfit.
    inversion Hgood as [|? ? [Hk Hgx] Hgms]; subst.
    inversion Hfit as [|? ? Hfx Hfms]; subst.
    inversion IHd as [|? ? Hx Hxs]; subst. cbn [fst snd] in *.
    assert (Hback : Forall (fun kv => reads_back kv.2) ms).
    { clear -Hxs Hgms.
      induction Hxs; inversion Hgms as [|? ? [? ?] ?]; subst; constructor; auto. }
    rewrite dumps_at_dict in *.
    rewrite <- !app_assoc in *. cbn [app] in *.
    rewrite scan_once_object, skip_ws_indent, skip_ws_member.
    assert (Hq : exists r, dumps_member level (k, x) = 34 :: r)
      by (eexists; reflexivity).
    destruct Hq as [r Er].
    rewrite Er at 1. cbn [app]. change (34 =? 125) with false. cbv iota.
    rewrite (object_members_dumps level depth rest ms Hback Hgms Hfms (k, x) m
               (Hx Hgx) Hk Hgx Hfx); [|lengths].
    cbn [fmap option_fmap option_map scan_map].
    rewrite (dict_of_pairs_nodup _ Hnd). reflexivity.
Qed.

(** What was written reads back: [json.loads (json.dumps v)] is [v]. *)
Lemma json_loads_at_dumps (depth : nat) (v : value) :
  good v -> fits depth v -> json_loads_at depth (json_dumps v) = Ok v.
Proof.
  intros Hgood Hfit. unfold json_loads_at, json_dumps.
  destruct (dumps_head v O Hgood) as (c & r & Ec & Hc).
  pose proof (head_ok_tests c Hc) as (_ & _ & Hbom).
  pose proof (skip_ws_dumps v O [] Hgood) as Hws.
  pose proof (scan_once_dumps v Hgood O []
                (2 * List.length (dumps_at O v) + 1)%nat depth eq_refl Hfit)
    as Hscan.
  rewrite app_nil_r in Hws, Hscan. rewrite Hws.
  rewrite Hscan by lia.
  rewrite Ec. cbn [startswith]. rewrite N.eqb_sym, Hbom. reflexivity.
Qed.

Lemma json_loads_dumps (v : value) :
  good v -> fits loads_depth v -> json_loads (json_dumps v) = Ok v.
Proof. apply json_loads_at_dumps. Qed.

(** *** What the scanner returns on well-formed Unicode text is good *)

Lemma scalar_text_cons (c : N) (s : str) :
  scalar_text (c :: s) = true <-> is_scalar c = true /\ scalar_text s = true.
Proof. unfold scalar_text. cbn [forallb]. apply andb_true_iff. Qed.

Lemma scalar_text_app (a b : str) :
  scalar_text (a ++ b) = true <-> scalar_text a = true /\ scalar_text b = true.
Proof. unfold scalar_text. rewrite forallb_app. apply andb_true_iff. Qed.

Lemma scalar_text_skip_ws (s : str) :
  scalar_text s = true -> scalar_text (skip_ws s) = true.
Proof.
  induction s as [|c s IH]; [intros _; reflexivity|].
  intros Hs. cbn [skip_ws]. destruct (is_ws c); [|exact Hs].
  apply scalar_text_cons in Hs as [_ Hs]. apply IH, Hs.
Qed.

Lemma scalar_text_drop (k : nat) (s : str) :
  scalar_text s = true -> scalar_text (drop k s) = true.
Proof.
  intros Hs. rewrite <- (take_drop k s) in Hs.
  apply scalar_text_app in Hs as [_ Hs]. exact Hs.
Qed.

Lemma is_scalar_spec (c : N) :
  is_scalar c = true ->
  c < 0x110000 /\ is_high_surrogate c = false /\ is_low_surrogate c = false.
Proof.
  unfold is_scalar, is_surrogate, is_high_surrogate, is_low_surrogate.
  intros Hc. apply andb_true_iff in Hc as [H1 H2].
  apply N.ltb_lt in H1. apply negb_true_iff in H2.
  split; [exact H1|].
  apply andb_false_iff in H2 as [H2|H2]; apply N.leb_gt in H2;
    split; apply andb_false_iff;
    try (left; apply N.leb_gt; lia); right; apply N.leb_gt; lia.
Qed.

Lemma hex_val_bound (c d : N) : hex_val c = Some d -> d < 16.
Proof.
  unfold hex_val. destruct (is_digit c) eqn:E1.
  { apply digit_range in E1. intros [= <-]. lia. }
  destruct ((97 <=? c) && (c <=? 102)) eqn:E2.
  { apply andb_true_iff in E2 as [Ha Hb]. apply N.leb_le in Ha, Hb.
    intros [= <-]. lia. }
  destruct ((65 <=? c) && (c <=? 70)) eqn:E3; [|discriminate].
  apply andb_true_iff in E3 as [Ha Hb]. apply N.leb_le in Ha, Hb.
  intros [= <-]. lia.
Qed.

Lemma lor_shiftl_4 (a d : N) : d < 16 -> N.lor (N.shiftl a 4) d = a * 16 + d.
Proof.
  intros Hd. rewrite <- (N.mod_small d (2 ^ 4)) by exact Hd.
  rewrite lor_shiftl_low. reflexivity.
Qed.

Lemma hex4_bound (h1 h2 h3 h4 u : N) :
  hex4 h1 h2 h3 h4 = Some u -> u < 0x10000.
Proof.
  unfold hex4.
  destruct (hex_val h1) as [a|] eqn:E1; [|discriminate].
  destruct (hex_val h2) as [b|] eqn:E2; [|discriminate].
  destruct (hex_val h3) as [c|] eqn:E3; [|discriminate].
  destruct (hex_val h4) as [d|] eqn:E4; [|discriminate].
  apply hex_val_bound in E1, E2, E3, E4.
  intros [= <-]. rewrite !lor_shiftl_4 by assumption. lia.
Qed.

Lemma backslash_bound (e ch : N) : backslash e = Some ch -> ch < 128.
Proof.
  unfold backslash.
  repeat match goal with
         | |- context [if ?b then _ else _] =>
           destruct b; [intros [= <-]; lia|]
         end.
  discriminate.
Qed.

Lemma good_str_intro (c : N) (s : str) :
  c < 0x110000 ->
  (is_high_surrogate c = true -> next_is is_low_surrogate s = false) ->
  good_str s = true -> good_str (c :: s) = true.
Proof.
  intros Hc Hpair Hs. cbn [good_str]. rewrite Hs, andb_true_r.
  apply andb_true_iff. split; [apply N.ltb_lt, Hc|].
  apply negb_true_iff. destruct (is_high_surrogate c); [|reflexivity].
  rewrite (Hpair eq_refl). reflexivity.
Qed.

Lemma not_high_below (c : N) : c < 0xD800 -> is_high_surrogate c = false.
Proof.
  intros Hc. unfold is_high_surrogate. apply andb_false_iff. left.
  apply N.leb_gt. exact Hc.
Qed.

Lemma not_low_below (c : N) : c < 0xD800 -> is_low_surrogate c = false.
Proof.
  intros Hc. unfold is_low_surrogate. apply andb_false_iff. left.
  apply N.leb_gt. lia.
Qed.

Lemma not_surrogate_above (c : N) :
  0x10000 <= c ->
  is_high_surrogate c = false /\ is_low_surrogate c = false.
Proof.
  intros Hc. unfold is_high_surrogate, is_low_surrogate.
  split; apply andb_false_iff; right; apply N.leb_gt; lia.
Qed.

Lemma scan_cons_scanned (ch : N) (r : scan str) (x rest : str) :
  scan_cons ch r = Scanned x rest ->
  exists x', r = Scanned x' rest /\ x = ch :: x'.
Proof. intros E. apply scan_map_scanned in E as (x' & E & ->). eauto. Qed.

Lemma eqb_92 (c : N) : (c =? 92) = true -> c = 92.
Proof. apply N.eqb_eq. Qed.

(** Strings scanned from well-formed Unicode text are [good_str]. *)
Lemma scanstring_good (begin : nat) :
  forall (n : nat) (s x rest : str),
    List.length s = n -> scalar_text s = true ->
    scanstring begin s = Scanned x rest ->
    good_str x = true /\ scalar_text rest = true /\ low_escape_start s x.
Proof.
  induction n as [n IH] using lt_wf_ind. intros s x rest Hn Hs.
  (* a character that is no surrogate, then the rest of the string *)
  assert (Hplain : forall ch s' x0,
             (List.length s' < n)%nat -> scalar_text s' = true ->
             ch < 0x110000 -> is_high_surrogate ch = false ->
             is_low_surrogate ch = false ->
             scan_cons ch (scanstring begin s') = Scanned x0 rest ->
             good_str x0 = true /\ scalar_text rest = true
             /\ low_escape_start s x0).
  { intros ch s' x0 Hlt Hs' Hch Hhi Hlo E.
    apply scan_cons_scanned in E as (x' & E & ->).
    destruct (IH _ Hlt s' x' rest eq_refl Hs' E) as (Hg & Hrest & _).
    split; [|split; [exact Hrest|]].
    - apply good_str_intro; [exact Hch | rewrite Hhi; discriminate | exact Hg].
    - intros Hx. cbn [next_is] in Hx. congruence. }
  destruct s as [|c r]; [discriminate|].
  apply scalar_text_cons in Hs as [Hc Hr]. cbn [List.length] in Hn.
  cbn [scanstring].
  destruct (c =? 34) eqn:Eq.
  { intros [= <- <-]. split; [reflexivity|]. split; [exact Hr|].
    intros Hx. discriminate. }
  destruct (c =? 92) eqn:Eb.
  - apply eqb_92 in Eb. subst c.
    destruct r as [|e r1]; [discriminate|].
    apply scalar_text_cons in Hr as [He Hr1]. cbn [List.length] in Hn.
    destruct (e =? 117) eqn:Eu.
    + apply N.eqb_eq in Eu. subst e.
      destruct r1 as [|h1 [|h2 [|h3 [|h4 [|c5 r2]]]]]; try discriminate.
      destruct (hex4 h1 h2 h3 h4) as [u|] eqn:Eh; [|discriminate].
      pose proof (hex4_bound _ _ _ _ _ Eh) as Hu.
      assert (Hr2 : scalar_text (c5 :: r2) = true).
      { do 4 (apply scalar_text_cons in Hr1 as [_ Hr1]). exact Hr1. }
      cbn [List.length] in Hn.
      (* the escape stands alone: what follows must not start with a low
         surrogate when [u] is a high one *)
      assert (Halone : forall x0,
                 (is_high_surrogate u = true ->
                  forall x', scanstring begin (c5 :: r2) = Scanned x' rest ->
                             next_is is_low_surrogate x' = false) ->
                 scan_cons u (scanstring begin (c5 :: r2)) = Scanned x0 rest ->
                 good_str x0 = true /\ scalar_text rest = true
                 /\ low_escape_start (92 :: 117 :: h1 :: h2 :: h3 :: h4 :: c5 :: r2) x0).
      { intros x0 Hpair E.
        apply scan_cons_scanned in E as (x' & E & ->).
        assert (Hlt : (List.length (c5 :: r2) < n)%nat) by (cbn [List.length]; lia).
        destruct (IH _ Hlt (c5 :: r2) x' rest eq_refl Hr2 E) as (Hg & Hrest & _).
        split; [|split; [exact Hrest|]].
        - apply good_str_intro; [lia | | exact Hg].
          intros Hhigh. exact (Hpair Hhigh x' E).
        - intros Hx. cbn [next_is] in Hx.
          exists h1, h2, h3, h4, c5, r2, u. auto. }
      (* what the scanner would have seen, had a low escape followed *)
      assert (Hnext : forall x',
                 scanstring begin (c5 :: r2) = Scanned x' rest ->
                 low_escape_start (c5 :: r2) x').
      { intros x' E.
        assert (Hlt : (List.length (c5 :: r2) < n)%nat) by (cbn [List.length]; lia).
        exact (proj2 (proj2 (IH _ Hlt (c5 :: r2) x' rest eq_refl Hr2 E))). }
      destruct r2 as [|u' [|g1 [|g2 [|g3 [|g4 [|c6 r3]]]]]];
        try (apply Halone; intros _ x' E;
             destruct (next_is is_low_surrogate x') eqn:Hlow; [|reflexivity];
             destruct (Hnext x' E Hlow) as (? & ? & ? & ? & ? & ? & ? & Habs & _);
             discriminate).
      destruct (is_high_surrogate u && (c5 =? 92) && (u' =? 117)) eqn:Ec.
      * destruct (hex4 g1 g2 g3 g4) as [u2|] eqn:Eg; [|discriminate].
        destruct (is_low_surrogate u2) eqn:El.
        -- pose proof (join_surrogates_range u u2) as [Hj1 Hj2].
           destruct (not_surrogate_above _ Hj1) as [Hjh Hjl].
           apply Hplain; try assumption.
           ++ cbn [List.length] in *. lia.
           ++ do 6 (apply scalar_text_cons in Hr2 as [_ Hr2]). exact Hr2.
        -- apply Halone. intros _ x' E.
           destruct (next_is is_low_surrogate x') eqn:Hlow; [|reflexivity].
           destruct (Hnext x' E Hlow)
             as (k1 & k2 & k3 & k4 & c0 & t & u0 & Habs & Hk & Hu0).
           injection Habs as _ _ <- <- <- <- _ _.
           congruence.
      * apply Halone. intros Hhigh x' E.
        destruct (next_is is_low_surrogate x') eqn:Hlow; [|reflexivity].
        destruct (Hnext x' E Hlow)
          as (k1 & k2 & k3 & k4 & c0 & t & u0 & Habs & _).
        injection Habs as -> -> _.
        rewrite Hhigh in Ec. discriminate.
    + destruct (backslash e) as [ch|] eqn:Ebs; [|discriminate].
      pose proof (backslash_bound _ _ Ebs) as Hch.
      apply Hplain; [lia | exact Hr1 | lia | | ].
      * apply not_high_below. lia.
      * apply not_low_below. lia.
  - destruct (c <=? 31); [discriminate|].
    destruct (is_scalar_spec c Hc) as (H1 & H2 & H3).
    apply Hplain; [lia | exact Hr | exact H1 | exact H2 | exact H3].
Qed.

Lemma dict_set_keys (d : list (str * value (F := F))) (k k' : str) (v : value) :
  k' ∈ List.map fst (dict_set d k v) -> k' = k \/ k' ∈ List.map fst d.
Proof.
  induction d as [|[k0 v0] d IH]; cbn [dict_set].
  - cbn. intros Hin. apply list_elem_of_singleton in Hin. left. exact Hin.
  - destruct (decide (k0 = k)) as [->|Hne]; cbn [List.map fst].
    + intros Hin. right. exact Hin.
    + intros Hin. apply elem_of_cons in Hin as [->|Hin].
      * right. left.
      * destruct (IH Hin) as [->|Hd]; [left; reflexivity|].
        right. right. exact Hd.
Qed.

Lemma dict_set_good (d : list (str * value (F := F))) (k : str) (v : value) :
  NoDup (List.map fst d) -> Forall good_member d -> good_member (k, v) ->
  NoDup (List.map fst (dict_set d k v)) /\ Forall good_member (dict_set d k v).
Proof.
  intros Hnd Hd Hkv.
  induction d as [|[k0 v0] d IH]; cbn [dict_set].
  - split; [cbn; apply NoDup_singleton | constructor; [exact Hkv | constructor]].
  - cbn [List.map fst] in Hnd. apply NoDup_cons in Hnd as [Hk0 Hnd].
    inversion Hd as [|? ? Hkv0 Hd']; subst.
    destruct (decide (k0 = k)) as [->|Hne].
    + split.
      * cbn [List.map fst]. apply NoDup_cons. split; assumption.
      * constructor; [exact Hkv | exact Hd'].
    + destruct (IH Hnd Hd') as [IH1 IH2]. split.
      * cbn [List.map fst]. apply NoDup_cons. split; [|exact IH1].
        intros Hin. apply dict_set_keys in Hin as [->|Hin]; [congruence|].
        exact (Hk0 Hin).
      * constructor; assumption.
Qed.

Lemma dict_of_pairs_good (ps : list (str * value (F := F))) :
  Forall good_member ps -> good (VDict (dict_of_pairs ps)).
Proof.
  intros Hps. apply good_dict. unfold dict_of_pairs.
  assert (Hgen : forall acc,
             NoDup (List.map fst acc) -> Forall good_member acc ->
             NoDup (List.map fst (fold_left (fun d kv => dict_set d kv.1 kv.2) ps acc))
             /\ Forall good_member (fold_left (fun d kv => dict_set d kv.1 kv.2) ps acc)).
  { induction Hps as [|[k v] ps Hkv Hps IH]; intros acc Hnd Hacc; cbn [fold_left].
    - split; assumption.
    - cbn [fst snd]. destruct (dict_set_good acc k v Hnd Hacc Hkv) as [H1 H2].
      apply IH; assumption. }
  apply Hgen; [apply NoDup_nil_2 | constructor].
Qed.

(** A float read from a literal is stable, by the laws assumed of floats. *)
Lemma parse_float_good (s lit rest : str) :
  float_laws -> match_number s = Some (lit, true, rest) ->
  good_float (parse_float lit).
Proof.
  intros Hfl Em. apply matched_is_float_literal in Em.
  unfold parse_float.
  destruct (finite_of_literal lit) as [x|] eqn:Ef.
  - exact (Hfl lit x Em Ef).
  - destruct (startswith lit [45]); exact I.
Qed.

(** Whatever the scanner reads from well-formed Unicode text survives a
    round trip, and what it leaves is well-formed too. *)
Lemma scan_good (n : nat) :
  float_laws ->
  forall (depth : nat) (s : str),
    scalar_text s = true ->
    (forall v rest, scan_once n depth s = Some (Scanned v rest) ->
                    good v /\ scalar_text rest = true)
    /\ (forall l rest, array_items n depth s = Some (Scanned l rest) ->
                       Forall good l /\ scalar_text rest = true)
    /\ (forall l rest, object_members n depth s = Some (Scanned l rest) ->
                       Forall good_member l /\ scalar_text rest = true).
Proof.
  intros Hfl.
  induction n as [|n IH]; intros depth s Hs; [repeat split; discriminate|].
  split; [|split].
  - intros v rest. simpl.
    destruct s as [|c r]; [discriminate|].
    pose proof Hs as Hcr.
    apply scalar_text_cons in Hs as [Hc Hr].
    pose proof (scalar_text_skip_ws r Hr) as Hws.
    destruct (c =? 34).
    { intros [= E]. apply scan_map_scanned in E as (x & E & ->).
      destruct (scanstring_good _ _ r x rest eq_refl Hr E) as (Hg & Hrest & _).
      split; [exact Hg | exact Hrest]. }
    destruct (c =? 123).
    { destruct depth as [|depth']; [discriminate|].
      destruct (skip_ws r) as [|c1 r1] eqn:Er.
      - intros E. apply fmap_scanned in E as (x & E & ->).
        apply (IH _ [] eq_refl) in E as [E1 E2].
        split; [apply dict_of_pairs_good, E1 | exact E2].
      - destruct (c1 =? 125).
        + intros [= <- <-]. apply scalar_text_cons in Hws as [_ Hws].
          split; [|exact Hws]. apply good_dict. split; [apply NoDup_nil_2 | constructor].
        + intros E. apply fmap_scanned in E as (x & E & ->).
          apply (IH _ (c1 :: r1) Hws) in E as [E1 E2].
          split; [apply dict_of_pairs_good, E1 | exact E2]. }
    destruct (c =? 91).
    { destruct depth as [|depth']; [discriminate|].
      destruct (skip_ws r) as [|c1 r1] eqn:Er.
      - intros E. apply fmap_scanned in E as (x & E & ->).
        apply (IH _ [] eq_refl) in E as [E1 E2].
        split; [apply good_list, E1 | exact E2].
      - destruct (c1 =? 93).
        + intros [= <- <-]. apply scalar_text_cons in Hws as [_ Hws].
          split; [exact I | exact Hws].
        + intros E. apply fmap_scanned in E as (x & E & ->).
          apply (IH _ (c1 :: r1) Hws) in E as [E1 E2].
          split; [apply good_list, E1 | exact E2]. }
    repeat (match goal with
            | |- context [if startswith ?a ?b then _ else _] =>
              destruct (startswith a b);
                [intros [= <- <-]; split;
                 [exact I | first [apply scalar_text_drop, Hr
                                  | apply scalar_text_drop, Hcr]]|]
            end).
    destruct (match_number (c :: r)) as [[[lit is_float] rest']|] eqn:Em;
      [|discriminate].
    pose proof (match_number_app _ _ _ _ Em) as [Eapp _].
    rewrite Eapp in Hcr. apply scalar_text_app in Hcr as [_ Hrest].
    destruct is_float.
    + intros [= <- <-]. split; [|exact Hrest].
      exact (parse_float_good _ _ _ Hfl Em).
    + destruct (int_too_long lit); [discriminate|].
      intros [= <- <-]. split; [exact I | exact Hrest].
  - intros l rest. simpl.
    destruct (scan_once n depth s) as [[v r|k|m k|flt]|] eqn:E1;
      try discriminate.
    apply (IH depth s Hs) in E1 as [Hv Hr].
    pose proof (scalar_text_skip_ws r Hr) as Hws.
    destruct (skip_ws r) as [|c r1] eqn:Er; [discriminate|].
    apply scalar_text_cons in Hws as [_ Hr1].
    destruct (c =? 93).
    { intros [= <- <-]. split; [constructor; [exact Hv | constructor] | exact Hr1]. }
    destruct (c =? 44); [|discriminate].
    intros E. apply fmap_scanned in E as (x & E & ->).
    apply (IH _ (skip_ws r1) (scalar_text_skip_ws _ Hr1)) in E as [E2 E3].
    split; [constructor; assumption | exact E3].
  - intros l rest. simpl.
    destruct s as [|q r]; [discriminate|].
    apply scalar_text_cons in Hs as [_ Hr].
    destruct (q =? 34); [|discriminate].
    destruct (scanstring _ r) as [key r1|k|m k|flt] eqn:Es; try discriminate.
    destruct (scanstring_good _ _ r key r1 eq_refl Hr Es) as (Hkey & Hr1 & _).
    pose proof (scalar_text_skip_ws r1 Hr1) as Hws1.
    destruct (skip_ws r1) as [|c r2] eqn:Er1; [discriminate|].
    apply scalar_text_cons in Hws1 as [_ Hr2].
    destruct (c =? 58); [|discriminate].
    destruct (scan_once n depth (skip_ws r2)) as [[v r3|k|m k|flt]|] eqn:E1;
      try discriminate.
    apply (IH _ (skip_ws r2) (scalar_text_skip_ws _ Hr2)) in E1 as [Hv Hr3].
    pose proof (scalar_text_skip_ws r3 Hr3) as Hws3.
    destruct (skip_ws r3) as [|c' r4] eqn:Er3; [discriminate|].
    apply scalar_text_cons in Hws3 as [_ Hr4].
    destruct (c' =? 125).
    { intros [= <- <-].
      split; [constructor; [split; assumption | constructor] | exact Hr4]. }
    destruct (c' =? 44); [|discriminate].
    intros E. apply fmap_scanned in E as (x & E & ->).
    apply (IH _ (skip_ws r4) (scalar_text_skip_ws _ Hr4)) in E as [E2 E3].
    split; [constructor; [split; assumption | exact E2] | exact E3].
Qed.

Lemma json_loads_at_good (depth : nat) (t : str) (v : value) :
  float_laws -> scalar_text t = true -> json_loads_at depth t = Ok v -> good v.
Proof.
  intros Hfl Ht. unfold json_loads_at.
  destruct (startswith t [0xFEFF]); [discriminate|].
  cbv zeta.
  destruct (scan_once _ _ (skip_ws t)) as [[v' rest|k|m k|flt]|] eqn:E;
    try discriminate.
  apply (scan_good _ Hfl _ _ (scalar_text_skip_ws _ Ht)) in E as [Hv _].
  destruct (is_nil (skip_ws rest)); [|discriminate].
  intros [= <-]. exact Hv.
Qed.

Lemma json_loads_good (t : str) (v : value) :
  float_laws -> scalar_text t = true -> json_loads t = Ok v -> good v.
Proof. apply json_loads_at_good. Qed.

(** *** An invariant of everything the scanner reads *)

Lemma dict_set_values (Q : value (F := F) -> Prop)
    (d : list (str * value)) (k : str) (v : value) :
  Forall (fun kv => Q kv.2) d -> Q v ->
  Forall (fun kv => Q kv.2) (dict_set d k v).
Proof.
  intros Hd Hv. induction Hd as [|[k0 v0] d H0 Hd IH]; cbn [dict_set].
  - constructor; [exact Hv | constructor].
  - destruct (decide (k0 = k)); constructor; assumption.
Qed.

Lemma dict_of_pairs_values (Q : value (F := F) -> Prop)
    (ps : list (str * value)) :
  Forall (fun kv => Q kv.2) ps -> Forall (fun kv => Q kv.2) (dict_of_pairs ps).
Proof.
  intros Hps. unfold dict_of_pairs.
  assert (Hgen : forall acc,
             Forall (fun kv => Q kv.2) acc ->
             Forall (fun kv => Q kv.2)
                    (fold_left (fun d kv => dict_set d kv.1 kv.2) ps acc)).
  { induction Hps as [|[k v] ps Hkv Hps IH]; intros acc Hacc; cbn [fold_left].
    - exact Hacc.
    - apply IH. apply dict_set_values; assumption. }
  apply Hgen. constructor.
Qed.

(** A property, indexed by the containers that may still be entered, of
    null, the booleans, the strings, the integers and the floats read from
    literals, that lists and dicts inherit from their elements one level
    down, holds of every value the scanner reads. *)
Lemma scan_invariant_at (Q : nat -> value (F := F) -> Prop) :
  (forall d, Q d VNull) -> (forall d b, Q d (VBool b)) ->
  (forall d lit, number_shape lit false -> int_too_long lit = false ->
                 Q d (VInt (int_of_literal lit))) ->
  (forall d s, Q d (VStr s)) ->
  (forall d, Q d (VFloat FNaN)) -> (forall d, Q d (VFloat FInf)) ->
  (forall d, Q d (VFloat FNegInf)) ->
  (forall d lit, is_float_literal lit = true -> Q d (VFloat (parse_float lit))) ->
  (forall d l, Forall (Q d) l -> Q (S d) (VList l)) ->
  (forall d ms, Forall (fun kv => Q d kv.2) ms -> Q (S d) (VDict ms)) ->
  forall (n depth : nat) (s : str),
    (forall v rest, scan_once n depth s = Some (Scanned v rest) -> Q depth v)
    /\ (forall l rest, array_items n depth s = Some (Scanned l rest) ->
                       Forall (Q depth) l)
    /\ (forall l rest, object_members n depth s = Some (Scanned l rest) ->
                       Forall (fun kv => Q depth kv.2) l).
Proof.
  intros HNull HBool HInt HStr HNaN HInf HNegInf HFloat HList HDict.
  induction n as [|n IH]; intros depth s; [repeat split; discriminate|].
  split; [|split].
  - intros v rest. simpl.
    destruct s as [|c r]; [discriminate|].
    destruct (c =? 34).
    { intros [= E]. apply scan_map_scanned in E as (x & E & ->). apply HStr. }
    destruct (c =? 123).
    { destruct depth as [|depth']; [discriminate|].
      destruct (skip_ws r) as [|c1 r1] eqn:Er.
      - intros E. apply fmap_scanned in E as (x & E & ->).
        apply (IH _ []) in E.
        apply HDict, (dict_of_pairs_values (Q depth')), E.
      - destruct (c1 =? 125).
        + intros [= <- <-]. apply HDict. constructor.
        + intros E. apply fmap_scanned in E as (x & E & ->).
          apply (IH _ (c1 :: r1)) in E.
          apply HDict, (dict_of_pairs_values (Q depth')), E. }
    destruct (c =? 91).
    { destruct depth as [|depth']; [discriminate|].
      destruct (skip_ws r) as [|c1 r1] eqn:Er.
      - intros E. apply fmap_scanned in E as (x & E & ->).
        apply (IH _ []) in E. apply HList, E.
      - destruct (c1 =? 93).
        + intros [= <- <-]. apply HList. constructor.
        + intros E. apply fmap_scanned in E as (x & E & ->).
          apply (IH _ (c1 :: r1)) in E. apply HList, E. }
    repeat (match goal with
            | |- context [if startswith ?a ?b then _ else _] =>
              destruct (startswith a b);
                [intros [= <- <-];
                 first [apply HNull | apply HBool | apply HNaN | apply HInf
                       | apply HNegInf]|]
            end).
    destruct (match_number (c :: r)) as [[[lit is_float] rest']|] eqn:Em;
      [|discriminate].
    destruct is_float.
    + intros [= <- <-]. apply HFloat.
      exact (matched_is_float_literal _ _ _ Em).
    + destruct (int_too_long lit) eqn:Elong; [discriminate|].
      intros [= <- <-]. apply HInt; [|exact Elong].
      exact (match_number_shape _ _ _ _ Em).
  - intros l rest. simpl.
    destruct (scan_once n depth s) as [[v r|k|m k|flt]|] eqn:E1;
      try discriminate.
    apply (IH depth s) in E1.
    destruct (skip_ws r) as [|c r1] eqn:Er; [discriminate|].
    destruct (c =? 93).
    { intros [= <- <-]. constructor; [exact E1 | constructor]. }
    destruct (c =? 44); [|discriminate].
    intros E. apply fmap_scanned in E as (x & E & ->).
    apply (IH _ (skip_ws r1)) in E. constructor; assumption.
  - intros l rest. simpl.
    destruct s as [|q r]; [discriminate|].
    destruct (q =? 34); [|discriminate].
    destruct (scanstring _ r) as [key r1|k|m k|flt] eqn:Es; try discriminate.
    destruct (skip_ws r1) as [|c r2] eqn:Er1; [discriminate|].
    destruct (c =? 58); [|discriminate].
    destruct (scan_once n depth (skip_ws r2)) as [[v r3|k|m k|flt]|] eqn:E1;
      try discriminate.
    apply (IH _ (skip_ws r2)) in E1.
    destruct (skip_ws r3) as [|c' r4] eqn:Er3; [discriminate|].
    destruct (c' =? 125).
    { intros [= <- <-]. constructor; [exact E1 | constructor]. }
    destruct (c' =? 44); [|discriminate].
    intros E. apply fmap_scanned in E as (x & E & ->).
    apply (IH _ (skip_ws r4)) in E. constructor; assumption.
Qed.

Lemma json_loads_at_invariant (Q : nat -> value (F := F) -> Prop) :
  (forall d, Q d VNull) -> (forall d b, Q d (VBool b)) ->
  (forall d lit, number_shape lit false -> int_too_long lit = false ->
                 Q d (VInt (int_of_literal lit))) ->
  (forall d s, Q d (VStr s)) ->
  (forall d, Q d (VFloat FNaN)) -> (forall d, Q d (VFloat FInf)) ->
  (forall d, Q d (VFloat FNegInf)) ->
  (forall d lit, is_float_literal lit = true -> Q d (VFloat (parse_float lit))) ->
  (forall d l, Forall (Q d) l -> Q (S d) (VList l)) ->
  (forall d ms, Forall (fun kv => Q d kv.2) ms -> Q (S d) (VDict ms)) ->
  forall (depth : nat) (t : str) (v : value),
    json_loads_at depth t = Ok v -> Q depth v.
Proof.
  intros HNull HBool HInt HStr HNaN HInf HNegInf HFloat HList HDict depth t v.
  unfold json_loads_at.
  destruct (startswith t [0xFEFF]); [discriminate|].
  cbv zeta.
  destruct (scan_once _ _ (skip_ws t)) as [[v' rest|k|m k|flt]|] eqn:E;
    try discriminate.
  destruct (is_nil (skip_ws rest)); [|discriminate].
  intros [= <-].
  exact (proj1 (scan_invariant_at Q HNull HBool HInt HStr HNaN HInf HNegInf
                  HFloat HList HDict _ _ _) _ _ E).
Qed.

Lemma json_loads_invariant (Q : value (F := F) -> Prop) :
  Q VNull -> (forall b, Q (VBool b)) -> (forall z, Q (VInt z)) ->
  (forall s, Q (VStr s)) ->
  Q (VFloat FNaN) -> Q (VFloat FInf) -> Q (VFloat FNegInf) ->
  (forall lit, is_float_literal lit = true -> Q (VFloat (parse_float lit))) ->
  (forall l, Forall Q l -> Q (VList l)) ->
  (forall d, Forall (fun kv => Q kv.2) d -> Q (VDict d)) ->
  forall (t : str) (v : value), json_loads t = Ok v -> Q v.
Proof.
  intros HNull HBool HInt HStr HNaN HInf HNegInf HFloat HList HDict t v.
  apply (json_loads_at_invariant (fun _ => Q)); auto.
Qed.

(** What [json.loads] returns fits the budget it ran with. *)
Lemma json_loads_at_fits (depth : nat) (t : str) (v : value) :
  json_loads_at depth t = Ok v -> fits depth v.
Proof.
  apply (json_loads_at_invariant fits); try (intros; exact I).
  - intros d lit Hs Hl. exact (int_of_literal_fits lit Hs Hl).
  - intros d l Hl. apply fits_list, Hl.
  - intros d ms Hms. apply fits_dict, Hms.
Qed.

(** C4 (amended): parameter formatting is idempotent on well-formed Unicode
    text.  For every text [t] that holds no surrogate code point and parses
    as valid structured data, with [p] the canonical output of formatting
    [t], formatting [p] again succeeds and returns [p] itself, code point for
    code point.  Floats are assumed to obey [float_laws]: the [repr] of a
    float read from a literal is a literal that reads back as that float. *)
Theorem format_parameters_idempotent (t p : str) :
  float_laws -> scalar_text t = true ->
  format_parameters t = Ok p -> format_parameters p = Ok p.
Proof.
  intros Hfl Ht. unfold format_parameters at 1.
  destruct (json_loads t) as [v|e] eqn:El.
  - intros [= <-]. unfold format_parameters.
    rewrite (json_loads_dumps v (json_loads_good t v Hfl Ht El)
               (json_loads_at_fits _ t v El)).
    reflexivity.
  - destruct (is_JSONDecodeError e); discriminate.
Qed.

(** *** The fetch and the kernel resolution, in full *)

Lemma http_error_msg_truthy (r : response) :
  truthy (http_error_msg r) = is_error_status (status_code r).
Proof.
  unfold http_error_msg, is_error_status. cbv zeta.
  destruct ((400 <=? status_code r) && (status_code r <? 500))%Z eqn:E4.
  - apply andb_true_iff in E4 as [E1 E2].
    rewrite E1. simpl andb.
    replace (status_code r <? 600)%Z with true by (symmetry; lia).
    destruct (dec_Z (status_code r)); reflexivity.
  - destruct ((500 <=? status_code r) && (status_code r <? 600))%Z eqn:E5.
    + apply andb_true_iff in E5 as [E1 E2]. rewrite E2, andb_true_r.
      replace (400 <=? status_code r)%Z with true by (symmetry; lia).
      destruct (dec_Z (status_code r)); reflexivity.
    + simpl. symmetry. apply andb_false_iff.
      apply andb_false_iff in E4. apply andb_false_iff in E5. lia.
Qed.

Lemma download_notebook_spec (target output_path : str) (s : state) :
  download_notebook W target output_path s =
    match requests_get W target with
    | Failed cls msg =>
      (record (HttpGet target) s,
       Raise (ValueError (txt "Failed to download notebook: " ++ msg)))
    | Responded r =>
      if is_error_status (status_code r)
      then (record (HttpGet target) s,
            Raise (ValueError (txt "Failed to download notebook: " ++
                               http_error_msg r)))
      else
        match open_error W (fs s) output_path with
        | Some (cls, msg) =>
          (record (HttpGet target) s,
           Raise (ValueError (txt "Failed to download notebook: " ++ msg)))
        | None =>
          ({| fs := <[output_path := File (content r)]> (fs s);
              log := log s ++ [HttpGet target] |}, Ok tt)
        end
    end.
Proof.
  unfold download_notebook, try_except, requests_get_call, raise_for_status,
    open_write, get_fs, put_fs, http_outcome.
  unfold mbind, M_bind, emit.
  unfold mret, M_ret, raise.
  destruct (requests_get W target) as [r|cls msg]; [|reflexivity].
  rewrite <- http_error_msg_truthy.
  destruct (truthy (http_error_msg r)); [reflexivity|].
  cbn [record fs log].
  destruct (open_error W (fs s) output_path) as [[cls msg]|]; reflexivity.
Qed.

Lemma get_python_kernel_spec (s : state) :
  get_python_kernel W s =
    (record ListKernels s,
     match get_all_specs W with
     | inr (cls, msg) => Raise (ValueError (txt "Error getting kernel: " ++ msg))
     | inl names =>
       let python_version :=
         default (txt "3.11") (environ W !! "PYTHON_VERSION"%string) in
       match List.find (fun k => str_in (txt "python" ++ python_version) (lower k))
                       names with
       | Some k => Ok k
       | None =>
         match List.find (fun k => str_in (txt "python") (lower k)) names with
         | Some k => Ok k
         | None =>
           Raise (ValueError
                    (txt "Error getting kernel: No Python kernel found for version "
                     ++ python_version))
         end
       end
     end).
Proof.
  unfold get_python_kernel, try_except, kernel_registry, get_python_version.
  unfold mbind, M_bind, mret, M_ret, emit. cbv zeta.
  destruct (get_all_specs W) as [names|[cls msg]]; [|reflexivity].
  rewrite <- !filter_head_find.
  destruct (List.filter _ names) as [|k ?]; [|reflexivity].
  destruct (List.filter _ names) as [|k ?]; reflexivity.
Qed.

Lemma startswith_app (s a b : str) :
  startswith s (a ++ b) = true -> startswith s a = true.
Proof.
  revert s. induction a as [|x a IH]; intros s; [destruct s; reflexivity|].
  destruct s as [|y s]; [discriminate|]. cbn [app startswith].
  intros E. apply andb_true_iff in E as [E1 E2].
  rewrite E1. exact (IH s E2).
Qed.

Lemma str_in_app (a b hay : str) :
  str_in (a ++ b) hay = true -> str_in a hay = true.
Proof.
  induction hay as [|c hay IH]; cbn [str_in]; intros E.
  - apply orb_true_iff in E as [E|E]; [|discriminate].
    rewrite (startswith_app _ _ _ E). reflexivity.
  - apply orb_true_iff in E as [E|E].
    + rewrite (startswith_app _ _ _ E). reflexivity.
    + rewrite (IH E). apply orb_true_r.
Qed.

Lemma find_none_forall {A} (f : A -> bool) (l : list A) :
  List.find f l = None <-> Forall (fun x => f x = false) l.
Proof.
  induction l as [|a l IH]; simpl.
  - split; [constructor | reflexivity].
  - destruct (f a) eqn:E.
    + split; [discriminate|]. intros Hf. inversion Hf; congruence.
    + rewrite IH. split; [constructor; assumption|].
      intros Hf. inversion Hf; assumption.
Qed.

(** X1: whatever [PYTHON_VERSION] says, a kernel that [get_python_kernel]
    returns is one of the installed identifiers and has python in its
    lower-cased name; and, the registry answering, a kernel is returned
    exactly when some installed identifier has. *)
Theorem get_python_kernel_sound (names : list str) (s : state) :
  get_all_specs W = inl names ->
  (forall k s', get_python_kernel W s = (s', Ok k) ->
                In k names /\ str_in (txt "python") (lower k) = true)
  /\ ((exists k s', get_python_kernel W s = (s', Ok k))
      <-> Exists (fun k => str_in (txt "python") (lower k) = true) names).
Proof.
  intros Hreg. rewrite get_python_kernel_spec, Hreg. cbv zeta.
  destruct (List.find (fun k => str_in (txt "python" ++ _) (lower k)) names)
    as [k1|] eqn:E1.
  - apply find_some in E1 as [Hin Hk]. apply str_in_app in Hk.
    split.
    + intros k s' [= _ <-]. split; assumption.
    + split; [intros _ | intros _; eauto].
      apply List.Exists_exists. exists k1. split; assumption.
  - destruct (List.find (fun k => str_in (txt "python") (lower k)) names)
      as [k2|] eqn:E2.
    + apply find_some in E2 as [Hin Hk]. split.
      * intros k s' [= _ <-]. split; assumption.
      * split; [intros _ | intros _; eauto].
        apply List.Exists_exists. exists k2. split; assumption.
    + split; [intros k s'; discriminate|].
      split; [intros (k & s' & E); discriminate|].
      intros Hex. apply find_none_forall in E2.
      apply List.Exists_exists in Hex as (k & Hin & Hk).
      rewrite List.Forall_forall in E2. rewrite (E2 k Hin) in Hk. discriminate.
Qed.

(** X2: [get_python_kernel] queries the registry once and touches nothing
    else, whether it returns or raises.  It fails in two cases only, each
    time with a ValueError whose message starts with [Error getting kernel: ]:
    the registry raised, and the message goes on with the registry's; or no
    installed identifier has python in its lower-cased name, and the message
    names the requested version, which is 3.11 when [PYTHON_VERSION] is
    unset. *)
Theorem get_python_kernel_failure (s : state) :
  (get_python_kernel W s).1 = record ListKernels s
  /\ forall e : exn,
       (get_python_kernel W s).2 = Raise e ->
       (exists cls msg,
          get_all_specs W = inr (cls, msg)
          /\ e = ValueError (txt "Error getting kernel: " ++ msg))
       \/ (exists names,
             get_all_specs W = inl names
             /\ Forall (fun k => str_in (txt "python") (lower k) = false) names
             /\ e = ValueError
                      (txt "Error getting kernel: No Python kernel found for version "
                       ++ default (txt "3.11")
                            (environ W !! "PYTHON_VERSION"%string))).
Proof.
  rewrite get_python_kernel_spec. cbn [fst snd].
  split; [reflexivity|]. intros e E.
  destruct (get_all_specs W) as [names|[cls msg]].
  - right. exists names. split; [reflexivity|]. cbv zeta in E.
    destruct (List.find _ names) as [k1|]; [discriminate|].
    destruct (List.find _ names) as [k2|] eqn:E2; [discriminate|].
    split; [apply find_none_forall, E2 | congruence].
  - left. exists cls, msg. split; [reflexivity | congruence].
Qed.

(** X3: [download_notebook] returns exactly when the server answers with a
    status outside 400..599 and the output file can be opened for writing;
    the body of the answer is then the content of the output file, every
    other file is as before, and one GET has been made. *)
Theorem download_notebook_succeeds_iff (target output_path : str)
    (s s' : state) :
  download_notebook W target output_path s = (s', Ok tt)
  <-> exists r,
        requests_get W target = Responded r
        /\ is_error_status (status_code r) = false
        /\ open_error W (fs s) output_path = None
        /\ s' = {| fs := <[output_path := File (content r)]> (fs s);
                   log := log s ++ [HttpGet target] |}.
Proof.
  rewrite download_notebook_spec. split.
  - destruct (requests_get W target) as [r|cls msg]; [|discriminate].
    destruct (is_error_status (status_code r)) eqn:Es; [discriminate|].
    destruct (open_error W (fs s) output_path) as [[cls msg]|] eqn:Eo;
      [discriminate|].
    intros [= <-]. exists r. auto.
  - intros (r & -> & -> & -> & ->). reflexivity.
Qed.

(** X4: when [download_notebook] fails no file is written, one GET has been
    made, and the exception is a ValueError whose message is [Failed to
    download notebook: ] followed by the cause: the message of what
    [requests.get] raised; or, for an answer with a status in 400..599, the
    status line of [raise_for_status] (code, Client or Server Error, reason,
    url); or, for an answer with another status, the message of what
    opening the output file raised. *)
Theorem download_notebook_failure (target output_path : str) (s : state)
    (e : exn) :
  (download_notebook W target output_path s).2 = Raise e ->
  (download_notebook W target output_path s).1 = record (HttpGet target) s
  /\ exists cause,
       e = ValueError (txt "Failed to download notebook: " ++ cause)
       /\ ((exists cls, requests_get W target = Failed cls cause)
           \/ (exists r,
                 requests_get W target = Responded r
                 /\ is_error_status (status_code r) = true
                 /\ cause =
                    dec_Z (status_code r) ++
                    (if (status_code r <? 500)%Z then txt " Client Error: "
                     else txt " Server Error: ") ++
                    reason r ++ txt " for url: " ++ url r)
           \/ (exists r cls,
                 requests_get W target = Responded r
                 /\ is_error_status (status_code r) = false
                 /\ open_error W (fs s) output_path = Some (cls, cause))).
Proof.
  rewrite download_notebook_spec.
  destruct (requests_get W target) as [r|cls msg].
  - destruct (is_error_status (status_code r)) eqn:Es.
    + intros [= <-]. split; [reflexivity|].
      exists (http_error_msg r). split; [reflexivity|]. right; left. exists r.
      split; [reflexivity|]. split; [exact Es|].
      unfold is_error_status in Es. apply andb_true_iff in Es as [E1 E2].
      unfold http_error_msg. cbv zeta. rewrite E1. simpl andb.
      destruct (status_code r <? 500)%Z eqn:E5; [reflexivity|].
      replace (500 <=? status_code r)%Z with true by (symmetry; lia).
      rewrite E2. reflexivity.
    + destruct (open_error W (fs s) output_path) as [[cls msg]|] eqn:Eo;
        [|discriminate].
      intros [= <-]. split; [reflexivity|].
      exists msg. split; [reflexivity|]. right; right. exists r, cls.
      split; [reflexivity|]. split; [exact Es | reflexivity].
  - intros [= <-]. split; [reflexivity|].
    exists msg. split; [reflexivity|]. left. exists cls. reflexivity.
Qed.

(** *** The execution, in full *)

Lemma execute_notebook_spec (notebook_path output_path : str)
    (parameters kernel_name : option str) (s : state) :
  execute_notebook W notebook_path output_path parameters kernel_name s =
    if truthy_opt parameters then
      let param_file := mkstemp W (fs s) in
      let files1 := <[param_file := File (default [] parameters)]> (fs s) in
      let cmd := papermill_cmd notebook_path output_path kernel_name ++
                 [txt "-f"; param_file] in
      let log' := log s ++ [Subprocess cmd files1] in
      let '(files', outcome) := subprocess_run W cmd files1 in
      match files' !! param_file with
      | Some (File _) =>
        ({| fs := delete param_file files'; log := log' |},
         papermill_result outcome)
      | Some Dir =>
        ({| fs := files'; log := log' |},
         Raise (LibraryError (txt "IsADirectoryError") param_file))
      | None =>
        ({| fs := files'; log := log' |},
         Raise (FileNotFoundError param_file))
      end
    else
      let cmd := papermill_cmd notebook_path output_path kernel_name in
      ({| fs := (subprocess_run W cmd (fs s)).1;
          log := log s ++ [Subprocess cmd (fs s)] |},
       papermill_result (subprocess_run W cmd (fs s)).2).
Proof.
  unfold execute_notebook, papermill_cmd.
  assert (Hcmd :
    (if truthy_opt kernel_name
     then [txt "papermill"; notebook_path; output_path] ++
          [txt "--kernel"; default [] kernel_name]
     else [txt "papermill"; notebook_path; output_path]) =
    [txt "papermill"; notebook_path; output_path] ++
    (if truthy_opt kernel_name
     then [txt "--kernel"; default [] kernel_name] else []))
    by (destruct (truthy_opt kernel_name); reflexivity).
  cbv zeta. rewrite Hcmd.
  unfold NamedTemporaryFile_write, write_file, try_finally, subprocess_run_call,
    check_returncode, os_unlink, get_fs, put_fs, emit, raise, papermill_result.
  unfold mbind, M_bind, mret, M_ret. cbn [fs log record default].
  destruct (truthy_opt parameters).
  - destruct (subprocess_run W _ _) as [files' [[code err]|[cls msg]]];
      cbn [fst snd];
      [destruct (code =? 0)%Z|];
      cbv beta iota; cbn [negb fs log fst snd record id];
      destruct (files' !! mkstemp W (fs s)) as [[c|]|]; reflexivity.
  - destruct (subprocess_run W _ _) as [files' [[code err]|[cls msg]]];
      cbn [fst snd];
      [destruct (code =? 0)%Z|]; reflexivity.
Qed.

(** X5: the outcome of [execute_notebook] is read off the return code.  When
    the child returns and the parameters file, if one was written, is still
    a file afterwards, [execute_notebook] returns for the code 0 and raises
    a RuntimeError with [Notebook execution failed: ] and the captured
    stderr for every other code; what [subprocess.run] itself raises is
    passed on.  The files are then those the child left, less the
    parameters file. *)
Theorem execute_notebook_reports_returncode (notebook_path output_path : str)
    (parameters kernel_name : option str) (s : state)
    (files' : fsmap) (outcome : Z * str + str * str) :
  subprocess_run W
    (papermill_cmd notebook_path output_path kernel_name ++
     (if truthy_opt parameters then [txt "-f"; mkstemp W (fs s)] else []))
    (if truthy_opt parameters
     then <[mkstemp W (fs s) := File (default [] parameters)]> (fs s)
     else fs s)
  = (files', outcome) ->
  (truthy_opt parameters = true ->
   exists content, files' !! mkstemp W (fs s) = Some (File content)) ->
  (execute_notebook W notebook_path output_path parameters kernel_name s).2
    = papermill_result outcome
  /\ fs (execute_notebook W notebook_path output_path parameters kernel_name s).1
    = (if truthy_opt parameters then delete (mkstemp W (fs s)) files'
       else files').
Proof.
  intros Hrun Hkept. rewrite execute_notebook_spec.
  destruct (truthy_opt parameters); cbv zeta.
  - rewrite Hrun. destruct (Hkept eq_refl) as [content ->].
    split; reflexivity.
  - rewrite app_nil_r in Hrun. rewrite Hrun. split; reflexivity.
Qed.

(** X6: the clean-up can mask the outcome.  When parameters are given and
    the child has removed the parameters file, [os.unlink] in the [finally]
    clause fails and [execute_notebook] raises its FileNotFoundError,
    whatever the return code was: a successful execution is reported as
    failed, and the RuntimeError of a failed one is lost. *)
Theorem execute_notebook_cleanup_masks_outcome
    (notebook_path output_path parameters : str) (kernel_name : option str)
    (s : state) (files' : fsmap) (outcome : Z * str + str * str) :
  truthy parameters = true ->
  subprocess_run W
    (papermill_cmd notebook_path output_path kernel_name ++
     [txt "-f"; mkstemp W (fs s)])
    (<[mkstemp W (fs s) := File parameters]> (fs s))
  = (files', outcome) ->
  files' !! mkstemp W (fs s) = None ->
  (execute_notebook W notebook_path output_path (Some parameters)
                    kernel_name s).2
  = Raise (FileNotFoundError (mkstemp W (fs s))).
Proof.
  intros Hp Hrun Hgone. rewrite execute_notebook_spec.
  change (truthy_opt (Some parameters)) with (truthy parameters). rewrite Hp.
  cbv zeta. change (default [] (Some parameters)) with parameters.
  rewrite Hrun, Hgone. reflexivity.
Qed.

(** *** What the notifier prints *)

(** X7: after the post, [send_webhook] prints one line.  It is the success
    line, with the decoded body, only when the endpoint answered with a
    status outside 400..599 and a body that [response.json()] decodes;
    otherwise it is a warning on stderr that ends with the cause: the
    message of what [requests.post] raised, the status line of
    [raise_for_status], or the diagnostic of the JSON decoder, so that a
    post the endpoint accepted with a body that is not JSON is reported as
    failed. *)
Theorem send_webhook_outcome_line (webhook_url : option str)
    (status message : str) (s : state) :
  truthy_opt webhook_url = true ->
  log (send_webhook W webhook_url status message s).1 =
    log s ++
    [HttpPost (default [] webhook_url) (webhook_payload status message)
              (webhook_headers W);
     match requests_post W (default [] webhook_url)
                         (webhook_payload status message) (webhook_headers W) with
     | Failed cls cause =>
       Stderr (txt "Warning: Failed to send webhook: " ++ cause)
     | Responded r =>
       if is_error_status (status_code r)
       then Stderr (txt "Warning: Failed to send webhook: " ++ http_error_msg r)
       else
         match response_loads (content r) with
         | Ok body => StdoutRepr (txt "Webhook sent successfully: ") body
         | Raise e =>
           Stderr (txt "Warning: Failed to send webhook: " ++ str_of_exn e)
         end
     end].
Proof.
  intros Hurl. rewrite send_webhook_spec, Hurl.
  cbn [fst log record]. rewrite <- app_assoc. cbn [app].
  unfold webhook_report, webhook_warning.
  destruct (requests_post W _ _ _) as [r|cls cause]; [|reflexivity].
  rewrite http_error_msg_truthy. reflexivity.
Qed.

(** *** The job, step by step *)

Lemma job_steps_spec (notebook_url : str) (parameters_str : option str)
    (python_version temp_dir : str) (s : state) :
  job_steps W notebook_url parameters_str python_version temp_dir s =
    let notebook_path := path_join temp_dir (txt "notebook.ipynb") in
    let output_path := path_join temp_dir (txt "output.ipynb") in
    match download_notebook W notebook_url notebook_path
            (printed [txt "Downloading notebook from " ++ notebook_url] s) with
    | (s1, Raise e) => (s1, Raise e)
    | (s1, Ok _) =>
      match get_python_kernel W
              (printed [txt "Checking available kernels for Python " ++
                        python_version ++ txt "..."] s1) with
      | (s2, Raise e) => (s2, Raise e)
      | (s2, Ok kernel_name) =>
        if truthy_opt parameters_str then
          match format_parameters (default [] parameters_str) with
          | Raise e =>
            (printed [txt "Using kernel: " ++ kernel_name;
                      txt "Executing notebook with parameters"] s2, Raise e)
          | Ok formatted =>
            execute_notebook W notebook_path output_path (Some formatted)
              (Some kernel_name)
              (printed [txt "Using kernel: " ++ kernel_name;
                        txt "Executing notebook with parameters";
                        txt "Formatted parameters:"; formatted] s2)
          end
        else
          execute_notebook W notebook_path output_path None (Some kernel_name)
            (printed [txt "Using kernel: " ++ kernel_name;
                      txt "Executing notebook without parameters"] s2)
      end
    end.
Proof.
  unfold job_steps, print. cbv zeta.
  unfold mbind, M_bind. rewrite emit_eq.
  change (record (Stdout ?l) s) with (printed [l] s).
  destruct (download_notebook W _ _ _) as [s1 [[]|e]]; [|reflexivity].
  rewrite emit_eq. change (record (Stdout ?l) s1) with (printed [l] s1).
  destruct (get_python_kernel W _) as [s2 [k|e]]; [|reflexivity].
  rewrite emit_eq.
  destruct (truthy_opt parameters_str).
  - rewrite emit_eq. unfold lift.
    destruct (format_parameters _) as [formatted|e]; [|reflexivity].
    rewrite !emit_eq. reflexivity.
  - rewrite emit_eq. reflexivity.
Qed.

(** *** One notification per run *)

Lemma job_steps_posts_nothing (files : fsmap) :
  Forall not_a_post (log (job_outcome W files).1)
  /\ exception_only (job_outcome W files).2.
Proof.
  unfold job_outcome, job_start.
  exact (keeps_job_steps not_a_post (fun _ Hev => Hev) _ _ _ _
           {| fs := <[mkdtemp W files := Dir]> files; log := [] |}
           (List.Forall_nil _)).
Qed.

Lemma send_webhook_log (status message : str) (s : state) :
  log (send_webhook W (environ W !! "WEBHOOK"%string) status message s).1 =
    log s ++ notification W status message.
Proof.
  rewrite send_webhook_spec. unfold notification.
  destruct (truthy_opt (environ W !! "WEBHOOK"%string)); cbn [fst log record].
  - rewrite <- app_assoc. reflexivity.
  - rewrite app_nil_r. reflexivity.
Qed.

Lemma fail_with_log (e : exn) (s : state) :
  log (fail_with W e s).1 = log s ++ failure_events W e.
Proof.
  unfold fail_with, failure_events. cbn [fst].
  rewrite send_webhook_log. cbn [log record]. rewrite <- app_assoc. reflexivity.
Qed.

(** [main], cut at the outcome of [job_steps], for the log alone. *)
Lemma run_log (files : fsmap) :
  log (run W files).1 =
    if truthy_opt (environ W !! "NOTEBOOK"%string) then
      log (job_outcome W files).1 ++
      match (job_outcome W files).2 with
      | Ok _ =>
        Stdout msg_completed ::
        notification W (txt "success") msg_completed ++
        (if stuck (mkdtemp W files) (fs (job_outcome W files).1)
         then failure_events W (not_a_directory (mkdtemp W files))
         else [])
      | Raise e =>
        failure_events W (leaving (mkdtemp W files)
                                  (fs (job_outcome W files).1) e)
      end
    else failure_events W (ValueError msg_notebook_unset).
Proof.
  pose proof (job_steps_posts_nothing files) as [_ Hexc].
  rewrite run_spec. unfold job_outcome, job_start, leaving in *.
  destruct (truthy_opt (environ W !! "NOTEBOOK"%string)).
  - destruct (job_steps W _ _ _ _ _) as [s1 [[]|e]]; cbn [fst snd] in *.
    + cbv zeta. destruct (stuck (mkdtemp W files) (fs s1)).
      * rewrite fail_with_log, send_webhook_log. cbn [log record].
        rewrite <- !app_assoc. reflexivity.
      * cbn [fst swept log]. rewrite send_webhook_log. cbn [log record].
        rewrite app_nil_r, <- !app_assoc. reflexivity.
    + destruct (stuck (mkdtemp W files) (fs s1)).
      * apply fail_with_log.
      * rewrite Hexc. rewrite fail_with_log. reflexivity.
  - rewrite fail_with_log. reflexivity.
Qed.



(** *** The order of the job's steps *)

Lemma job_event_report (target status message : str) :
  job_event (webhook_report W target status message) = false.
Proof.
  unfold webhook_report.
  destruct (requests_post W _ _ _) as [r|cls msg]; [|reflexivity].
  destruct (truthy (http_error_msg r)); [reflexivity|].
  destruct (response_loads (content r)); reflexivity.
Qed.

Lemma job_event_notification (status message : str) :
  List.filter job_event (notification W status message) = [].
Proof.
  unfold notification.
  destruct (truthy_opt (environ W !! "WEBHOOK"%string)); [|reflexivity].
  cbn [List.filter job_event]. rewrite job_event_report. reflexivity.
Qed.

Lemma job_event_failure (e : exn) :
  List.filter job_event (failure_events W e) = [].
Proof.
  unfold failure_events. cbn [List.filter job_event].
  apply job_event_notification.
Qed.

Lemma run_job_events (files : fsmap) :
  List.filter job_event (log (run W files).1) =
    if truthy_opt (environ W !! "NOTEBOOK"%string)
    then List.filter job_event (log (job_outcome W files).1)
    else [].
Proof.
  rewrite run_log.
  destruct (truthy_opt (environ W !! "NOTEBOOK"%string));
    [|apply job_event_failure].
  rewrite List.filter_app.
  destruct (job_outcome W files).2 as [[]|e].
  - cbn [List.filter job_event].
    rewrite List.filter_app, job_event_notification.
    destruct (stuck _ _); rewrite ?job_event_failure; apply app_nil_r.
  - rewrite job_event_failure. apply app_nil_r.
Qed.

(** X10: in every run, the fetch, the query of the kernel registry and the
    execution happen at most once each and in this order, none without the
    ones before it: the notebook named by NOTEBOOK is fetched, then the
    registry is queried, then the child process is run. *)
Theorem job_events_in_order (files : fsmap) :
  exists cmd at_call,
    List.filter job_event (log (run W files).1)
    `prefix_of` [HttpGet (default [] (environ W !! "NOTEBOOK"%string));
                 ListKernels; Subprocess cmd at_call].
Proof.
  rewrite run_job_events.
  destruct (truthy_opt (environ W !! "NOTEBOOK"%string));
    [|exists [], ∅; eexists; reflexivity].
  unfold job_outcome, job_start. rewrite job_steps_spec. cbv zeta.
  rewrite download_notebook_spec.
  destruct (requests_get W _) as [r|cls msg];
    [destruct (is_error_status (status_code r));
       [|destruct (open_error W _ _) as [[cls msg]|]]|];
    try (exists [], ∅; eexists; reflexivity).
  rewrite get_python_kernel_spec.
  destruct (get_all_specs W) as [names|[cls msg]];
    [cbv zeta;
     destruct (List.find _ names) as [k|];
       [|destruct (List.find _ names) as [k|]]|];
    try (exists [], ∅; eexists; reflexivity).
  - destruct (truthy_opt (environ W !! "PARAMETERS"%string)).
    + destruct (format_parameters _) as [formatted|e];
        [|exists [], ∅; eexists; reflexivity].
      rewrite execute_notebook_spec.
      change (truthy_opt (Some formatted)) with (truthy formatted).
      destruct (truthy formatted); cbv zeta.
      * destruct (subprocess_run W _ _) as [files' outcome].
        destruct (files' !! _) as [[c|]|];
          eexists _, _; exists []; reflexivity.
      * eexists _, _; exists []; reflexivity.
    + rewrite execute_notebook_spec. cbn [truthy_opt]. cbv zeta.
      eexists _, _; exists []; reflexivity.
  - destruct (truthy_opt (environ W !! "PARAMETERS"%string)).
    + destruct (format_parameters _) as [formatted|e];
        [|exists [], ∅; eexists; reflexivity].
      rewrite execute_notebook_spec.
      change (truthy_opt (Some formatted)) with (truthy formatted).
      destruct (truthy formatted); cbv zeta.
      * destruct (subprocess_run W _ _) as [files' outcome].
        destruct (files' !! _) as [[c|]|];
          eexists _, _; exists []; reflexivity.
      * eexists _, _; exists []; reflexivity.
    + rewrite execute_notebook_spec. cbn [truthy_opt]. cbv zeta.
      eexists _, _; exists []; reflexivity.
Qed.

(** *** Malformed parameters *)

Lemma not_a_subprocess_report (target status message : str) :
  not_a_subprocess (webhook_report W target status message).
Proof.
  unfold webhook_report.
  destruct (requests_post W _ _ _) as [r|cls msg]; [|exact I].
  destruct (truthy (http_error_msg r)); [exact I|].
  destruct (response_loads (content r)); exact I.
Qed.

(** X11: the parameters are validated only after the notebook is fetched and
    the kernel resolved, and before anything is executed: when PARAMETERS
    is set, not empty and malformed, the GET of the notebook is still made,
    the child process is never run, and the process exits with code 1. *)
Theorem malformed_parameters_never_execute (files : fsmap) (e : exn) :
  truthy_opt (environ W !! "NOTEBOOK"%string) = true ->
  truthy_opt (environ W !! "PARAMETERS"%string) = true ->
  format_parameters (default [] (environ W !! "PARAMETERS"%string)) = Raise e ->
  exit_status (run W files).2 = 1%Z
  /\ Forall not_a_subprocess (log (run W files).1)
  /\ In (HttpGet (default [] (environ W !! "NOTEBOOK"%string)))
        (log (run W files).1).
Proof.
  intros Hnb Hp Hfmt.
  assert (Hjob : exists s1 e1,
             job_outcome W files = (s1, Raise e1)
             /\ Forall not_a_subprocess (log s1)
             /\ In (HttpGet (default [] (environ W !! "NOTEBOOK"%string)))
                   (log s1)).
  { unfold job_outcome, job_start. rewrite job_steps_spec. cbv zeta.
    rewrite download_notebook_spec, Hp, Hfmt.
    destruct (requests_get W _) as [r|cls msg];
      [destruct (is_error_status (status_code r));
         [|destruct (open_error W _ _) as [[cls msg]|]]|];
      try (eexists _, _; split; [reflexivity|];
           split; [repeat constructor | right; left; reflexivity]).
    rewrite get_python_kernel_spec.
    destruct (get_all_specs W) as [names|[cls msg]];
      [cbv zeta;
       destruct (List.find _ names) as [k|];
         [|destruct (List.find _ names) as [k|]]|];
      eexists _, _; (split; [reflexivity|]);
      (split; [repeat constructor | right; left; reflexivity]). }
  destruct Hjob as (s1 & e1 & Hjob & Hlog & Hget).
  split; [|split].
  - rewrite exit_status_run, Hnb, Hjob. reflexivity.
  - rewrite run_log, Hnb, Hjob. cbn [fst snd].
    apply Forall_app. split; [exact Hlog|].
    unfold failure_events, notification. constructor; [exact I|].
    destruct (truthy_opt (environ W !! "WEBHOOK"%string)); [|constructor].
    constructor; [exact I|].
    constructor; [apply not_a_subprocess_report | constructor].
  - rewrite run_log, Hnb, Hjob. cbn [fst snd].
    apply in_or_app. left. exact Hget.
Qed.

(** *** The canonical text is ASCII *)

Lemma ascii_text_app (a b : str) :
  ascii_text (a ++ b) = ascii_text a && ascii_text b.
Proof. apply forallb_app. Qed.

Lemma ascii_text_digits (ds : str) : all_digits ds = true -> ascii_text ds = true.
Proof.
  unfold all_digits, ascii_text. rewrite !forallb_forall.
  intros Hd c Hc. specialize (Hd c Hc). apply digit_range in Hd.
  apply N.ltb_lt. lia.
Qed.

Lemma number_shape_ascii (lit : str) (is_float : bool) :
  number_shape lit is_float -> ascii_text lit = true.
Proof.
  intros [sign ip frac exp Hs Hi Hf He].
  rewrite !ascii_text_app. repeat (apply andb_true_iff; split).
  - destruct Hs as [->| ->]; reflexivity.
  - destruct Hi as [->|(d & ds & -> & Hd & Hds)]; [reflexivity|].
    change (ascii_text (d :: ds)) with (is_ascii d && ascii_text ds).
    rewrite (ascii_text_digits _ Hds), andb_true_r.
    apply andb_true_iff in Hd as [_ Hd]. apply N.leb_le in Hd.
    apply N.ltb_lt. lia.
  - destruct Hf as [->|(d & ds & -> & Hds)]; [reflexivity|].
    change (ascii_text (46 :: d :: ds)) with (ascii_text (d :: ds)).
    exact (ascii_text_digits _ Hds).
  - destruct He as [->|(e & sg & d & ds & -> & He & Hsg & Hds)]; [reflexivity|].
    change (ascii_text (e :: sg ++ d :: ds))
      with (is_ascii e && ascii_text (sg ++ d :: ds)).
    rewrite ascii_text_app, (ascii_text_digits _ Hds), andb_true_r.
    apply andb_true_iff. split.
    + unfold is_e in He. apply orb_true_iff in He as [He|He];
        apply N.eqb_eq in He; subst e; reflexivity.
    + destruct Hsg as [->|[->| ->]]; reflexivity.
Qed.

Lemma hex_digit_ascii (x : N) : is_ascii (hex_digit (N.land x 0xF)) = true.
Proof.
  assert (Hx : N.land x 0xF < 16).
  { change 0xF with (N.ones 4). rewrite N.land_ones.
    apply N.mod_upper_bound. discriminate. }
  unfold hex_digit, is_ascii.
  destruct (N.land x 15 <? 10); apply N.ltb_lt; lia.
Qed.

Lemma u_escape_ascii (c : N) : ascii_text (u_escape c) = true.
Proof.
  unfold u_escape, ascii_text. cbn [forallb].
  rewrite !hex_digit_ascii. reflexivity.
Qed.

Lemma escape_char_ascii (c : N) : ascii_text (escape_char c) = true.
Proof.
  unfold escape_char. destruct (S_CHAR c) eqn:Es.
  - unfold S_CHAR in Es.
    apply andb_true_iff in Es as [Es _]. apply andb_true_iff in Es as [Es _].
    apply andb_true_iff in Es as [_ Es]. apply N.leb_le in Es.
    unfold ascii_text, is_ascii. cbn [forallb]. rewrite andb_true_r.
    apply N.ltb_lt. lia.
  - unfold ascii_escape_unichar.
    repeat (match goal with
            | |- context [if ?b then _ else _] => destruct b; [reflexivity|]
            end).
    destruct (0x10000 <=? c).
    + rewrite ascii_text_app, !u_escape_ascii. reflexivity.
    + apply u_escape_ascii.
Qed.

Lemma encode_basestring_ascii_ascii (s : str) :
  ascii_text (encode_basestring_ascii s) = true.
Proof.
  unfold encode_basestring_ascii.
  change (ascii_text (34 :: ?t)) with (ascii_text t).
  rewrite ascii_text_app, andb_true_r.
  induction s as [|c s IH]; [reflexivity|].
  cbn [flat_map]. rewrite ascii_text_app, escape_char_ascii, IH. reflexivity.
Qed.

Lemma newline_indent_ascii (level : nat) :
  ascii_text (newline_indent level) = true.
Proof.
  unfold newline_indent. change (ascii_text (10 :: ?t)) with (ascii_text t).
  induction (2 * level)%nat as [|k IH]; [reflexivity | exact IH].
Qed.

Lemma plain_out_intro (v : value) :
  (forall level, ascii_text (dumps_at level v) = true) ->
  (forall level, exists c r, dumps_at level v = c :: r) ->
  plain_out v.
Proof.
  intros Ha Hne level. split; [apply Ha|].
  destruct (Hne level) as (c & r & ->). reflexivity.
Qed.

Lemma plain_out_number (lit : str) (is_float : bool) :
  number_shape lit is_float ->
  ascii_text lit = true /\ truthy lit = true.
Proof.
  intros Hlit. split; [exact (number_shape_ascii _ _ Hlit)|].
  destruct (number_shape_head _ _ Hlit) as (c & r & -> & _). reflexivity.
Qed.

Lemma plain_out_list (l : list value) : Forall plain_out l -> plain_out (VList l).
Proof.
  intros Hl. destruct Hl as [|x xs Hx Hxs]; [intros level; split; reflexivity|].
  intros level. rewrite dumps_at_list. split; [|reflexivity].
  rewrite !ascii_text_app, !newline_indent_ascii, (proj1 (Hx (S level))).
  cbn [andb]. rewrite andb_true_r.
  induction Hxs as [|y ys Hy Hys IH]; [reflexivity|].
  cbn [dumps_items flat_map].
  rewrite !ascii_text_app, newline_indent_ascii, (proj1 (Hy (S level))).
  exact IH.
Qed.

Lemma plain_out_dict (d : list (str * value)) :
  Forall (fun kv => plain_out kv.2) d -> plain_out (VDict d).
Proof.
  intros Hd. destruct Hd as [|kv ms Hkv Hms]; [intros level; split; reflexivity|].
  intros level. rewrite dumps_at_dict. split; [|reflexivity].
  assert (Hmember : forall kv : str * value,
             plain_out kv.2 -> ascii_text (dumps_member level kv) = true).
  { intros kv' Hkv'. unfold dumps_member.
    rewrite !ascii_text_app, encode_basestring_ascii_ascii,
      (proj1 (Hkv' (S level))). reflexivity. }
  rewrite !ascii_text_app, !newline_indent_ascii, (Hmember kv Hkv).
  cbn [andb]. rewrite andb_true_r.
  induction Hms as [|y ys Hy Hys IH]; [reflexivity|].
  cbn [dumps_members flat_map].
  rewrite !ascii_text_app, newline_indent_ascii, (Hmember y Hy).
  exact IH.
Qed.

Lemma json_loads_plain_out (t : str) (v : value) :
  float_laws -> json_loads t = Ok v -> plain_out v.
Proof.
  intros Hfl. apply json_loads_invariant.
  - intros level; split; reflexivity.
  - intros [|] level; split; reflexivity.
  - intros z level. exact (plain_out_number _ _ (dec_Z_shape z)).
  - intros s level. split; [apply encode_basestring_ascii_ascii | reflexivity].
  - intros level; split; reflexivity.
  - intros level; split; reflexivity.
  - intros level; split; reflexivity.
  - intros lit Hlit level. unfold parse_float.
    destruct (finite_of_literal lit) as [x|] eqn:Ef.
    + destruct (Hfl lit x Hlit Ef) as [Hrepr _].
      exact (plain_out_number _ _ (is_float_literal_shape _ Hrepr)).
    + destruct (startswith lit [45]); split; reflexivity.
  - exact plain_out_list.
  - exact plain_out_dict.
Qed.

(** X12: whatever the input, the text [format_parameters] returns is ASCII
    (every character of a string beyond ASCII is written as an escape) and
    is never empty.  Floats are assumed to obey [float_laws]. *)
Theorem format_parameters_ascii (t p : str) :
  float_laws -> format_parameters t = Ok p ->
  ascii_text p = true /\ truthy p = true.
Proof.
  intros Hfl. unfold format_parameters.
  destruct (json_loads t) as [v|e] eqn:El.
  - intros [= <-]. exact (json_loads_plain_out t v Hfl El O).
  - destruct (is_JSONDecodeError e); discriminate.
Qed.

(** X13: formatting keeps the meaning.  For a text [t] without surrogate code
    points that parses, the canonical text that [format_parameters] returns
    parses too, and to the same value as [t].  Floats are assumed to obey
    [float_laws]. *)
Theorem format_parameters_preserves_value (t p : str) :
  float_laws -> scalar_text t = true ->
  format_parameters t = Ok p -> json_loads p = json_loads t.
Proof.
  intros Hfl Ht. unfold format_parameters.
  destruct (json_loads t) as [v|e] eqn:El.
  - intros [= <-]. apply json_loads_dumps.
    + exact (json_loads_good t v Hfl Ht El).
    + exact (json_loads_at_fits _ t v El).
  - destruct (is_JSONDecodeError e); discriminate.
Qed.

(** *** A successful run, event by event *)

Lemma get_python_kernel_any_state (s s0 : state) :
  get_python_kernel W s = (record ListKernels s, (get_python_kernel W s0).2).
Proof. rewrite !get_python_kernel_spec. reflexivity. Qed.

Lemma str_in_nonempty (needle hay : str) :
  truthy needle = true -> str_in needle hay = true -> truthy hay = true.
Proof.
  destruct hay as [|c hay]; [|reflexivity].
  destruct needle; [discriminate|]. discriminate.
Qed.

Lemma get_python_kernel_truthy (s : state) (k : str) :
  (get_python_kernel W s).2 = Ok k -> truthy k = true.
Proof.
  rewrite get_python_kernel_spec. cbn [snd].
  assert (Hk : forall k0, str_in (txt "python") (lower k0) = true ->
                          truthy k0 = true).
  { intros k0 Hin. apply str_in_nonempty in Hin; [|reflexivity].
    destruct k0; [discriminate | reflexivity]. }
  destruct (get_all_specs W) as [names|[cls msg]]; [|discriminate]. cbv zeta.
  destruct (List.find _ names) as [k1|] eqn:E1.
  - intros [= <-]. apply find_some in E1 as [_ E1].
    exact (Hk _ (str_in_app _ _ _ E1)).
  - destruct (List.find (fun k0 => str_in (txt "python") (lower k0)) names)
      as [k2|] eqn:E2; [|discriminate].
    intros [= <-]. apply find_some in E2 as [_ E2]. exact (Hk _ E2).
Qed.

(** X14: a successful run with parameters, event by event.  When the fetch
    is answered without an error status and the notebook file can be
    opened, a kernel is resolved, PARAMETERS parse and the child exits with
    0 leaving the parameters file in place and no file at the workspace
    path, the process prints its progress lines around exactly one GET, one
    registry query and one run of papermill, in this order; papermill is
    given the notebook path, the output path, the resolved kernel after
    --kernel and the parameters file after -f, at a moment when the
    notebook file holds the fetched body and the parameters file holds the
    canonical text of PARAMETERS; then the success line is printed and the
    success notification attempted, and the process returns. *)
Theorem successful_run_trace (files : fsmap) (u params formatted k err : str)
    (r : response) (files' : fsmap) :
  let temp_dir := mkdtemp W files in
  let notebook_path := path_join temp_dir (txt "notebook.ipynb") in
  let output_path := path_join temp_dir (txt "output.ipynb") in
  let fetched := <[notebook_path := File (content r)]> (<[temp_dir := Dir]> files) in
  let param_file := mkstemp W fetched in
  let at_call := <[param_file := File formatted]> fetched in
  let cmd := [txt "papermill"; notebook_path; output_path;
              txt "--kernel"; k; txt "-f"; param_file] in
  float_laws ->
  environ W !! "NOTEBOOK"%string = Some u -> truthy u = true ->
  environ W !! "PARAMETERS"%string = Some params -> truthy params = true ->
  requests_get W u = Responded r -> is_error_status (status_code r) = false ->
  open_error W (<[temp_dir := Dir]> files) notebook_path = None ->
  (get_python_kernel W (job_start W files)).2 = Ok k ->
  format_parameters params = Ok formatted ->
  subprocess_run W cmd at_call = (files', inl (0%Z, err)) ->
  (exists content, files' !! param_file = Some (File content)) ->
  stuck temp_dir (delete param_file files') = false ->
  (run W files).2 = Ok tt
  /\ log (run W files).1 =
       [Stdout (txt "Downloading notebook from " ++ u);
        HttpGet u;
        Stdout (txt "Checking available kernels for Python " ++
                default (txt "3.11") (environ W !! "PYTHON_VERSION"%string) ++
                txt "...");
        ListKernels;
        Stdout (txt "Using kernel: " ++ k);
        Stdout (txt "Executing notebook with parameters");
        Stdout (txt "Formatted parameters:");
        Stdout formatted;
        Subprocess cmd at_call;
        Stdout (txt "Notebook execution completed successfully")]
       ++ (if truthy_opt (environ W !! "WEBHOOK"%string) then
             [HttpPost (default [] (environ W !! "WEBHOOK"%string))
                       (webhook_payload (txt "success")
                          (txt "Notebook execution completed successfully"))
                       (webhook_headers W);
              webhook_report W (default [] (environ W !! "WEBHOOK"%string))
                (txt "success")
                (txt "Notebook execution completed successfully")]
           else []).
Proof.
  intros temp_dir notebook_path output_path fetched param_file at_call cmd
    Hfl Hnb Hu Hpar Hparams Hget Hstatus Hopen Hkernel Hfmt Hrun
    [content Hkept] Hfree.
  assert (Hk : truthy k = true) by exact (get_python_kernel_truthy _ _ Hkernel).
  assert (Hformatted : truthy formatted = true).
  { unfold format_parameters in Hfmt.
    destruct (json_loads params) as [v|e] eqn:El.
    - injection Hfmt as <-. exact (proj2 (json_loads_plain_out _ _ Hfl El O)).
    - destruct (is_JSONDecodeError e); discriminate. }
  assert (Hjob :
    job_outcome W files =
      ({| fs := delete param_file files';
          log := [Stdout (txt "Downloading notebook from " ++ u);
                  HttpGet u;
                  Stdout (txt "Checking available kernels for Python " ++
                          default (txt "3.11")
                            (environ W !! "PYTHON_VERSION"%string) ++
                          txt "...");
                  ListKernels;
                  Stdout (txt "Using kernel: " ++ k);
                  Stdout (txt "Executing notebook with parameters");
                  Stdout (txt "Formatted parameters:");
                  Stdout formatted;
                  Subprocess cmd at_call] |}, Ok tt)).
  { unfold job_outcome. rewrite job_steps_spec. cbv zeta.
    rewrite Hnb, Hpar. cbn [default from_option id truthy_opt].
    rewrite Hparams, download_notebook_spec, Hget, Hstatus.
    cbn [printed fold_left record fs log job_start].
    fold temp_dir. fold notebook_path. rewrite Hopen.
    rewrite (get_python_kernel_any_state _ (job_start W files)), Hkernel.
    rewrite Hfmt, execute_notebook_spec.
    cbn [default from_option id truthy_opt]. rewrite Hformatted. cbv zeta.
    unfold papermill_cmd. cbn [default from_option id truthy_opt].
    rewrite Hk.
    cbn [printed fold_left record fs log job_start app].
    fold temp_dir. fold notebook_path. fold output_path. fold fetched.
    fold param_file. fold at_call. fold cmd.
    rewrite Hrun, Hkept. reflexivity. }
  split.
  - rewrite run_spec. unfold job_outcome, job_start in Hjob. rewrite Hjob.
    rewrite Hnb. cbn [truthy_opt fs]. rewrite Hu. fold temp_dir.
    rewrite Hfree. reflexivity.
  - rewrite run_log, Hjob, Hnb. cbn [truthy_opt]. rewrite Hu.
    cbn [fst snd log fs]. fold temp_dir. rewrite Hfree.
    unfold notification. rewrite app_nil_r. reflexivity.
Qed.

(** *** What a run leaves in the file system *)

Lemma startswith_self (a b : str) : startswith (a ++ b) a = true.
Proof.
  induction a as [|c a IH]; [destruct b; reflexivity|].
  cbn [app startswith]. rewrite N.eqb_refl. exact IH.
Qed.

Lemma within_self (dir : str) : within dir dir = true.
Proof. unfold within. rewrite bool_decide_eq_true_2; reflexivity. Qed.

Lemma within_path_join (dir name : str) : within dir (path_join dir name) = true.
Proof.
  unfold within, path_join. rewrite app_assoc, startswith_self.
  apply orb_true_r.
Qed.

Lemma agree_outside_insert (dir p : str) (x : node) (f g : fsmap) :
  within dir p = true -> agree_outside dir f g ->
  agree_outside dir (<[p := x]> f) g.
Proof.
  intros Hp Hfg q Hq. rewrite lookup_insert_ne; [exact (Hfg q Hq)|].
  intros ->. congruence.
Qed.

Lemma fail_with_fs (e : exn) (s : state) : fs (fail_with W e s).1 = fs s.
Proof. unfold fail_with. cbn [fst]. rewrite send_webhook_fs. reflexivity. Qed.

(** The files at the end: what the steps left, less the workspace, unless
    its removal failed, and then what the steps left. *)
Lemma run_fs (files : fsmap) :
  fs (run W files).1 =
    if truthy_opt (environ W !! "NOTEBOOK"%string)
    then if stuck (mkdtemp W files) (fs (job_outcome W files).1)
         then fs (job_outcome W files).1
         else filter (fun kv => within (mkdtemp W files) kv.1 = false)
                     (fs (job_outcome W files).1)
    else files.
Proof.
  rewrite run_spec. unfold job_outcome, job_start.
  destruct (truthy_opt (environ W !! "NOTEBOOK"%string)).
  - destruct (job_steps W _ _ _ _ _) as [s1 [[]|e]]; cbn [fst]; cbv zeta;
      destruct (stuck (mkdtemp W files) (fs s1)).
    + rewrite fail_with_fs, send_webhook_fs. reflexivity.
    + cbn [fst swept fs]. rewrite send_webhook_fs. reflexivity.
    + apply fail_with_fs.
    + destruct (is_Exception e); [rewrite fail_with_fs|]; reflexivity.
  - apply fail_with_fs.
Qed.

(** *** When the removal of the workspace cannot fail *)

Lemma path_join_ne (dir name : str) : path_join dir name <> dir.
Proof.
  unfold path_join. intros E.
  rewrite <- (app_nil_r dir) in E at 2. apply app_inv_head in E. discriminate.
Qed.

Lemma stuck_insert_dir (dir : str) (files : fsmap) :
  stuck dir (<[dir := Dir]> files) = false.
Proof. unfold stuck. rewrite lookup_insert_eq. reflexivity. Qed.

Lemma stuck_insert_ne (dir p : str) (x : node) (files : fsmap) :
  p <> dir -> stuck dir (<[p := x]> files) = stuck dir files.
Proof. intros Hne. unfold stuck. rewrite lookup_insert_ne by exact Hne. reflexivity. Qed.

Lemma stuck_delete (dir p : str) (files : fsmap) :
  stuck dir files = false -> stuck dir (delete p files) = false.
Proof.
  unfold stuck. destruct (decide (p = dir)) as [->|Hne].
  - rewrite lookup_delete_eq. reflexivity.
  - rewrite lookup_delete_ne by exact Hne. exact (fun E => E).
Qed.

(** The steps of the job leave a file at the workspace path only if the
    child process puts one there. *)
Lemma job_outcome_not_stuck (files : fsmap) :
  (forall cmd f, stuck (mkdtemp W files) f = false ->
                 stuck (mkdtemp W files) (subprocess_run W cmd f).1 = false) ->
  stuck (mkdtemp W files) (fs (job_outcome W files).1) = false.
Proof.
  intros Hchild.
  assert (Hstart : stuck (mkdtemp W files) (<[mkdtemp W files := Dir]> files)
                   = false) by apply stuck_insert_dir.
  assert (Hexec : forall notebook_path output_path parameters kernel_name s,
             stuck (mkdtemp W files) (fs s) = false ->
             stuck (mkdtemp W files)
               (fs (execute_notebook W notebook_path output_path parameters
                                     kernel_name s).1) = false).
  { intros notebook_path output_path parameters kernel_name s Hs.
    rewrite execute_notebook_spec.
    destruct (truthy_opt parameters); cbv zeta.
    - pose proof (Hchild
                    (papermill_cmd notebook_path output_path kernel_name ++
                     [txt "-f"; mkstemp W (fs s)])
                    (<[mkstemp W (fs s) := File (default [] parameters)]> (fs s)))
        as Hc.
      destruct (subprocess_run W _ _) as [files' outcome]. cbn [fst] in Hc.
      destruct (decide (mkstemp W (fs s) = mkdtemp W files)) as [E|Hne].
      + rewrite E. unfold stuck.
        destruct (files' !! mkdtemp W files) as [[c|]|] eqn:El; cbn [fst fs];
          rewrite ?lookup_delete_eq, ?El; reflexivity.
      + rewrite stuck_insert_ne in Hc by exact Hne. specialize (Hc Hs).
        destruct (files' !! mkstemp W (fs s)) as [[c|]|]; cbn [fst fs];
          [apply stuck_delete|..]; exact Hc.
    - cbn [fst fs]. apply Hchild, Hs. }
  unfold job_outcome, job_start. rewrite job_steps_spec. cbv zeta.
  rewrite download_notebook_spec.
  destruct (requests_get W _) as [r|cls msg];
    [destruct (is_error_status (status_code r));
       [|destruct (open_error W _ _) as [[cls msg]|]]|];
    try exact Hstart.
  rewrite get_python_kernel_spec.
  assert (Hfetched : stuck (mkdtemp W files)
            (<[path_join (mkdtemp W files) (txt "notebook.ipynb")
               := File (content r)]> (<[mkdtemp W files := Dir]> files))
            = false).
  { rewrite stuck_insert_ne by apply path_join_ne. exact Hstart. }
  destruct (get_all_specs W) as [names|[cls msg]];
    [cbv zeta;
     destruct (List.find _ names) as [k|];
       [|destruct (List.find _ names) as [k|]]|];
    try exact Hfetched;
    (destruct (truthy_opt (environ W !! "PARAMETERS"%string));
     [destruct (format_parameters _) as [formatted|e]; [|exact Hfetched]|]);
    apply Hexec; exact Hfetched.
Qed.

Section Frame.

Variable files : fsmap.

(** The child process changes nothing outside the workspace, and the name
    picked for the parameters file is not that of a file present at the
    start. *)
Hypothesis child_stays_inside : forall cmd f,
  agree_outside (mkdtemp W files) (subprocess_run W cmd f).1 f.
Hypothesis fresh_file : forall f, files !! mkstemp W f = None.

Lemma execute_notebook_agree (notebook_path output_path : str)
    (parameters kernel_name : option str) (s : state) :
  agree_outside (mkdtemp W files) (fs s) files ->
  agree_outside (mkdtemp W files)
    (fs (execute_notebook W notebook_path output_path parameters
                          kernel_name s).1) files.
Proof.
  intros Hs. rewrite execute_notebook_spec.
  destruct (truthy_opt parameters); cbv zeta.
  - set (param_file := mkstemp W (fs s)).
    set (f1 := <[param_file := File (default [] parameters)]> (fs s)).
    pose proof (child_stays_inside
                  (papermill_cmd notebook_path output_path kernel_name ++
                   [txt "-f"; param_file]) f1) as Hchild.
    destruct (subprocess_run W _ f1) as [files' outcome]. cbn [fst] in Hchild.
    assert (Hother : forall p, within (mkdtemp W files) p = false ->
                               p <> param_file -> files' !! p = files !! p).
    { intros p Hp Hne. rewrite (Hchild p Hp). subst f1.
      rewrite lookup_insert_ne by congruence. exact (Hs p Hp). }
    destruct (within (mkdtemp W files) param_file) eqn:Hw.
    + assert (Hfar : forall p, within (mkdtemp W files) p = false ->
                               p <> param_file) by (intros p Hp ->; congruence).
      destruct (files' !! param_file) as [[c|]|]; cbn [fst fs]; intros p Hp;
        rewrite ?lookup_delete_ne by (intros E; exact (Hfar p Hp (eq_sym E)));
        exact (Hother p Hp (Hfar p Hp)).
    + rewrite (Hchild param_file Hw). subst f1. rewrite lookup_insert_eq.
      cbn [fst fs]. intros p Hp.
      destruct (decide (p = param_file)) as [->|Hne].
      * rewrite lookup_delete_eq. symmetry. apply fresh_file.
      * rewrite lookup_delete_ne by congruence. exact (Hother p Hp Hne).
  - cbn [fst fs]. intros p Hp.
    rewrite (child_stays_inside _ (fs s) p Hp). exact (Hs p Hp).
Qed.

Lemma job_outcome_agree :
  agree_outside (mkdtemp W files) (fs (job_outcome W files).1) files.
Proof.
  assert (Hstart : agree_outside (mkdtemp W files)
                     (<[mkdtemp W files := Dir]> files) files).
  { apply agree_outside_insert; [apply within_self | intros p _; reflexivity]. }
  unfold job_outcome, job_start. rewrite job_steps_spec. cbv zeta.
  rewrite download_notebook_spec.
  destruct (requests_get W _) as [r|cls msg];
    [destruct (is_error_status (status_code r));
       [|destruct (open_error W _ _) as [[cls msg]|]]|];
    try exact Hstart.
  rewrite get_python_kernel_spec.
  assert (Hfetched : agree_outside (mkdtemp W files)
            (<[path_join (mkdtemp W files) (txt "notebook.ipynb")
               := File (content r)]> (<[mkdtemp W files := Dir]> files)) files).
  { apply agree_outside_insert; [apply within_path_join | exact Hstart]. }
  destruct (get_all_specs W) as [names|[cls msg]];
    [cbv zeta;
     destruct (List.find _ names) as [k|];
       [|destruct (List.find _ names) as [k|]]|];
    try exact Hfetched;
    (destruct (truthy_opt (environ W !! "PARAMETERS"%string));
     [destruct (format_parameters _) as [formatted|e]; [|exact Hfetched]|]);
    apply execute_notebook_agree; exact Hfetched.
Qed.

End Frame.

(** X15: a run leaves the file system as it found it.  If the child process
    changes nothing outside the workspace and puts no file at the
    workspace path itself, nothing exists at or below the name picked for
    the workspace, and the name picked for the parameters file is not that
    of a file present at the start, then, whether the run succeeds or fails
    at any step, the files at the end are exactly the files at the start:
    the notebook, the output and the parameters file are all gone. *)
Theorem run_leaves_no_file (files : fsmap) :
  (forall cmd f, agree_outside (mkdtemp W files) (subprocess_run W cmd f).1 f) ->
  (forall cmd f, stuck (mkdtemp W files) f = false ->
                 stuck (mkdtemp W files) (subprocess_run W cmd f).1 = false) ->
  (forall p, within (mkdtemp W files) p = true -> files !! p = None) ->
  (forall f, files !! mkstemp W f = None) ->
  fs (run W files).1 = files.
Proof.
  intros Hchild Hfree Hdir Hfile. rewrite run_fs.
  destruct (truthy_opt (environ W !! "NOTEBOOK"%string)); [|reflexivity].
  rewrite (job_outcome_not_stuck files Hfree).
  pose proof (job_outcome_agree files Hchild Hfile) as Hjob.
  apply map_eq. intros p.
  destruct (within (mkdtemp W files) p) eqn:Hp.
  - rewrite (Hdir p Hp). apply map_lookup_filter_None. right.
    intros x _. cbn [fst]. rewrite Hp. discriminate.
  - rewrite <- (Hjob p Hp).
    destruct (fs (job_outcome W files).1 !! p) as [x|] eqn:El.
    + apply map_lookup_filter_Some. split; [exact El | exact Hp].
    + apply map_lookup_filter_None. left. exact El.
Qed.

(** *** The first match wins *)

Lemma find_first_match (f : str -> bool) (names : list str) (k : str) :
  List.find f names = Some k <-> first_match f names k.
Proof.
  split.
  - induction names as [|a names IH]; [discriminate|]. cbn [List.find].
    destruct (f a) eqn:Ea.
    + intros [= <-]. exists [], names. repeat split; [exact Ea | constructor].
    + intros E. destruct (IH E) as (before & after & -> & Hk & Hb).
      exists (a :: before), after.
      repeat split; [exact Hk | constructor; assumption].
  - intros (before & after & -> & Hk & Hb).
    induction Hb as [|a before Ha Hb IH]; cbn [app List.find].
    + rewrite Hk. reflexivity.
    + rewrite Ha. exact IH.
Qed.

(** X16: kernel resolution for any requested version, in full.  With
    [version] the value of PYTHON_VERSION, or 3.11 when it is unset, the
    kernel returned is the first installed identifier whose lower-cased
    name contains python followed by [version] as it is written; when no
    identifier does, it is the first whose lower-cased name contains
    python; and nothing else is ever returned. *)
Theorem get_python_kernel_first_match (names : list str) (s : state) (k : str) :
  get_all_specs W = inl names ->
  (get_python_kernel W s).2 = Ok k
  <-> first_match
        (fun name =>
           str_in (txt "python" ++
                   default (txt "3.11") (environ W !! "PYTHON_VERSION"%string))
                  (lower name)) names k
      \/ (Forall
            (fun name =>
               str_in (txt "python" ++
                       default (txt "3.11")
                         (environ W !! "PYTHON_VERSION"%string))
                      (lower name) = false) names
          /\ first_match (fun name => str_in (txt "python") (lower name))
                         names k).
Proof.
  intros Hreg. rewrite get_python_kernel_spec, Hreg. cbn [snd]. cbv zeta.
  set (exact_match := fun name : str =>
         str_in (txt "python" ++
                 default (txt "3.11") (environ W !! "PYTHON_VERSION"%string))
                (lower name)).
  set (family := fun name : str => str_in (txt "python") (lower name)).
  rewrite <- !find_first_match, <- find_none_forall.
  fold exact_match. fold family.
  destruct (List.find exact_match names) as [k1|];
    [|destruct (List.find family names) as [k2|]];
    split; intros Hk; try discriminate;
    try (injection Hk as <-; auto; fail);
    try (destruct Hk as [Hk|[Hnone Hk]]; congruence).
Qed.

(** *** Blank parameters *)

Lemma skip_ws_nil_head (t : str) :
  skip_ws t = [] -> startswith t [0xFEFF] = false.
Proof.
  destruct t as [|c t]; [reflexivity|]. cbn [skip_ws startswith].
  destruct (is_ws c) eqn:Ec; [|discriminate]. intros _.
  destruct (65279 =? c) eqn:E; [|reflexivity].
  apply N.eqb_eq in E. subst c. discriminate.
Qed.

(** X17: parameters that hold nothing but JSON white space (spaces, tabs,
    line feeds, carriage returns), the empty text included, are rejected:
    [format_parameters] raises a ValueError whose message is [Invalid JSON
    parameters: Expecting value] with the line, the column and the index
    of the end of the text. *)
Theorem format_parameters_blank (t : str) :
  skip_ws t = [] ->
  format_parameters t =
    Raise (ValueError
             (txt "Invalid JSON parameters: Expecting value: line " ++
              dec_nat (lineno t (List.length t)) ++ txt " column " ++
              dec_nat (colno t (List.length t)) ++ txt " (char " ++
              dec_nat (List.length t) ++ txt ")")).
Proof.
  intros Hblank. unfold format_parameters, json_loads.
  unfold json_loads_at. rewrite (skip_ws_nil_head t Hblank), Hblank.
  cbn [List.length].
  change (scan_once (2 * 0 + 1) loads_depth [])
    with (Some (Stop (A := value (F := F)) O)).
  cbv beta iota. rewrite Nat.sub_0_r. reflexivity.
Qed.

(** *** When the steps of the job complete *)




(** *** Exit codes *)


(** *** Workspace *)

(** C7 (amended): for every job run that creates the workspace (the
    document source is configured), whether it ends in success or in any
    failure, nothing remains at or below the workspace directory when the
    process ends, provided the workspace path has not become a file by the
    time the steps of the job end; and it has not whenever the child
    process puts no file at that path. *)
Theorem workspace_released (files : fsmap) (p : str) :
  truthy_opt (environ W !! "NOTEBOOK"%string) = true ->
  within (mkdtemp W files) p = true ->
  (stuck (mkdtemp W files) (fs (job_outcome W files).1) = false ->
   fs (run W files).1 !! p = None)
  /\ ((forall cmd f,
         stuck (mkdtemp W files) f = false ->
         stuck (mkdtemp W files) (subprocess_run W cmd f).1 = false) ->
      fs (run W files).1 !! p = None).
Proof.
  intros Hnb Hp.
  assert (Hfree : stuck (mkdtemp W files) (fs (job_outcome W files).1) = false ->
                  fs (run W files).1 !! p = None).
  { intros Hfree. rewrite run_fs, Hnb, Hfree.
    apply map_lookup_filter_None. right.
    intros x _. cbn [fst]. rewrite Hp. discriminate. }
  split; [exact Hfree|].
  intros Hchild. apply Hfree, job_outcome_not_stuck, Hchild.
Qed.

(** *** Malformed parameters *)

(** C5 (amended): for every text [t], [format_parameters t] either returns
    the canonical text of the value [t] parses to, or, when [t] is
    malformed, fails with a [ValueError] whose message carries the parse
    diagnostic (message, line, column and character index), unless the
    parser stops on a limit of the interpreter before it has read [t]
    through: [t] has more opening brackets and braces than the decoder may
    nest, and the [RecursionError] of the decoder leaves [format_parameters]
    as it is; or [t] has an integer literal of more digits than [int]
    converts, and the plain [ValueError] of [int] does.  Nothing else ever
    leaves [format_parameters]. *)
Theorem format_parameters_malformed (t : str) :
  (exists v, json_loads t = Ok v /\ format_parameters t = Ok (json_dumps v))
  \/ (exists msg pos,
        json_loads t = Raise (JSONDecodeError msg t pos)
        /\ (pos <= List.length t)%nat
        /\ format_parameters t =
             Raise (ValueError
                      (txt "Invalid JSON parameters: " ++ msg ++
                       txt ": line " ++ dec_nat (lineno t pos) ++
                       txt " column " ++ dec_nat (colno t pos) ++
                       txt " (char " ++ dec_nat pos ++ txt ")")))
  \/ (exists entering,
        (loads_depth < opens t)%nat
        /\ format_parameters t = Raise (exn_of_fault (TooDeep entering)))
  \/ (exists digits,
        (0 < int_max_str_digits)%nat
        /\ (int_max_str_digits < digits)%nat
        /\ (digits <= int_digits t)%nat
        /\ format_parameters t = Raise (exn_of_fault (IntTooLong digits))).
Proof.
  unfold format_parameters.
  destruct (json_loads_total t)
    as [(v & E)|[(msg & pos & E & Hpos)|([entering|digits] & E & Hcause)]];
    rewrite E.
  - left. exists v. split; reflexivity.
  - right; left. exists msg, pos.
    split; [reflexivity|]. split; [exact Hpos|]. reflexivity.
  - right; right; left. exists entering. split; [exact Hcause | reflexivity].
  - right; right; right. exists digits. cbn [fault_cause] in Hcause.
    destruct Hcause as (H1 & H2 & H3). repeat split; assumption.
Qed.

End Properties.

Section Worlds.

Context `{FloatModel F} {limits : Limits}.

(** *** The notifier never fails the job *)


(** *** Empty parameters *)

Lemma format_parameters_empty :
  format_parameters (F := F) [] =
    Raise (ValueError (txt "Invalid JSON parameters: Expecting value: line 1 column 1 (char 0)")).
Proof. reflexivity. Qed.

(** C10: if PARAMETERS is set to the empty string, the job runs exactly
    as if it were not set: [format_parameters] is not called (it would raise
    on the empty string, which is not valid JSON), the line announcing a run
    without parameters is printed, and the executor is invoked on the
    unchanged files with a command that carries no parameters file. *)
Theorem empty_parameters_as_absent (W : World (F := F)) (files : fsmap) :
  environ W !! "PARAMETERS"%string = Some [] ->
  run W files =
    run (with_environ W (delete "PARAMETERS"%string (environ W))) files
  /\ (exists diagnostic,
        format_parameters (F := F) [] = Raise (ValueError diagnostic))
  /\ (forall (notebook_url python_version temp_dir : str) (s : state),
        job_steps W notebook_url (Some []) python_version temp_dir s =
          (print (txt "Downloading notebook from " ++ notebook_url);;
           download_notebook W notebook_url
             (path_join temp_dir (txt "notebook.ipynb"));;
           print (txt "Checking available kernels for Python " ++
                  python_version ++ txt "...");;
           kernel_name ← get_python_kernel W;
           print (txt "Using kernel: " ++ kernel_name);;
           print (txt "Executing notebook without parameters");;
           execute_notebook W (path_join temp_dir (txt "notebook.ipynb"))
             (path_join temp_dir (txt "output.ipynb")) None
             (Some kernel_name)) s)
  /\ (forall (notebook_path output_path : str) (kernel_name : option str)
             (s : state),
        log (execute_notebook W notebook_path output_path None kernel_name s).1
        = log s ++
          [Subprocess
             (if truthy_opt kernel_name
              then [txt "papermill"; notebook_path; output_path] ++
                   [txt "--kernel"; default [] kernel_name]
              else [txt "papermill"; notebook_path; output_path])
             (fs s)]).
Proof.
  intros Hempty.
  split; [|split; [eexists; apply format_parameters_empty|split]].
  - unfold run, main, job_steps, get_python_kernel, get_python_version,
      send_webhook.
    cbn [environ with_environ].
    rewrite lookup_delete_eq, Hempty.
    rewrite !lookup_delete_ne by discriminate.
    reflexivity.
  - intros notebook_url python_version temp_dir s.
    unfold job_steps, mbind, M_bind, print, emit. cbn [truthy_opt truthy is_nil negb].
    destruct (download_notebook W _ _ _) as [s1 [[]|e]]; [|reflexivity].
    destruct (get_python_kernel W _) as [s2 [k|e]]; reflexivity.
  - intros notebook_path output_path kernel_name s.
    unfold execute_notebook. cbn [truthy_opt].
    unfold subprocess_run_call, check_returncode, get_fs, put_fs, emit, raise.
    unfold mbind, M_bind, mret, M_ret. cbn [fs log record].
    destruct (subprocess_run W _ _) as [files' [[code err]|[cls msg]]];
      cbn [fst snd]; [destruct (negb (code =? 0)%Z)|]; reflexivity.
Qed.

End Worlds.

(** ** Examples *)

#[local] Existing Instance literal_floats.
#[local] Existing Instance default_limits.

(** C1: the code misses the policy it attempts when the requested version
    has an upper-case letter.  With the kernels python3.9 and python3.11rc1
    installed and PYTHON_VERSION set to 3.11RC1, the identifier
    python3.11rc1 contains python3.11RC1 case-insensitively, so the policy
    selects it; [get_python_kernel] lower-cases the identifier and not the
    version, finds no exact match, and returns python3.9. *)
Lemma get_python_kernel_uppercase_version :
  resolve_spec [txt "python3.9"; txt "python3.11rc1"] (txt "3.11RC1")
    = Some (txt "python3.11rc1")
  /\ get_python_kernel uppercase_version_world empty_state
    = (record ListKernels empty_state, Ok (txt "python3.9")).
Proof. split; vm_compute; reflexivity. Qed.

(** C2, witness: no NOTEBOOK, a WEBHOOK. *)
Lemma missing_notebook_fails_fast_witness :
  exit_status (run no_notebook_world ∅).2 = 1%Z
  /\ fs (run no_notebook_world ∅).1 = ∅.
Proof.
  pose proof (missing_notebook_fails_fast no_notebook_world ∅ eq_refl)
    as (_ & Hexit & Hfs & _).
  split; [exact Hexit | exact Hfs].
Defined.

(** C2, counterexample: the diagnostic that is printed and posted is
    [NOTEBOOK environment variable is not set], which is not the text the
    claim quotes. *)
Lemma missing_notebook_message :
  log (run no_notebook_world ∅).1 =
    [Stderr (txt "Error: NOTEBOOK environment variable is not set");
     HttpPost (txt "https://hooks.example/job")
              (VDict [(txt "status", VStr (txt "failed"));
                      (txt "message",
                       VStr (txt "NOTEBOOK environment variable is not set"))])
              [];
     StdoutRepr (txt "Webhook sent successfully: ") (VDict [])]
  /\ txt "NOTEBOOK environment variable is not set"
     <> txt "document source not specified".
Proof. split; [vm_compute; reflexivity | discriminate]. Qed.


(** C5, counterexample: eleven hundred opening brackets are no JSON, and
    what leaves [format_parameters] is the RecursionError of the decoder,
    not a ValueError. *)
Lemma format_parameters_deep_nesting :
  format_parameters deep_parameters =
    Raise (LibraryError
             (txt "RecursionError")
             (txt "maximum recursion depth exceeded while decoding a JSON array from a unicode string")).
Proof. vm_compute. reflexivity. Qed.


(** C7, witness: the fetched notebook is gone when the run ends. *)
Lemma workspace_released_witness :
  fs (run notebook_world ∅).1 !! txt "/tmp/tmpjob/notebook.ipynb" = None.
Proof.
  apply (proj1 (workspace_released notebook_world ∅
                  (txt "/tmp/tmpjob/notebook.ipynb") eq_refl eq_refl)).
  vm_compute. reflexivity.
Defined.

(** C7, counterexample: the workspace was created, the run has ended, and
    the file that the child left at the workspace path is still there. *)
Lemma workspace_path_remains :
  truthy_opt (environ squatter_world !! "NOTEBOOK"%string) = true
  /\ within (mkdtemp squatter_world ∅) (txt "/tmp/tmpjob") = true
  /\ fs (run squatter_world ∅).1 !! txt "/tmp/tmpjob" = Some (File []).
Proof. repeat split; vm_compute; reflexivity. Qed.

(** C8, witness: parameters [{}] and the kernel python3.11. *)
Lemma parameters_file_scoped_witness :
  log (execute_notebook notebook_world (txt "in.ipynb") (txt "out.ipynb")
         (Some (txt "{}")) (Some (txt "python3.11")) empty_state).1 =
    [Subprocess
       [txt "papermill"; txt "in.ipynb"; txt "out.ipynb"; txt "--kernel";
        txt "python3.11"; txt "-f"; txt "/tmp/tmpparams.json"]
       (<[txt "/tmp/tmpparams.json" := File (txt "{}")]> ∅)].
Proof.
  exact (proj1 (parameters_file_scoped notebook_world (txt "in.ipynb")
                  (txt "out.ipynb") (txt "{}") (Some (txt "python3.11"))
                  empty_state eq_refl)).
Defined.

(** C10, witness: PARAMETERS set to the empty string. *)
Lemma empty_parameters_as_absent_witness :
  run empty_parameters_world ∅ =
    run (with_environ empty_parameters_world
           (delete "PARAMETERS"%string (environ empty_parameters_world))) ∅.
Proof.
  exact (proj1 (empty_parameters_as_absent empty_parameters_world ∅ eq_refl)).
Defined.


(** The literal model of floats obeys the laws assumed of floats. *)
Lemma literal_floats_laws : float_laws.
Proof. intros lit x Hlit [= <-]. split; [exact Hlit | reflexivity]. Qed.

(** C4, witness: an object with a list, a float and an escape. *)
Lemma format_parameters_idempotent_witness :
  scalar_text sample_parameters = true
  /\ format_parameters sample_parameters = Ok sample_formatted
  /\ format_parameters sample_formatted = Ok sample_formatted.
Proof.
  assert (E : format_parameters sample_parameters = Ok sample_formatted)
    by (vm_compute; reflexivity).
  split; [reflexivity|]. split; [exact E|].
  exact (format_parameters_idempotent sample_parameters sample_formatted
           literal_floats_laws eq_refl E).
Defined.

(** C4, counterexample: the text parses, with two distinct keys; written
    out, both keys are the same escape, so formatting the output again
    keeps one member only. *)
Lemma format_parameters_surrogate_keys :
  format_parameters surrogate_keys = Ok surrogate_keys_once
  /\ format_parameters surrogate_keys_once = Ok surrogate_keys_twice
  /\ surrogate_keys_once <> surrogate_keys_twice.
Proof. repeat split; [vm_compute; reflexivity .. | discriminate]. Qed.

(** X1, witness: a registry with an R kernel and two Python kernels, none
    of the version asked for. *)
Lemma get_python_kernel_sound_witness :
  (forall k s',
     get_python_kernel other_version_world empty_state = (s', Ok k) ->
     In k [txt "ir"; txt "python3.9"; txt "pypy-python"]
     /\ str_in (txt "python") (lower k) = true)
  /\ ((exists k s',
         get_python_kernel other_version_world empty_state = (s', Ok k))
      <-> Exists (fun k => str_in (txt "python") (lower k) = true)
                 [txt "ir"; txt "python3.9"; txt "pypy-python"]).
Proof.
  exact (get_python_kernel_sound other_version_world
           [txt "ir"; txt "python3.9"; txt "pypy-python"] empty_state eq_refl).
Defined.

(** X16, witness: version 3.12 is asked for, no identifier has it, and
    python3.9 is the first with python. *)
Lemma get_python_kernel_first_match_witness :
  (get_python_kernel other_version_world empty_state).2 = Ok (txt "python3.9")
  <-> first_match (fun name => str_in (txt "python3.12") (lower name))
                  [txt "ir"; txt "python3.9"; txt "pypy-python"]
                  (txt "python3.9")
      \/ (Forall (fun name => str_in (txt "python3.12") (lower name) = false)
                 [txt "ir"; txt "python3.9"; txt "pypy-python"]
          /\ first_match (fun name => str_in (txt "python") (lower name))
                         [txt "ir"; txt "python3.9"; txt "pypy-python"]
                         (txt "python3.9")).
Proof.
  exact (get_python_kernel_first_match other_version_world
           [txt "ir"; txt "python3.9"; txt "pypy-python"] empty_state
           (txt "python3.9") eq_refl).
Defined.

(** X2, witness: only an R kernel is installed. *)
Lemma get_python_kernel_failure_witness :
  (get_python_kernel no_python_world empty_state).1
    = record ListKernels empty_state
  /\ ((exists cls msg,
         get_all_specs no_python_world = inr (cls, msg)
         /\ ValueError
              (txt "Error getting kernel: No Python kernel found for version 3.11")
            = ValueError (txt "Error getting kernel: " ++ msg))
      \/ (exists names,
            get_all_specs no_python_world = inl names
            /\ Forall (fun k => str_in (txt "python") (lower k) = false) names
            /\ ValueError
                 (txt "Error getting kernel: No Python kernel found for version 3.11")
               = ValueError
                   (txt "Error getting kernel: No Python kernel found for version "
                    ++ txt "3.11"))).
Proof.
  split.
  - exact (proj1 (get_python_kernel_failure no_python_world empty_state)).
  - exact (proj2 (get_python_kernel_failure no_python_world empty_state)
             (ValueError
                (txt "Error getting kernel: No Python kernel found for version 3.11"))
             eq_refl).
Defined.

(** X4, witness: the server answers, and the output file cannot be
    opened. *)
Lemma download_notebook_failure_witness :
  (download_notebook unwritable_world (txt "https://nb.example/a.ipynb")
     (txt "/tmp/tmpjob/notebook.ipynb") empty_state).2
  = Raise (ValueError
             (txt "Failed to download notebook: [Errno 2] No such file or directory: '/tmp/tmpjob/notebook.ipynb'"))
  /\ (download_notebook unwritable_world (txt "https://nb.example/a.ipynb")
        (txt "/tmp/tmpjob/notebook.ipynb") empty_state).1
     = record (HttpGet (txt "https://nb.example/a.ipynb")) empty_state.
Proof.
  split; [reflexivity|].
  exact (proj1 (download_notebook_failure unwritable_world
                  (txt "https://nb.example/a.ipynb")
                  (txt "/tmp/tmpjob/notebook.ipynb") empty_state
                  (ValueError
                     (txt "Failed to download notebook: [Errno 2] No such file or directory: '/tmp/tmpjob/notebook.ipynb'"))
                  eq_refl)).
Defined.

(** X5, witness: papermill exits with status 1. *)
Lemma execute_notebook_reports_returncode_witness :
  (execute_notebook failing_papermill_world (txt "in.ipynb") (txt "out.ipynb")
     (Some (txt "{}")) (Some (txt "python3.11")) empty_state).2
  = Raise (RuntimeError (txt "Notebook execution failed: PapermillExecutionError"))
  /\ fs (execute_notebook failing_papermill_world (txt "in.ipynb")
           (txt "out.ipynb") (Some (txt "{}")) (Some (txt "python3.11"))
           empty_state).1
     = delete (txt "/tmp/tmpparams.json")
         (<[txt "/tmp/tmpparams.json" := File (txt "{}")]> ∅).
Proof.
  apply (execute_notebook_reports_returncode failing_papermill_world
           (txt "in.ipynb") (txt "out.ipynb") (Some (txt "{}"))
           (Some (txt "python3.11")) empty_state
           (<[txt "/tmp/tmpparams.json" := File (txt "{}")]> ∅)
           (inl (1%Z, txt "PapermillExecutionError"))).
  - reflexivity.
  - intros _. exists (txt "{}"). reflexivity.
Defined.

(** X6, witness: the child exits with 0 and has removed the parameters
    file. *)
Lemma execute_notebook_cleanup_masks_outcome_witness :
  (execute_notebook tidy_child_world (txt "in.ipynb") (txt "out.ipynb")
     (Some (txt "{}")) (Some (txt "python3.11")) empty_state).2
  = Raise (FileNotFoundError (txt "/tmp/tmpparams.json")).
Proof.
  apply (execute_notebook_cleanup_masks_outcome tidy_child_world
           (txt "in.ipynb") (txt "out.ipynb") (txt "{}")
           (Some (txt "python3.11")) empty_state
           (delete (txt "/tmp/tmpparams.json")
              (<[txt "/tmp/tmpparams.json" := File (txt "{}")]> ∅))
           (inl (0%Z, []))).
  - reflexivity.
  - reflexivity.
  - vm_compute. reflexivity.
Defined.

(** X7, witness: the endpoint accepts the post and answers ok, which is no
    JSON. *)
Lemma send_webhook_outcome_line_witness :
  log (send_webhook plain_answer_world (Some (txt "https://hooks.example/job"))
         (txt "success") (txt "done") empty_state).1
  = [HttpPost (txt "https://hooks.example/job")
              (webhook_payload (txt "success") (txt "done")) [];
     Stderr (txt "Warning: Failed to send webhook: Expecting value: line 1 column 1 (char 0)")].
Proof.
  exact (send_webhook_outcome_line plain_answer_world
           (Some (txt "https://hooks.example/job")) (txt "success")
           (txt "done") empty_state eq_refl).
Defined.


(** X11, witness: PARAMETERS with an unquoted key. *)
Lemma malformed_parameters_never_execute_witness :
  exit_status (run malformed_parameters_world ∅).2 = 1%Z
  /\ Forall not_a_subprocess (log (run malformed_parameters_world ∅).1)
  /\ In (HttpGet (txt "https://nb.example/a.ipynb"))
        (log (run malformed_parameters_world ∅).1).
Proof.
  exact (malformed_parameters_never_execute malformed_parameters_world ∅
           (ValueError
              (txt "Invalid JSON parameters: Expecting property name enclosed in double quotes: line 1 column 2 (char 1)"))
           eq_refl eq_refl eq_refl).
Defined.

(** X12, witness: a Latin-1 letter and a character beyond the basic
    plane. *)
Lemma format_parameters_ascii_witness :
  format_parameters accented_parameters = Ok accented_formatted
  /\ ascii_text accented_formatted = true
  /\ truthy accented_formatted = true.
Proof.
  assert (E : format_parameters accented_parameters = Ok accented_formatted)
    by (vm_compute; reflexivity).
  split; [exact E|].
  exact (format_parameters_ascii accented_parameters accented_formatted
           literal_floats_laws E).
Defined.

(** X13, witness: the same text. *)
Lemma format_parameters_preserves_value_witness :
  scalar_text accented_parameters = true
  /\ json_loads accented_formatted = json_loads accented_parameters.
Proof.
  split; [reflexivity|].
  apply (format_parameters_preserves_value accented_parameters
           accented_formatted literal_floats_laws); [reflexivity|].
  vm_compute. reflexivity.
Defined.

(** X17, witness: a space, a line feed and a tab. *)
Lemma format_parameters_blank_witness :
  format_parameters [32; 10; 9] =
    Raise (ValueError
             (txt "Invalid JSON parameters: Expecting value: line 2 column 2 (char 3)")).
Proof. exact (format_parameters_blank [32; 10; 9] eq_refl). Defined.

(** X14, witness: every collaborator succeeds. *)
Lemma successful_run_trace_witness :
  (run full_world ∅).2 = Ok tt
  /\ log (run full_world ∅).1 =
       [Stdout (txt "Downloading notebook from https://nb.example/a.ipynb");
        HttpGet (txt "https://nb.example/a.ipynb");
        Stdout (txt "Checking available kernels for Python 3.11...");
        ListKernels;
        Stdout (txt "Using kernel: python3.11");
        Stdout (txt "Executing notebook with parameters");
        Stdout (txt "Formatted parameters:");
        Stdout full_formatted;
        Subprocess [txt "papermill"; txt "/tmp/tmpjob/notebook.ipynb";
                    txt "/tmp/tmpjob/output.ipynb"; txt "--kernel";
                    txt "python3.11"; txt "-f"; txt "/tmp/tmpparams.json"]
                   full_at_call;
        Stdout (txt "Notebook execution completed successfully");
        HttpPost (txt "https://hooks.example/job")
                 (webhook_payload (txt "success")
                    (txt "Notebook execution completed successfully")) [];
        StdoutRepr (txt "Webhook sent successfully: ") (VDict [])].
Proof.
  exact (successful_run_trace full_world ∅
           (txt "https://nb.example/a.ipynb")
           (txt "{" ++ quoted (txt "alpha") ++ txt ":1}")
           full_formatted (txt "python3.11") []
           (ok_response (txt "https://nb.example/a.ipynb") (txt "{}"))
           full_at_call
           literal_floats_laws eq_refl eq_refl eq_refl eq_refl eq_refl eq_refl
           eq_refl eq_refl eq_refl eq_refl (ex_intro _ full_formatted eq_refl)
           eq_refl).
Defined.

(** X15, witness: a file outside the workspace is there before and
    after. *)
Lemma run_leaves_no_file_witness : fs (run full_world kept_files).1 = kept_files.
Proof.
  apply (run_leaves_no_file full_world kept_files).
  - intros cmd f p _. reflexivity.
  - intros cmd f Hf. exact Hf.
  - intros p Hp. apply lookup_singleton_ne. intros <-. discriminate Hp.
  - intros f. reflexivity.
Defined.
